(** * Knowledge-graph service of ResearchGraph AI: a shallow embedding

    Source: [backend/app/services/knowledge_graph_service.py], with the ORM
    records of [backend/app/models/research_paper.py] and the session
    context manager of [backend/app/database.py].

    Conventions of the embedding.
    - Python [float] values are idealised as exact rationals ([Q]); Python
      [int] values are [Z]; [str] is [string].
    - A Python function that may raise returns a [Result]; [try]/[except]
      is a [match] on it.
    - A [dict] whose iteration order is not observed is a [gmap]; lists
      stay lists.
    - The database session, numpy, the clock and the heavy graph
      algorithms of networkx are collaborators: records of operations that
      every definition takes as an argument. *)

From Stdlib Require Import ZArith QArith Lqa Ascii Sorted.
From stdpp Require Import base option list gmap strings pretty fin_maps.

Open Scope string_scope.
Open Scope Z_scope.

Set Warnings "-clear-no-such-hyp".

(** ** Python exceptions and fallible computations *)

Inductive Exn :=
  | KeyError (key : string)
  | ValueError (msg : string)
  | ZeroDivisionError (msg : string)
  | NetworkXPointlessConcept (msg : string)
  | NetworkXError (msg : string)
  | PowerIterationFailedConvergence (msg : string)
  | DBAPIError (msg : string).

(** [str(e)] as the handlers of the service print it. *)
Definition str_exn (e : Exn) : string :=
  match e with
  | KeyError k => "'" +:+ k +:+ "'"
  | ValueError m | ZeroDivisionError m | NetworkXPointlessConcept m
  | NetworkXError m | PowerIterationFailedConvergence m | DBAPIError m => m
  end.

Inductive Result (A : Type) :=
  | Ok (a : A)
  | Raise (e : Exn).
Arguments Ok {A} a.
Arguments Raise {A} e.

#[global] Instance Result_ret : MRet Result := fun _ a => Ok a.
#[global] Instance Result_bind : MBind Result := fun _ _ f r =>
  match r with Ok a => f a | Raise e => Raise e end.
#[global] Instance Result_fmap : FMap Result := fun _ _ f r =>
  match r with Ok a => Ok (f a) | Raise e => Raise e end.

(** Whether a computation returned. *)
Definition succeeded {A} (r : Result A) : bool :=
  match r with Ok _ => true | Raise _ => false end.

(** A loop whose body may raise. *)
Fixpoint for_each {A S : Type} (body : S -> A -> Result S) (l : list A) (s : S)
  : Result S :=
  match l with
  | [] => Ok s
  | a :: l' => s' ← body s a; for_each body l' s'
  end.

(** ** Python values stored in property bags and result dictionaries *)

#[warnings="-register-all"]
Inductive PyVal :=
  | PNone
  | PBool (b : bool)
  | PInt (z : Z)
  | PFloat (q : Q)
  | PStr (s : string)
  | PList (l : list PyVal)
  | PDict (d : list (string * PyVal)).

Definition opt_str (o : option string) : PyVal :=
  match o with Some s => PStr s | None => PNone end.
Definition opt_int (o : option Z) : PyVal :=
  match o with Some z => PInt z | None => PNone end.

(** [len(l)] as a Python [int]. *)
Definition len {A} (l : list A) : Z := Z.of_nat (length l).

(** ** Data model *)

Inductive NodeType :=
  | PAPER | AUTHOR | CONCEPT | INSTITUTION | JOURNAL | KEYWORD
  | GENE | PROTEIN | DISEASE | DRUG | METHOD.

Inductive EdgeType :=
  | CITES | AUTHORED_BY | AFFILIATED_WITH | PUBLISHED_IN | RELATED_TO
  | STUDIES | TREATS | INTERACTS_WITH | USES_METHOD.

#[global] Instance NodeType_eq_dec : EqDecision NodeType.
Proof. solve_decision. Defined.
#[global] Instance EdgeType_eq_dec : EqDecision EdgeType.
Proof. solve_decision. Defined.

Module NodeType_.
Definition value (t : NodeType) : string :=
  match t with
  | PAPER => "paper" | AUTHOR => "author" | CONCEPT => "concept"
  | INSTITUTION => "institution" | JOURNAL => "journal"
  | KEYWORD => "keyword" | GENE => "gene" | PROTEIN => "protein"
  | DISEASE => "disease" | DRUG => "drug" | METHOD => "method"
  end.
End NodeType_.

Module EdgeType_.
Definition value (t : EdgeType) : string :=
  match t with
  | CITES => "cites" | AUTHORED_BY => "authored_by"
  | AFFILIATED_WITH => "affiliated_with" | PUBLISHED_IN => "published_in"
  | RELATED_TO => "related_to" | STUDIES => "studies" | TREATS => "treats"
  | INTERACTS_WITH => "interacts_with" | USES_METHOD => "uses_method"
  end.
End EdgeType_.

(** A position dictionary [{"x": _, "y": _, "z": _}]. *)
Module Pos.
Record t := mk { x : Q; y : Q; z : Q }.
Definition origin : t := mk 0 0 0.
Definition to_py (p : t) : PyVal :=
  PDict [("x", PFloat (x p)); ("y", PFloat (y p)); ("z", PFloat (z p))].
End Pos.

Module GraphNode.
Record t := mk {
  id : string;
  label : string;
  node_type : NodeType;
  properties : list (string * PyVal);
  position : option Pos.t;
  cluster_id : option string;
  importance_score : Q
}.
(** The dataclass defaults: no position, no cluster, importance 0.0. *)
Definition new (i l : string) (ty : NodeType) (props : list (string * PyVal)) : t :=
  mk i l ty props None None 0%Q.
End GraphNode.

Module GraphEdge.
Record t := mk {
  source : string;
  target : string;
  edge_type : EdgeType;
  weight : Q;
  properties : option (list (string * PyVal))
}.
End GraphEdge.

Module GraphCluster.
Record t := mk {
  id : string;
  name : string;
  description : string;
  nodes : list string;
  center : Pos.t;
  color : string;
  size : Z
}.
End GraphCluster.

(** ** ORM records the builder reads (models/research_paper.py)

  Primary keys are UUIDs; only their [str()] is used, so they are strings
  here. A [datetime] is kept as its [isoformat()] string. *)

Module Researcher.
Record t := mk {
  id : string;
  name : string;
  institution : option string;
  orcid : option string;
  h_index : option Z;
  total_citations : Z
}.
End Researcher.

Module Keyword.
Record t := mk {
  id : string;
  term : string;
  category : option string;
  usage_count : Z
}.
End Keyword.

Module Citation.
Record t := mk {
  cited_paper_id : string;
  context : option string;
  citation_type : option string
}.
End Citation.

Module ResearchPaper.
Record t := mk {
  id : string;
  title : string;
  abstract : option string;
  doi : option string;
  publication_date : option string;
  citation_count : Z;
  research_domains : option (list string);
  has_null_results : bool;
  authors : list Researcher.t;
  keywords : list Keyword.t;
  citations_made : list Citation.t
}.
End ResearchPaper.

(** The row handed to the persistence sink by [_save_knowledge_graph]. *)
Module KnowledgeGraph.
Record t := mk {
  name : string;
  description : string;
  nodes : list (gmap string PyVal);
  edges : list (gmap string PyVal);
  metadata : gmap string PyVal;
  created_by_id : string;
  is_public : bool
}.
End KnowledgeGraph.

(** ** The database session (collaborator)

  [select(ResearchPaper).where(id in ids).limit(n)] is a [Query]; what
  the store answers, and whether a commit, rollback or close succeeds,
  belongs to the session. *)

Module Query.
Record t := mk {
  id_in : option (list string);
  limit : Z
}.
End Query.

Module Session.
Record t := mk {
  execute : Query.t -> Result (list ResearchPaper.t);
  commit : KnowledgeGraph.t -> Result string;
  rollback : Result unit;
  close : Result unit
}.
End Session.

(** ** Graph builder: [_collect_graph_data] *)

Module Build.
(** The three accumulators of the builder: [nodes], [edges], [node_ids]. *)
Record t := mk {
  nodes : list GraphNode.t;
  edges : list GraphEdge.t;
  node_ids : gset string
}.
Definition empty : t := mk [] [] ∅.
Definition append_node (n : GraphNode.t) (s : t) : t :=
  mk (nodes s ++ [n]) (edges s) ({[GraphNode.id n]} ∪ node_ids s).
Definition append_edge (e : GraphEdge.t) (s : t) : t :=
  mk (nodes s) (edges s ++ [e]) (node_ids s).
End Build.

Definition paper_node (paper : ResearchPaper.t) : GraphNode.t :=
  GraphNode.new ("paper_" +:+ ResearchPaper.id paper)
    (String.substring 0 100 (ResearchPaper.title paper))
    PAPER
    [ ("title", PStr (ResearchPaper.title paper));
      ("abstract", opt_str (ResearchPaper.abstract paper));
      ("doi", opt_str (ResearchPaper.doi paper));
      ("publication_date", opt_str (ResearchPaper.publication_date paper));
      ("citation_count", PInt (ResearchPaper.citation_count paper));
      ("research_domains",
        match ResearchPaper.research_domains paper with
        | Some l => PList (PStr <$> l) | None => PNone end);
      ("has_null_results", PBool (ResearchPaper.has_null_results paper)) ].

Definition author_node (author : Researcher.t) : GraphNode.t :=
  GraphNode.new ("author_" +:+ Researcher.id author)
    (Researcher.name author)
    AUTHOR
    [ ("name", PStr (Researcher.name author));
      ("institution", opt_str (Researcher.institution author));
      ("orcid", opt_str (Researcher.orcid author));
      ("h_index", opt_int (Researcher.h_index author));
      ("total_citations", PInt (Researcher.total_citations author)) ].

Definition keyword_node (keyword : Keyword.t) : GraphNode.t :=
  GraphNode.new ("keyword_" +:+ Keyword.id keyword)
    (Keyword.term keyword)
    KEYWORD
    [ ("term", PStr (Keyword.term keyword));
      ("category", opt_str (Keyword.category keyword));
      ("usage_count", PInt (Keyword.usage_count keyword)) ].

(** Body of [for author in paper.authors]: the node is admitted only when
    it is new and the budget allows; the edge is appended in every case. *)
Definition add_author (max_nodes : Z) (node : GraphNode.t)
    (s : Build.t) (author : Researcher.t) : Build.t :=
  let author_id := "author_" +:+ Researcher.id author in
  let s1 :=
    if bool_decide (author_id ∉ Build.node_ids s) && (len (Build.nodes s) <? max_nodes)
    then Build.append_node (author_node author) s
    else s in
  Build.append_edge
    (GraphEdge.mk author_id (GraphNode.id node) AUTHORED_BY 1%Q None) s1.

(** Body of [for keyword in paper.keywords]. *)
Definition add_keyword (max_nodes : Z) (node : GraphNode.t)
    (s : Build.t) (keyword : Keyword.t) : Build.t :=
  let keyword_id := "keyword_" +:+ Keyword.id keyword in
  let s1 :=
    if bool_decide (keyword_id ∉ Build.node_ids s) && (len (Build.nodes s) <? max_nodes)
    then Build.append_node (keyword_node keyword) s
    else s in
  Build.append_edge
    (GraphEdge.mk (GraphNode.id node) keyword_id RELATED_TO (1 # 2)%Q None) s1.

(** One admitted paper: its node, then its authors, then its keywords. *)
Definition add_paper (max_nodes : Z) (s : Build.t) (paper : ResearchPaper.t) : Build.t :=
  let node := paper_node paper in
  let s1 := Build.append_node node s in
  let s2 := foldl (add_author max_nodes node) s1 (ResearchPaper.authors paper) in
  foldl (add_keyword max_nodes node) s2 (ResearchPaper.keywords paper).

(** [for paper in papers_data], with its [break] once the budget is met. *)
Fixpoint paper_loop (max_nodes : Z) (papers_data : list ResearchPaper.t)
    (s : Build.t) : Build.t :=
  match papers_data with
  | [] => s
  | paper :: rest =>
      if len (Build.nodes s) >=? max_nodes then s
      else paper_loop max_nodes rest (add_paper max_nodes s paper)
  end.

(** Citation edges: only towards papers whose id is in [node_ids]. *)
Definition add_citation (paper_id : string) (s : Build.t) (citation : Citation.t) : Build.t :=
  let cited_paper_id := "paper_" +:+ Citation.cited_paper_id citation in
  if bool_decide (cited_paper_id ∈ Build.node_ids s)
  then Build.append_edge
         (GraphEdge.mk paper_id cited_paper_id CITES 1%Q
            (Some [ ("context", opt_str (Citation.context citation));
                    ("citation_type", opt_str (Citation.citation_type citation)) ])) s
  else s.

Definition add_citations (s : Build.t) (paper : ResearchPaper.t) : Build.t :=
  foldl (add_citation ("paper_" +:+ ResearchPaper.id paper)) s
    (ResearchPaper.citations_made paper).

(** The query the builder issues: [if papers:] is false for [None] and for
    the empty list; the keyword and author filters are not applied. *)
Definition paper_query (papers : option (list string)) (max_nodes : Z) : Query.t :=
  Query.mk
    (match papers with
     | Some (p :: ps) => Some (p :: ps)
     | _ => None
     end)
    (max_nodes / 2).

Definition _collect_graph_data (session : Session.t)
    (papers authors keywords : option (list string)) (max_nodes : Z)
  : Result (list GraphNode.t * list GraphEdge.t) :=
  papers_data ← Session.execute session (paper_query papers max_nodes);
  let s := paper_loop max_nodes papers_data Build.empty in
  let s := foldl add_citations s papers_data in
  Ok (Build.nodes s, Build.edges s).

(** The number of nodes a run of the builder returned. *)
Definition collected_count (r : Result (list GraphNode.t * list GraphEdge.t)) : nat :=
  match r with Ok (nodes, _) => length nodes | Raise _ => 0%nat end.

(** ** An in-memory data store

    A session over a fixed table of papers, used by the concrete examples.
    The id filter and the limit are applied as PostgreSQL applies them; a
    negative limit is rejected by the database. The outcome of a commit is
    fixed when the session is made. *)

Definition select_papers (db : list ResearchPaper.t) (q : Query.t)
  : Result (list ResearchPaper.t) :=
  let rows :=
    match Query.id_in q with
    | Some ids => filter (fun p => ResearchPaper.id p ∈ ids) db
    | None => db
    end in
  if Query.limit q <? 0 then Raise (DBAPIError "LIMIT must not be negative")
  else Ok (take (Z.to_nat (Query.limit q)) rows).

Definition memory_session (db : list ResearchPaper.t)
    (commit_outcome : Result string) : Session.t :=
  Session.mk (select_papers db) (fun _ => commit_outcome) (Ok tt) (Ok tt).

(** ** networkx (collaborator)

    The undirected [nx.Graph] and the library functions the service calls.
    The graph structure, the counts, connectivity, diameter, density and
    degree centrality follow networkx's documented behaviour and are
    executable. The heavier algorithms (clustering coefficient, path
    lengths, the betweenness accumulation, closeness, eigenvector
    iteration, Louvain, the 2D spring layout) are operations of the
    [Algorithms] interface. *)

Module nx.

(** [_node] keeps insertion order (it is what [G.nodes()] and [for v in G]
    iterate over); [_adj] maps a node to its neighbours and the attributes
    of the connecting edge. *)
Record Graph := mk {
  _node : list (string * gmap string PyVal);
  _adj : gmap string (gmap string (gmap string PyVal))
}.

Definition empty : Graph := mk [] ∅.

Definition nodes (g : Graph) : list string := fst <$> _node g.

Definition has_node (g : Graph) (n : string) : bool :=
  bool_decide (n ∈ nodes g).

(** [G.add_node(n, **attr)]: a new node is appended with an empty
    adjacency; an existing node has its attributes updated. *)
Definition add_node (n : string) (attr : gmap string PyVal) (g : Graph) : Graph :=
  if has_node g n
  then mk ((fun '(m, a) => if bool_decide (m = n) then (m, attr ∪ a) else (m, a)) <$> _node g)
          (_adj g)
  else mk (_node g ++ [(n, attr)]) (<[n := ∅]> (_adj g)).

(** [G.add_edge(u, v, **attr)]: endpoints that are not nodes yet are
    created without attributes; the edge is stored in both directions. *)
Definition add_edge (u v : string) (attr : gmap string PyVal) (g : Graph) : Graph :=
  let g := if has_node g u then g else mk (_node g ++ [(u, ∅)]) (<[u := ∅]> (_adj g)) in
  let g := if has_node g v then g else mk (_node g ++ [(v, ∅)]) (<[v := ∅]> (_adj g)) in
  let datadict := attr ∪ default ∅ (default ∅ (_adj g !! u) !! v) in
  let adj := <[u := <[v := datadict]> (default ∅ (_adj g !! u))]> (_adj g) in
  let adj := <[v := <[u := datadict]> (default ∅ (adj !! v))]> adj in
  mk (_node g) adj.

Definition number_of_nodes (g : Graph) : Z := len (_node g).

Definition neighbors (g : Graph) (n : string) : gset string :=
  dom (default ∅ (_adj g !! n)).

(** [G.degree(n)]: a self-loop counts twice. *)
Definition degree (g : Graph) (n : string) : Z :=
  Z.of_nat (size (neighbors g n)) + (if bool_decide (n ∈ neighbors g n) then 1 else 0).

Definition sumZ (l : list Z) : Z := foldr Z.add 0 l.

(** [G.number_of_edges()] is [G.size()]: half the degree sum. *)
Definition number_of_edges (g : Graph) : Z :=
  sumZ (degree g <$> nodes g) / 2.

Definition density (g : Graph) : Q :=
  let n := number_of_nodes g in
  let m := number_of_edges g in
  if (m =? 0) || (n <=? 1) then 0%Q
  else (2 * (inject_Z m / inject_Z (n * (n - 1))))%Q.

(** Breadth-first search by levels: [dist] holds the nodes reached so far
    with their distance, [frontier] the nodes at distance [d]. The fuel is
    the number of nodes, which bounds the number of levels. *)
Fixpoint bfs (g : Graph) (fuel : nat) (d : Z) (frontier : gset string)
    (dist : gmap string Z) : gmap string Z :=
  match fuel with
  | O => dist
  | S fuel' =>
      let next := filter (fun v => dist !! v = None)
                    (⋃ (neighbors g <$> elements frontier)) in
      if bool_decide (next = ∅) then dist
      else bfs g fuel' (d + 1) next (gset_to_gmap (d + 1) next ∪ dist)
  end.

Definition single_source_shortest_path_length (g : Graph) (s : string)
  : gmap string Z :=
  bfs g (length (_node g)) 0 {[s]} {[s := 0]}.

(** [nx.is_connected]: undefined on the null graph; otherwise the search
    from the first node must reach every node. *)
Definition is_connected (g : Graph) : Result bool :=
  match nodes g with
  | [] => Raise (NetworkXPointlessConcept "Connectivity is undefined for the null graph.")
  | s :: _ =>
      Ok (Z.of_nat (size (single_source_shortest_path_length g s)) =? number_of_nodes g)
  end.

(** [nx.number_connected_components]: one component per node that no
    earlier search has seen. *)
Definition number_connected_components (g : Graph) : Z :=
  fst (foldl (fun '(count, seen) v =>
                if bool_decide (v ∈ seen) then (count, seen)
                else (count + 1, dom (single_source_shortest_path_length g v) ∪ seen))
             (0, (∅ : gset string)) (nodes g)).

Definition maxZ (l : list Z) : option Z :=
  match l with
  | [] => None
  | a :: l' => Some (foldl Z.max a l')
  end.

(** [nx.eccentricity] of one node: the largest distance, provided every
    node was reached. *)
Definition eccentricity (g : Graph) (v : string) : Result Z :=
  let length := single_source_shortest_path_length g v in
  if bool_decide (Z.of_nat (size length) = number_of_nodes g)
  then match maxZ (snd <$> map_to_list length) with
       | Some e => Ok e
       | None => Raise (ValueError "max() arg is an empty sequence")
       end
  else Raise (NetworkXError
         "Found infinite path length because the graph is not connected").

(** [nx.diameter]: the largest eccentricity. *)
Definition diameter (g : Graph) : Result Z :=
  es ← for_each (fun acc v => e ← eccentricity g v; Ok (acc ++ [e])%list) (nodes g) [];
  match maxZ es with
  | Some dm => Ok dm
  | None => Raise (ValueError "max() arg is an empty sequence")
  end.

(** [nx.degree_centrality]: degree over [n - 1]; with at most one node
    every node gets 1. *)
Definition degree_centrality (g : Graph) : gmap string Q :=
  if number_of_nodes g <=? 1
  then list_to_map ((fun n => (n, 1%Q)) <$> nodes g)
  else
    let s := (1 / inject_Z (number_of_nodes g - 1))%Q in
    list_to_map ((fun n => (n, (inject_Z (degree g n) * s)%Q)) <$> nodes g).

(** The algorithms taken as given. [brandes g k] is the table of
    betweenness values: exact for [None], from [k] sampled pivots for
    [Some k]. *)
Class Algorithms := {
  average_clustering : Graph -> Result Q;
  average_shortest_path_length : Graph -> Result Q;
  brandes : Graph -> option Z -> gmap string Q;
  closeness_centrality : Graph -> Result (gmap string Q);
  eigenvector_centrality : Graph -> Z -> Result (gmap string Q);
  louvain_communities : Graph -> Result (list (gset string));
  spring_layout : Graph -> Q -> Z -> gmap string (Q * Q)
}.

(** [nx.betweenness_centrality(G, k)]: with [k] given, the pivots are drawn
    by [random.sample(list(G.nodes()), k)], which raises when [k] exceeds
    the number of nodes. *)
Definition betweenness_centrality `{Algorithms} (g : Graph) (k : option Z)
  : Result (gmap string Q) :=
  match k with
  | None => Ok (brandes g None)
  | Some k' =>
      if (number_of_nodes g <? k') || (k' <? 0)
      then Raise (ValueError "Sample larger than population or is negative")
      else Ok (brandes g (Some k'))
  end.

End nx.

(** ** [_create_networkx_graph] *)

Definition node_attr (node : GraphNode.t) : gmap string PyVal :=
  {[ "label" := PStr (GraphNode.label node);
     "type" := PStr (NodeType_.value (GraphNode.node_type node));
     "properties" := PDict (GraphNode.properties node) ]}.

Definition edge_attr (edge : GraphEdge.t) : gmap string PyVal :=
  {[ "type" := PStr (EdgeType_.value (GraphEdge.edge_type edge));
     "weight" := PFloat (GraphEdge.weight edge);
     "properties" := PDict (default [] (GraphEdge.properties edge)) ]}.

Definition _create_networkx_graph (nodes : list GraphNode.t)
    (edges : list GraphEdge.t) : nx.Graph :=
  let G := nx.empty in
  let G := foldl (fun G node => nx.add_node (GraphNode.id node) (node_attr node) G) G nodes in
  foldl (fun G edge =>
           nx.add_edge (GraphEdge.source edge) (GraphEdge.target edge) (edge_attr edge) G)
        G edges.

(** ** numpy and the Python runtime (collaborators)

    [np_random_uniform n low high] is the [n]-th draw of
    [np.random.uniform(low, high)] in a layout run. [py_hash] is the
    built-in [hash] on strings. The three clock strings are what
    [datetime.utcnow()] formats to during one build. *)

Class Numpy := {
  np_sqrt : Q -> Q;
  np_cos : Q -> Q;
  np_sin : Q -> Q;
  np_pi : Q;
  np_random_uniform : nat -> Q -> Q -> Q
}.

Class Runtime := {
  py_hash : string -> Z;
  utcnow_timestamp : string;
  utcnow_isoformat : string;
  utcnow_strftime : string
}.

Definition Qltb (a b : Q) : bool := negb (Qle_bool b a).

(** Python's [max(a, b)] and [min(a, b)]: the first argument wins ties. *)
Definition py_max (a b : Q) : Q := if Qltb a b then b else a.
Definition py_min (a b : Q) : Q := if Qltb b a then b else a.

(** [d[k]] on a plain dictionary. *)
Definition getitem {V} (d : gmap string V) (k : string) : Result V :=
  match d !! k with
  | Some v => Ok v
  | None => Raise (KeyError k)
  end.

(** [enumerate(l)]. *)
Definition enumerate {A} (l : list A) : list (nat * A) := imap (fun i a => (i, a)) l.

(** ** Structural analyzer: [_analyze_graph_structure] *)

Section Analyzer.
Context `{nx.Algorithms}.

Definition centrality_table (m : gmap string Q) : PyVal :=
  PDict (map_to_list (PFloat <$> m)).

(** The body of the [try] block. The dictionary literal evaluates its
    entries in order, so [is_connected] is reached after the counts and
    the density. *)
Definition analyze_try (graph : nx.Graph) : Result (gmap string PyVal) :=
  let node_count := nx.number_of_nodes graph in
  let edge_count := nx.number_of_edges graph in
  let density := nx.density graph in
  is_connected ← nx.is_connected graph;
  let connected_components := nx.number_connected_components graph in
  average_clustering ← nx.average_clustering graph;
  let analysis : gmap string PyVal :=
    {[ "node_count" := PInt node_count;
       "edge_count" := PInt edge_count;
       "density" := PFloat density;
       "is_connected" := PBool is_connected;
       "connected_components" := PInt connected_components;
       "average_clustering" := PFloat average_clustering;
       "diameter" := PNone;
       "average_path_length" := PNone;
       "centrality_measures" := PDict [] ]} in
  connected ← nx.is_connected graph;
  analysis ←
    (if connected : bool then
       diameter ← nx.diameter graph;
       average_path_length ← nx.average_shortest_path_length graph;
       Ok (<["average_path_length" := PFloat average_path_length]>
             (<["diameter" := PInt diameter]> analysis))
     else Ok analysis);
  analysis ←
    (if nx.number_of_nodes graph <=? 500 then
       let degree := nx.degree_centrality graph in
       betweenness ← nx.betweenness_centrality graph (Some 100);
       closeness ← nx.closeness_centrality graph;
       eigenvector ← nx.eigenvector_centrality graph 100;
       Ok (<["centrality_measures" :=
               PDict [ ("degree", centrality_table degree);
                       ("betweenness", centrality_table betweenness);
                       ("closeness", centrality_table closeness);
                       ("eigenvector", centrality_table eigenvector) ]]> analysis)
     else Ok analysis);
  Ok analysis.

(** [except Exception as e: return {"error": str(e)}]. *)
Definition _analyze_graph_structure (graph : nx.Graph) : gmap string PyVal :=
  match analyze_try graph with
  | Ok analysis => analysis
  | Raise e => {[ "error" := PStr (str_exn e) ]}
  end.

End Analyzer.

(** ** Layout engine *)

Section Layout.
Context `{Numpy} `{nx.Algorithms} `{Runtime}.

Definition add_force (forces : gmap string Pos.t) (id : string) (fx fy fz : Q)
  : gmap string Pos.t :=
  let f := default Pos.origin (forces !! id) in
  <[id := Pos.mk (Pos.x f + fx) (Pos.y f + fy) (Pos.z f + fz)]> forces.

Definition sub_force (forces : gmap string Pos.t) (id : string) (fx fy fz : Q)
  : gmap string Pos.t :=
  let f := default Pos.origin (forces !! id) in
  <[id := Pos.mk (Pos.x f - fx) (Pos.y f - fy) (Pos.z f - fz)]> forces.

(** Random start: three draws per node, in list order. *)
Definition initial_positions (nodes : list GraphNode.t) : gmap string Pos.t :=
  foldl (fun positions '(i, node) =>
           <[GraphNode.id node :=
               Pos.mk (np_random_uniform (3 * i) (-100) 100)
                      (np_random_uniform (3 * i + 1) (-100) 100)
                      (np_random_uniform (3 * i + 2) (-100) 100)]> positions)
        ∅ (enumerate nodes).

(** Repulsion of one pair [node1], [node2]. *)
Definition repulse (k : Q) (positions : gmap string Pos.t) (node1 : GraphNode.t)
    (forces : gmap string Pos.t) (node2 : GraphNode.t) : Result (gmap string Pos.t) :=
  pos1 ← getitem positions (GraphNode.id node1);
  pos2 ← getitem positions (GraphNode.id node2);
  let dx := (Pos.x pos1 - Pos.x pos2)%Q in
  let dy := (Pos.y pos1 - Pos.y pos2)%Q in
  let dz := (Pos.z pos1 - Pos.z pos2)%Q in
  let distance := py_max (np_sqrt (dx * dx + dy * dy + dz * dz)) (1 # 10) in
  let force := (k * k / distance)%Q in
  let fx := (force * dx / distance)%Q in
  let fy := (force * dy / distance)%Q in
  let fz := (force * dz / distance)%Q in
  Ok (sub_force (add_force forces (GraphNode.id node1) fx fy fz)
        (GraphNode.id node2) fx fy fz).

(** [for i, node1 in enumerate(nodes): for j, node2 in enumerate(nodes[i+1:], i+1)]. *)
Fixpoint repulsion (k : Q) (positions : gmap string Pos.t) (nodes : list GraphNode.t)
    (forces : gmap string Pos.t) : Result (gmap string Pos.t) :=
  match nodes with
  | [] => Ok forces
  | node1 :: rest =>
      forces ← for_each (repulse k positions node1) rest forces;
      repulsion k positions rest forces
  end.

(** Attraction along one edge; both endpoints are looked up in
    [positions], a plain dictionary. *)
Definition attract (k : Q) (positions : gmap string Pos.t)
    (forces : gmap string Pos.t) (edge : GraphEdge.t) : Result (gmap string Pos.t) :=
  pos1 ← getitem positions (GraphEdge.source edge);
  pos2 ← getitem positions (GraphEdge.target edge);
  let dx := (Pos.x pos2 - Pos.x pos1)%Q in
  let dy := (Pos.y pos2 - Pos.y pos1)%Q in
  let dz := (Pos.z pos2 - Pos.z pos1)%Q in
  let distance := py_max (np_sqrt (dx * dx + dy * dy + dz * dz)) (1 # 10) in
  let force := (distance * distance / k * GraphEdge.weight edge)%Q in
  let fx := (force * dx / distance)%Q in
  let fy := (force * dy / distance)%Q in
  let fz := (force * dz / distance)%Q in
  Ok (sub_force (add_force forces (GraphEdge.source edge) fx fy fz)
        (GraphEdge.target edge) fx fy fz).

(** Displacement of one node, capped by the temperature. *)
Definition apply_force (temperature : Q) (forces : gmap string Pos.t)
    (positions : gmap string Pos.t) (node : GraphNode.t) : Result (gmap string Pos.t) :=
  let force := default Pos.origin (forces !! GraphNode.id node) in
  let force_magnitude :=
    np_sqrt (Pos.x force * Pos.x force + Pos.y force * Pos.y force
             + Pos.z force * Pos.z force) in
  if Qltb 0 force_magnitude then
    let displacement := py_min force_magnitude temperature in
    p ← getitem positions (GraphNode.id node);
    Ok (<[GraphNode.id node :=
            Pos.mk (Pos.x p + displacement * Pos.x force / force_magnitude)
                   (Pos.y p + displacement * Pos.y force / force_magnitude)
                   (Pos.z p + displacement * Pos.z force / force_magnitude)]> positions)
  else Ok positions.

(** One pass of [for iteration in range(iterations)]. *)
Definition simulation_step (k temperature : Q) (nodes : list GraphNode.t)
    (edges : list GraphEdge.t) (positions : gmap string Pos.t)
  : Result (gmap string Pos.t) :=
  forces ← repulsion k positions nodes ∅;
  forces ← for_each (attract k positions) edges forces;
  for_each (apply_force temperature forces) nodes positions.

Fixpoint simulate (iterations : nat) (k temperature cooling_factor : Q)
    (nodes : list GraphNode.t) (edges : list GraphEdge.t)
    (positions : gmap string Pos.t) : Result (gmap string Pos.t) :=
  match iterations with
  | O => Ok positions
  | S n =>
      positions ← simulation_step k temperature nodes edges positions;
      simulate n k (temperature * cooling_factor) cooling_factor nodes edges positions
  end.

(** The [adjacency] table the source fills before the loop is never read
    and is left out. *)
Definition _force_directed_layout (nodes : list GraphNode.t) (edges : list GraphEdge.t)
  : Result (gmap string Pos.t) :=
  let positions := initial_positions nodes in
  let iterations := 100%nat in
  let k := 50%Q in
  let temperature := 100%Q in
  let cooling_factor := (95 # 100)%Q in
  simulate iterations k temperature cooling_factor nodes edges positions.

(** [node_groups[node.node_type].append(node)] on a [defaultdict(list)],
    keys in first-insertion order. *)
Fixpoint group_append (node : GraphNode.t) (groups : list (NodeType * list GraphNode.t))
  : list (NodeType * list GraphNode.t) :=
  match groups with
  | [] => [(GraphNode.node_type node, [node])]
  | (ty, l) :: rest =>
      if bool_decide (ty = GraphNode.node_type node)
      then (ty, (l ++ [node])%list) :: rest
      else (ty, l) :: group_append node rest
  end.

(** [layer_assignments.get(node_type, 0)]. *)
Definition layer_assignments (ty : NodeType) : Z :=
  match ty with
  | PAPER => 0
  | AUTHOR => 1
  | KEYWORD => 2
  | CONCEPT => 2
  | INSTITUTION => 3
  | _ => 0
  end.

Definition place_layer (positions : gmap string Pos.t)
    (group : NodeType * list GraphNode.t) : gmap string Pos.t :=
  let '(node_type, node_list) := group in
  let layer_spacing := 100 in
  let y_position := inject_Z (layer_assignments node_type * layer_spacing) in
  let num_nodes := len node_list in
  match node_list with
  | [node] => <[GraphNode.id node := Pos.mk 0 y_position 0]> positions
  | _ =>
      foldl (fun positions '(i, node) =>
               let angle := (2 * np_pi * inject_Z (Z.of_nat i) / inject_Z num_nodes)%Q in
               let radius := inject_Z (50 + num_nodes * 5) in
               <[GraphNode.id node :=
                   Pos.mk (radius * np_cos angle) y_position (radius * np_sin angle)]>
                 positions)
            positions (enumerate node_list)
  end.

Definition _hierarchical_layout (nodes : list GraphNode.t) (edges : list GraphEdge.t)
  : Result (gmap string Pos.t) :=
  let node_groups := foldl (fun groups node => group_append node groups) [] nodes in
  Ok (foldl place_layer ∅ node_groups).

(** [sorted(nodes, key=importance_score, reverse=True)]: stable, so nodes
    of equal importance keep their order. *)
Fixpoint insert_by_importance (n : GraphNode.t) (l : list GraphNode.t) : list GraphNode.t :=
  match l with
  | [] => [n]
  | m :: l' =>
      if Qle_bool (GraphNode.importance_score n) (GraphNode.importance_score m)
      then m :: insert_by_importance n l'
      else n :: m :: l'
  end.

Definition sorted_by_importance (nodes : list GraphNode.t) : list GraphNode.t :=
  foldl (fun acc n => insert_by_importance n acc) [] nodes.

(** The [while remaining_nodes] loop: rings of at most 12 nodes. Each pass
    removes at least one node, so the list length is enough fuel. *)
Fixpoint circles_of (fuel : nat) (remaining_nodes : list GraphNode.t)
  : list (list GraphNode.t) :=
  match fuel, remaining_nodes with
  | S fuel', _ :: _ =>
      let circle_size := Z.to_nat (Z.min 12 (len remaining_nodes)) in
      take circle_size remaining_nodes :: circles_of fuel' (drop circle_size remaining_nodes)
  | _, _ => []
  end.

Definition place_circle (positions : gmap string Pos.t)
    (circle : nat * list GraphNode.t) : gmap string Pos.t :=
  let '(circle_idx, circle_nodes) := circle in
  let radius := inject_Z (50 + Z.of_nat circle_idx * 80) in
  let num_in_circle := len circle_nodes in
  foldl (fun positions '(i, node) =>
           let angle := (2 * np_pi * inject_Z (Z.of_nat i) / inject_Z num_in_circle)%Q in
           <[GraphNode.id node :=
               Pos.mk (radius * np_cos angle)
                      (inject_Z (Z.of_nat circle_idx * 20))
                      (radius * np_sin angle)]> positions)
        positions (enumerate circle_nodes).

Definition _circular_layout (nodes : list GraphNode.t) (edges : list GraphEdge.t)
  : Result (gmap string Pos.t) :=
  let positions : gmap string Pos.t := ∅ in
  let num_nodes := len nodes in
  if num_nodes =? 0 then Ok positions
  else
    let sorted_nodes := sorted_by_importance nodes in
    let circles := circles_of (length sorted_nodes) sorted_nodes in
    Ok (foldl place_circle positions (enumerate circles)).

Definition _spring_layout (nodes : list GraphNode.t) (edges : list GraphEdge.t)
  : Result (gmap string Pos.t) :=
  let G := nx.empty in
  let G := foldl (fun G node => nx.add_node (GraphNode.id node) ∅ G) G nodes in
  let G := foldl (fun G edge =>
                    nx.add_edge (GraphEdge.source edge) (GraphEdge.target edge)
                      {[ "weight" := PFloat (GraphEdge.weight edge) ]} G) G edges in
  let pos_2d := nx.spring_layout G 3 50 in
  Ok (foldl (fun positions node =>
               match pos_2d !! GraphNode.id node with
               | Some (x, y) =>
                   let z := py_hash (NodeType_.value (GraphNode.node_type node)) mod 100 - 50 in
                   <[GraphNode.id node := Pos.mk (x * 200) (y * 200) (inject_Z z)]> positions
               | None => positions
               end)
            ∅ nodes).

(** [self.layout_algorithms]: the table of strategies by name. *)
Definition layout_algorithms (name : string)
  : option (list GraphNode.t -> list GraphEdge.t -> Result (gmap string Pos.t)) :=
  if bool_decide (name = "force_directed") then Some _force_directed_layout
  else if bool_decide (name = "hierarchical") then Some _hierarchical_layout
  else if bool_decide (name = "circular") then Some _circular_layout
  else if bool_decide (name = "spring") then Some _spring_layout
  else None.

(** An unknown name falls back to ["force_directed"]. *)
Definition _generate_3d_layout (nodes : list GraphNode.t) (edges : list GraphEdge.t)
    (algorithm : string) : Result (gmap string Pos.t) :=
  let algorithm :=
    match layout_algorithms algorithm with
    | Some _ => algorithm
    | None => "force_directed"
    end in
  match layout_algorithms algorithm with
  | Some layout => layout nodes edges
  | None => Raise (KeyError algorithm)
  end.

End Layout.

(** ** Python string helpers used by the cluster names *)

Definition is_lower (c : ascii) : bool :=
  let n := nat_of_ascii c in (97 <=? n)%nat && (n <=? 122)%nat.
Definition is_upper (c : ascii) : bool :=
  let n := nat_of_ascii c in (65 <=? n)%nat && (n <=? 90)%nat.
Definition to_upper (c : ascii) : ascii :=
  if is_lower c then ascii_of_nat (nat_of_ascii c - 32) else c.
Definition to_lower (c : ascii) : ascii :=
  if is_upper c then ascii_of_nat (nat_of_ascii c + 32) else c.

(** [s.title()] on ASCII text: a letter that follows a letter is lowered,
    any other letter is raised. *)
Fixpoint title_from (after_letter : bool) (s : string) : string :=
  match s with
  | EmptyString => EmptyString
  | String c s' =>
      if is_lower c || is_upper c
      then String (if after_letter then to_lower c else to_upper c) (title_from true s')
      else String c (title_from false s')
  end.
Definition title (s : string) : string := title_from false s.

(** [l.count(x)]. *)
Definition count (l : list string) (x : string) : Z :=
  len (filter (fun y => y = x) l).

(** [max(set(l), key=l.count)]: the first most frequent value. The set is
    walked in order of first occurrence (Python leaves that order open; it
    only decides ties). On an empty list [max] raises. *)
Definition most_common (l : list string) : Result string :=
  match remove_dups l with
  | [] => Raise (ValueError "max() arg is an empty sequence")
  | a :: rest =>
      Ok (foldl (fun best x => if count l best <? count l x then x else best) a rest)
  end.

(** ** Cluster detector: [_detect_research_clusters] *)

Section Enrichment.
Context `{nx.Algorithms}.

Definition colors : list string :=
  ["#FF6B6B"; "#4ECDC4"; "#45B7D1"; "#96CEB4"; "#FFEAA7"; "#DDA0DD"; "#98D8C8"].

(** One pass of [for i, community in enumerate(communities)]. *)
Definition add_cluster (nodes : list GraphNode.t) (clusters : list GraphCluster.t)
    (entry : nat * gset string) : Result (list GraphCluster.t) :=
  let '(i, community) := entry in
  if Z.of_nat (size community) <? 2 then Ok clusters
  else
    let community_nodes := filter (fun n => GraphNode.id n ∈ community) nodes in
    let node_types := (fun n => NodeType_.value (GraphNode.node_type n)) <$> community_nodes in
    most_common_type ← most_common node_types;
    let cluster :=
      GraphCluster.mk
        ("cluster_" +:+ pretty (Z.of_nat i))
        (title most_common_type +:+ " Cluster " +:+ pretty (Z.of_nat i + 1))
        ("Research cluster with " +:+ pretty (Z.of_nat (size community))
           +:+ " related entities")
        (elements community)
        Pos.origin
        (default "" (colors !! (i mod length colors)%nat))
        (Z.of_nat (size community)) in
    Ok (clusters ++ [cluster])%list.

Definition detect_try (graph : nx.Graph) (nodes : list GraphNode.t)
  : Result (list GraphCluster.t) :=
  communities ← nx.louvain_communities graph;
  for_each (add_cluster nodes) (enumerate communities) [].

(** [except Exception: return []]. *)
Definition _detect_research_clusters (graph : nx.Graph) (nodes : list GraphNode.t)
  : list GraphCluster.t :=
  match detect_try graph nodes with
  | Ok clusters => clusters
  | Raise _ => []
  end.

(** ** Importance scorer: [_calculate_node_importance] *)

Definition importance_try (graph : nx.Graph) : Result (gmap string Q) :=
  let degree_centrality := nx.degree_centrality graph in
  betweenness_centrality ←
    (if 500 <? nx.number_of_nodes graph
     then nx.betweenness_centrality graph (Some 100)
     else nx.betweenness_centrality graph None);
  Ok (foldl (fun importance_scores node =>
               let degree_score := default 0%Q (degree_centrality !! node) in
               let betweenness_score := default 0%Q (betweenness_centrality !! node) in
               <[node := ((6 # 10) * degree_score + (4 # 10) * betweenness_score)%Q]>
                 importance_scores)
            ∅ (nx.nodes graph)).

(** [except Exception: return {}]. *)
Definition _calculate_node_importance (graph : nx.Graph) : gmap string Q :=
  match importance_try graph with
  | Ok importance_scores => importance_scores
  | Raise _ => ∅
  end.

End Enrichment.

(** ** Assembly helpers *)

Fixpoint _find_node_cluster (node_id : string) (clusters : list GraphCluster.t)
  : option string :=
  match clusters with
  | [] => None
  | cluster :: rest =>
      if bool_decide (node_id ∈ GraphCluster.nodes cluster)
      then Some (GraphCluster.id cluster)
      else _find_node_cluster node_id rest
  end.

Definition _serialize_node (node : GraphNode.t) : gmap string PyVal :=
  {[ "id" := PStr (GraphNode.id node);
     "label" := PStr (GraphNode.label node);
     "type" := PStr (NodeType_.value (GraphNode.node_type node));
     "properties" := PDict (GraphNode.properties node);
     "position" := match GraphNode.position node with
                   | Some p => Pos.to_py p
                   | None => PNone
                   end;
     "cluster" := opt_str (GraphNode.cluster_id node);
     "importance" := PFloat (GraphNode.importance_score node) ]}.

Definition _serialize_edge (edge : GraphEdge.t) : gmap string PyVal :=
  {[ "source" := PStr (GraphEdge.source edge);
     "target" := PStr (GraphEdge.target edge);
     "type" := PStr (EdgeType_.value (GraphEdge.edge_type edge));
     "weight" := PFloat (GraphEdge.weight edge);
     "properties" := PDict (default [] (GraphEdge.properties edge)) ]}.

Definition _serialize_cluster (cluster : GraphCluster.t) : gmap string PyVal :=
  {[ "id" := PStr (GraphCluster.id cluster);
     "name" := PStr (GraphCluster.name cluster);
     "description" := PStr (GraphCluster.description cluster);
     "nodes" := PList (PStr <$> GraphCluster.nodes cluster);
     "center" := Pos.to_py (GraphCluster.center cluster);
     "color" := PStr (GraphCluster.color cluster);
     "size" := PInt (GraphCluster.size cluster) ]}.

(** The response dictionary [graph_data]; its keys are fixed. *)
Module GraphData.
Record t := mk {
  id : string;
  metadata : gmap string PyVal;
  nodes : list (gmap string PyVal);
  edges : list (gmap string PyVal);
  clusters : list (gmap string PyVal);
  analysis : gmap string PyVal;
  layout_algorithm : string
}.
Definition set_id (i : string) (g : t) : t :=
  mk i (metadata g) (nodes g) (edges g) (clusters g) (analysis g) (layout_algorithm g).
End GraphData.

(** ** Persistence and the build pipeline *)

Section Pipeline.
Context `{Numpy} `{nx.Algorithms} `{Runtime}.

(** [_save_knowledge_graph]: a failed commit is logged and rolled back
    inside the function; only a failing rollback leaves it as an
    exception. On success the stored row's id replaces [graph_data["id"]]. *)
Definition _save_knowledge_graph (session : Session.t) (graph_data : GraphData.t)
    (user_id : string) : Result GraphData.t :=
  let kg :=
    KnowledgeGraph.mk
      ("Research Graph " +:+ utcnow_strftime)
      "AI-generated research knowledge graph"
      (GraphData.nodes graph_data)
      (GraphData.edges graph_data)
      (GraphData.metadata graph_data)
      user_id
      false in
  match Session.commit session kg with
  | Ok kg_id => Ok (GraphData.set_id kg_id graph_data)
  | Raise e =>
      _ ← Session.rollback session;
      Ok graph_data
  end.

(** [async with get_async_session() as session] (database.py): an
    exception in the body triggers a rollback and is raised again; the
    session is closed in every case. *)
Definition get_async_session {A} (session : Session.t) (body : Session.t -> Result A)
  : Result A :=
  let outcome :=
    match body session with
    | Ok a => Ok a
    | Raise e => _ ← Session.rollback session; Raise e
    end in
  match Session.close session with
  | Ok _ => outcome
  | Raise e => Raise e
  end.

(** The per-node update loop of the build. *)
Definition annotate (layout : gmap string Pos.t) (importance_scores : gmap string Q)
    (clusters : list GraphCluster.t) (node : GraphNode.t) : GraphNode.t :=
  GraphNode.mk
    (GraphNode.id node) (GraphNode.label node) (GraphNode.node_type node)
    (GraphNode.properties node)
    (Some (default (Pos.mk 0 0 0) (layout !! GraphNode.id node)))
    (_find_node_cluster (GraphNode.id node) clusters)
    (default 0%Q (importance_scores !! GraphNode.id node)).

(** Everything the build does before it saves. *)
Definition assemble (session : Session.t) (user_id : string)
    (papers authors keywords : option (list string)) (max_nodes : Z)
  : Result GraphData.t :=
  '(nodes, edges) ← _collect_graph_data session papers authors keywords max_nodes;
  let nx_graph := _create_networkx_graph nodes edges in
  let analysis := _analyze_graph_structure nx_graph in
  layout ← _generate_3d_layout nodes edges "force_directed";
  let clusters := _detect_research_clusters nx_graph nodes in
  let importance_scores := _calculate_node_importance nx_graph in
  let nodes := annotate layout importance_scores clusters <$> nodes in
  Ok (GraphData.mk
        ("kg_" +:+ user_id +:+ "_" +:+ utcnow_timestamp)
        {[ "created_by" := PStr user_id;
           "created_at" := PStr utcnow_isoformat;
           "node_count" := PInt (len nodes);
           "edge_count" := PInt (len edges);
           "cluster_count" := PInt (len clusters) ]}
        (_serialize_node <$> nodes)
        (_serialize_edge <$> edges)
        (_serialize_cluster <$> clusters)
        analysis
        "force_directed").

(** [build_research_knowledge_graph]; its outer handler logs and raises
    the exception again. *)
Definition build_research_knowledge_graph (session : Session.t) (user_id : string)
    (papers authors keywords : option (list string)) (max_nodes : Z)
  : Result GraphData.t :=
  get_async_session session (fun session =>
    graph_data ← assemble session user_id papers authors keywords max_nodes;
    _save_knowledge_graph session graph_data user_id).

End Pipeline.

(** ** Predicates on the builder's state

    [ids_in_step]: [node_ids] is the set of the ids in [nodes].
    [edges_closed]: both endpoints of every edge are in [node_ids].
    [fits]: the node list is below the budget.
    [expanding]: the state while the relations of the paper [pid] are
    added, seen from a set [base] of ids that were there before. *)

Definition ids_in_step (s : Build.t) : Prop :=
  Build.node_ids s = list_to_set (GraphNode.id <$> Build.nodes s).

Definition edges_closed (s : Build.t) : Prop :=
  forall e, e ∈ Build.edges s ->
    GraphEdge.source e ∈ Build.node_ids s /\ GraphEdge.target e ∈ Build.node_ids s.

Definition fits (max_nodes : Z) (s : Build.t) : Prop :=
  len (Build.nodes s) < max_nodes.

Definition expanding (max_nodes : Z) (pid : string) (base : gset string)
    (s : Build.t) : Prop :=
  ids_in_step s
  /\ pid ∈ Build.node_ids s
  /\ base ⊆ Build.node_ids s
  /\ (fits max_nodes s -> edges_closed s).

(** [anchored]: the guarded end of every edge is a node. For a citation
    and for an authorship edge that is the target, for a keyword edge the
    source. *)
Definition anchored_edge (ids : gset string) (e : GraphEdge.t) : Prop :=
  match GraphEdge.edge_type e with
  | CITES | AUTHORED_BY => GraphEdge.target e ∈ ids
  | RELATED_TO => GraphEdge.source e ∈ ids
  | _ => True
  end.

Definition anchored (s : Build.t) : Prop :=
  ids_in_step s /\ forall e, e ∈ Build.edges s -> anchored_edge (Build.node_ids s) e.

(** [distinct_ids]: no id occurs twice in [nodes], and the paper ids
    among them belong to the papers in [processed]. *)
Definition distinct_ids (processed : list string) (s : Build.t) : Prop :=
  ids_in_step s
  /\ NoDup (GraphNode.id <$> Build.nodes s)
  /\ forall x, "paper_" +:+ x ∈ Build.node_ids s -> x ∈ processed.

(** ** Predicates on a position table

    [placed]: every node of the list has a position.
    [endpoints_placed]: both endpoints of every edge have a position. *)

Definition placed (positions : gmap string Pos.t) (nodes : list GraphNode.t) : Prop :=
  forall node, node ∈ nodes -> GraphNode.id node ∈ dom positions.

Definition endpoints_placed (positions : gmap string Pos.t) (edges : list GraphEdge.t)
  : Prop :=
  forall e, e ∈ edges ->
    GraphEdge.source e ∈ dom positions /\ GraphEdge.target e ∈ dom positions.

(** The shape every graph built by the service has: no node listed twice,
    and every neighbour is a node. *)
Definition well_formed (g : nx.Graph) : Prop :=
  NoDup (nx.nodes g)
  /\ forall n nbrs m, nx._adj g !! n = Some nbrs -> is_Some (nbrs !! m) -> m ∈ nx.nodes g.

(** ** Predicates on the layouts and the clusters

    [group_ids]: the ids of the nodes held by the groups of the
    hierarchical layout.
    [at_layer]: the height of a position is the one of the layer of a
    node type.
    [outranks]: descending importance, the order of the circular layout.
    [kept]: a community, listed with its index, is large enough to
    become a cluster. *)

Definition group_ids (groups : list (NodeType * list GraphNode.t)) : gset string :=
  ⋃ ((fun group => list_to_set (GraphNode.id <$> group.2)) <$> groups).

Definition at_layer (ty : NodeType) (p : Pos.t) : Prop :=
  Pos.y p = inject_Z (layer_assignments ty * 100).

Definition outranks (a b : GraphNode.t) : Prop :=
  (GraphNode.importance_score b <= GraphNode.importance_score a)%Q.

Definition kept (entry : nat * gset string) : Prop := 2 <= Z.of_nat (size entry.2).

#[local] Instance kept_dec entry : Decision (kept entry) :=
  decide (2 <= Z.of_nat (size entry.2)).

(** The sum of the degrees, twice [number_of_edges]. *)
Definition degree_sum (g : nx.Graph) : Z := nx.sumZ (nx.degree g <$> nx.nodes g).

(** ** Stand-in collaborators for the concrete examples

    The theorems below hold for every [Numpy], [nx.Algorithms] and
    [Runtime]. The examples need one of each to run on. *)

Module Standin.

(** Square root to six decimals; [cos] and [sin] by their first Taylor
    terms; every random draw is the midpoint of its interval. *)
Definition sqrt6 (q : Q) : Q :=
  (Z.sqrt ((Qnum q * 1000000000000) / Zpos (Qden q)) # 1000000)%Q.

#[export] Instance numpy : Numpy := {|
  np_sqrt := sqrt6;
  np_cos := fun a => (1 - a * a / 2)%Q;
  np_sin := fun a => (a - a * a * a / 6)%Q;
  np_pi := (355 # 113)%Q;
  np_random_uniform := fun _ low high => ((low + high) / 2)%Q
|}.

#[export] Instance runtime : Runtime := {|
  py_hash := fun s => Z.of_nat (String.length s);
  utcnow_timestamp := "1700000000.0";
  utcnow_isoformat := "2023-11-14T22:13:20";
  utcnow_strftime := "2023-11-14 22:13"
|}.

Definition sumQ (l : list Q) : Q := foldr Qplus 0%Q l.

Definition dist (g : nx.Graph) (s t : string) : option Z :=
  nx.single_source_shortest_path_length g s !! t.

(** Number of shortest paths from [s], filled in level by level. *)
Definition sigma_level (g : nx.Graph) (s : string) (sigma : gmap string Z) (d : nat)
  : gmap string Z :=
  foldl (fun sg v =>
           if bool_decide (dist g s v = Some (Z.of_nat d))
           then <[v := nx.sumZ ((fun u =>
                          if bool_decide (dist g s u = Some (Z.of_nat d - 1))
                          then default 0 (sigma !! u) else 0)
                        <$> elements (nx.neighbors g v))]> sg
           else sg)
        sigma (nx.nodes g).

Definition sigma (g : nx.Graph) (s : string) : gmap string Z :=
  foldl (sigma_level g s) {[s := 1]} (seq 1 (length (nx.nodes g))).

(** Share of the shortest [s]-[t] paths that run through [v]. *)
Definition pair_dependency (g : nx.Graph) (v s t : string) : Q :=
  match dist g s v, dist g v t, dist g s t with
  | Some dsv, Some dvt, Some dst =>
      if bool_decide (dsv + dvt = dst)
      then
        let through := default 0 (sigma g s !! v) * default 0 (sigma g v !! t) in
        let all := default 0 (sigma g s !! t) in
        (inject_Z through / inject_Z all)%Q
      else 0%Q
  | _, _, _ => 0%Q
  end.

(** Exact normalised betweenness of an undirected graph. The number of
    pivots is ignored: every node serves as one. *)
Definition exact_betweenness (g : nx.Graph) (k : option Z) : gmap string Q :=
  let n := nx.number_of_nodes g in
  let scale := if n <=? 2 then 1%Q else (1 / inject_Z ((n - 1) * (n - 2)))%Q in
  list_to_map
    ((fun v =>
        (v, (scale * sumQ ((fun s =>
               if bool_decide (s = v) then 0%Q
               else sumQ ((fun t =>
                      if bool_decide (t = v) || bool_decide (t = s) then 0%Q
                      else pair_dependency g v s t) <$> nx.nodes g))
             <$> nx.nodes g))%Q))
     <$> nx.nodes g).

(** One community per connected component. *)
Definition components (g : nx.Graph) : list (gset string) :=
  snd (foldl (fun '(seen, acc) v =>
                if bool_decide (v ∈ seen) then (seen, acc)
                else let c := dom (nx.single_source_shortest_path_length g v) in
                     (c ∪ seen, (acc ++ [c])%list))
             ((∅ : gset string), []) (nx.nodes g)).

(** Clustering and path-length averages are reported as zero, closeness
    as an empty table; the eigenvector iteration reports that it did not
    converge; the spring layout puts every node at the centre. *)
#[export] Instance algorithms : nx.Algorithms := {|
  nx.average_clustering := fun g =>
    if nx.number_of_nodes g =? 0 then Raise (ZeroDivisionError "division by zero")
    else Ok 0%Q;
  nx.average_shortest_path_length := fun g => Ok 0%Q;
  nx.brandes := exact_betweenness;
  nx.closeness_centrality := fun g => Ok ∅;
  nx.eigenvector_centrality := fun g max_iter =>
    Raise (PowerIterationFailedConvergence "power iteration failed to converge");
  nx.louvain_communities := fun g => Ok (components g);
  nx.spring_layout := fun g k iterations =>
    list_to_map ((fun n => (n, (0%Q, 0%Q))) <$> nx.nodes g)
|}.

(** Sample data: two authors, one keyword, three papers. *)
Definition ada : Researcher.t := Researcher.mk "a1" "Ada" None None None 0.
Definition bob : Researcher.t := Researcher.mk "a2" "Bob" None None None 0.
Definition kw : Keyword.t := Keyword.mk "k1" "graphs" None 0.

Definition paper (i : string) (authors : list Researcher.t) (keywords : list Keyword.t)
    (cites : list string) : ResearchPaper.t :=
  ResearchPaper.mk i ("Paper " +:+ i) None None None 0 None false authors keywords
    ((fun c => Citation.mk c None None) <$> cites).

Definition bare_node (i : string) : GraphNode.t := GraphNode.new i i PAPER [].
Definition cites (a b : string) : GraphEdge.t := GraphEdge.mk a b CITES 1%Q None.

(** The scenario graph P1 -> P2 -> P3. *)
Definition chain : nx.Graph :=
  _create_networkx_graph [bare_node "P1"; bare_node "P2"; bare_node "P3"]
    [cites "P1" "P2"; cites "P2" "P3"].

(** A paper that cites itself and one other paper. *)
Definition self_citing : nx.Graph :=
  _create_networkx_graph [bare_node "A"; bare_node "B"]
    [cites "A" "A"; cites "A" "B"].

(** The data store of the budget scenario: one paper, two authors. *)
Definition one_paper_two_authors : Session.t :=
  memory_session [paper "p1" [ada; bob] [] []] (Ok "kg-1").


(** The same store with a sink that stores the row. *)
Definition accepting_sink : Session.t :=
  memory_session [paper "p1" [ada] [kw] []] (Ok "0b9e6c1e-5a0f-4d0c-9a57-3f1f2f6c7d11").


(** The chain P1 -> P2 -> P3 next to a paper P4 that nothing cites. *)
Definition four_papers : list GraphNode.t :=
  [bare_node "P1"; bare_node "P2"; bare_node "P3"; bare_node "P4"].

Definition chain_and_loner : nx.Graph :=
  _create_networkx_graph four_papers [cites "P1" "P2"; cites "P2" "P3"].

(** [n] papers without any relation. *)
Definition isolated_nodes (n : nat) : nx.Graph :=
  foldl (fun g i => nx.add_node ("n" +:+ pretty (Z.of_nat i)) ∅ g) nx.empty (seq 0 n).

(** Papers, an author, a keyword and an institution. *)
Definition mixed_nodes : list GraphNode.t :=
  [ bare_node "P1"; GraphNode.new "A1" "Ada" AUTHOR [];
    GraphNode.new "K1" "graphs" KEYWORD []; bare_node "P2";
    GraphNode.new "I1" "MIT" INSTITUTION [] ].

End Standin.

(** * Properties *)

(** ** Fallible computations *)

Lemma for_each_cons {A S} (body : S -> A -> Result S) (a : A) (l : list A) (s : S) :
  for_each body (a :: l) s = (s' ← body s a; for_each body l s').
Proof. reflexivity. Qed.

Lemma bind_Ok_inv {A B} (r : Result A) (f : A -> Result B) (b : B) :
  (a ← r; f a) = Ok b -> exists a, r = Ok a /\ f a = Ok b.
Proof. destruct r as [a|e]; simpl; intros Hb; [by exists a|discriminate]. Qed.

Lemma succeeded_Ok {A} (r : Result A) : succeeded r = true -> exists a, r = Ok a.
Proof. destruct r as [a|e]; [by exists a|discriminate]. Qed.

Lemma Ok_inj {A} (a b : A) : Ok a = Ok b -> a = b.
Proof. by intros [= ->]. Qed.

(** ** The node budget of the builder *)

Section Budget.
Variable max_nodes : Z.

Lemma append_edge_nodes e s :
  Build.nodes (Build.append_edge e s) = Build.nodes s.
Proof. reflexivity. Qed.

Lemma len_append_node n s :
  len (Build.nodes (Build.append_node n s)) = len (Build.nodes s) + 1.
Proof. unfold len, Build.append_node; simpl. rewrite length_app; simpl. lia. Qed.

Lemma add_author_budget node s author :
  len (Build.nodes s) <= max_nodes ->
  len (Build.nodes (add_author max_nodes node s author)) <= max_nodes.
Proof.
  intros Hs. unfold add_author. rewrite append_edge_nodes.
  destruct (bool_decide _); simpl; [|exact Hs].
  destruct (Z.ltb_spec (len (Build.nodes s)) max_nodes); [|exact Hs].
  rewrite len_append_node. lia.
Qed.

Lemma add_keyword_budget node s keyword :
  len (Build.nodes s) <= max_nodes ->
  len (Build.nodes (add_keyword max_nodes node s keyword)) <= max_nodes.
Proof.
  intros Hs. unfold add_keyword. rewrite append_edge_nodes.
  destruct (bool_decide _); simpl; [|exact Hs].
  destruct (Z.ltb_spec (len (Build.nodes s)) max_nodes); [|exact Hs].
  rewrite len_append_node. lia.
Qed.

(** A loop keeps what each of its passes keeps. *)
Lemma foldl_invariant {A B} (P : B -> Prop) (f : B -> A -> B) (l : list A) (b : B) :
  (forall b a, P b -> P (f b a)) -> P b -> P (foldl f b l).
Proof.
  intros Hf. revert b. induction l as [|a l IH]; intros b Hb; simpl; auto.
Qed.

Lemma add_paper_budget s paper :
  len (Build.nodes s) < max_nodes ->
  len (Build.nodes (add_paper max_nodes s paper)) <= max_nodes.
Proof.
  intros Hs. unfold add_paper.
  apply (foldl_invariant (fun s => len (Build.nodes s) <= max_nodes)).
  { intros; by apply add_keyword_budget. }
  apply (foldl_invariant (fun s => len (Build.nodes s) <= max_nodes)).
  { intros; by apply add_author_budget. }
  rewrite len_append_node. lia.
Qed.

Lemma paper_loop_budget papers_data s :
  len (Build.nodes s) <= max_nodes ->
  len (Build.nodes (paper_loop max_nodes papers_data s)) <= max_nodes.
Proof.
  revert s. induction papers_data as [|paper rest IH]; intros s Hs; simpl; [exact Hs|].
  destruct (Z.geb_spec (len (Build.nodes s)) max_nodes); [exact Hs|].
  apply IH, add_paper_budget. lia.
Qed.

Lemma add_citations_nodes s paper :
  Build.nodes (add_citations s paper) = Build.nodes s.
Proof.
  unfold add_citations.
  apply (foldl_invariant (fun s' => Build.nodes s' = Build.nodes s)); [|reflexivity].
  intros b c Hb. unfold add_citation. by destruct (bool_decide _).
Qed.

Lemma citation_pass_nodes papers_data s :
  Build.nodes (foldl add_citations s papers_data) = Build.nodes s.
Proof.
  apply (foldl_invariant (fun s' => Build.nodes s' = Build.nodes s)); [|reflexivity].
  intros b p Hb. by rewrite add_citations_nodes.
Qed.

End Budget.

(** C2. Whatever the data store answers, [_collect_graph_data] returns,
    and the node list it returns is no longer than the budget
    [max_nodes] (a count, hence not negative): paper, author and keyword
    nodes are all admitted under the same ceiling. *)
Theorem collect_within_budget (session : Session.t)
    (papers authors keywords : option (list string)) (max_nodes : Z)
    (papers_data : list ResearchPaper.t) :
  0 <= max_nodes ->
  Session.execute session (paper_query papers max_nodes) = Ok papers_data ->
  exists nodes edges,
    _collect_graph_data session papers authors keywords max_nodes = Ok (nodes, edges)
    /\ len nodes <= max_nodes.
Proof.
  intros Hmax Hexec. unfold _collect_graph_data. rewrite Hexec. simpl.
  eexists _, _. split; [reflexivity|].
  rewrite citation_pass_nodes. apply paper_loop_budget. exact Hmax.
Qed.

Section BudgetExamples.
Import Standin.

(** Two papers with shared authors and a keyword, budget 3: the second
    paper is never reached, and the store's answer is within the limit. *)
Lemma collect_within_budget_witness :
  0 <= 3 /\
  exists nodes edges,
    _collect_graph_data
      (memory_session
         [paper "p1" [ada; bob] [kw] []; paper "p2" [ada] [kw] ["p1"]]
         (Ok "kg-1"))
      None None None 3 = Ok (nodes, edges)
    /\ len nodes <= 3.
Proof.
  split; [lia|].
  eapply collect_within_budget; [lia|]. vm_compute. reflexivity.
Defined.

(** C1, at the failing input. With a budget of 2 the second author's node
    is skipped, yet its edge is appended: the edge list that
    [_collect_graph_data] returns holds an edge whose source is not in the
    node list. Nothing filters it afterwards; the force-directed layout
    looks the missing endpoint up and the build ends in a [KeyError]. *)
Theorem dangling_author_edge_returned :
  exists nodes edges e,
    _collect_graph_data one_paper_two_authors None None None 2 = Ok (nodes, edges)
    /\ len nodes = 2
    /\ e ∈ edges
    /\ (GraphEdge.source e ∉ (GraphNode.id <$> nodes))
    /\ build_research_knowledge_graph one_paper_two_authors "u1" None None None 2
       = Raise (KeyError "author_a2").
Proof.
  eexists _, _, (GraphEdge.mk "author_a2" "paper_p1" AUTHORED_BY 1%Q None).
  split; [vm_compute; reflexivity|].
  split; [reflexivity|].
  split; [apply list_elem_of_lookup; by exists 1%nat|].
  split; [|vm_compute; reflexivity].
  apply (bool_decide_unpack _). vm_compute. exact I.
Qed.

(** C3, at the scenario's own input. One paper with two authors and a
    budget of 2: the paper and the first author are admitted, and the
    returned edge list holds two authored-by edges, the second one from
    the author whose node was skipped. *)
Theorem two_authors_budget_two :
  exists nodes edges,
    _collect_graph_data one_paper_two_authors None None None 2 = Ok (nodes, edges)
    /\ (GraphNode.id <$> nodes) = ["paper_p1"; "author_a1"]
    /\ ((fun e => (GraphEdge.source e, GraphEdge.target e, GraphEdge.edge_type e)) <$> edges)
       = [ ("author_a1", "paper_p1", AUTHORED_BY);
           ("author_a2", "paper_p1", AUTHORED_BY) ].
Proof.
  eexists _, _. split; [vm_compute; reflexivity|]. split; reflexivity.
Qed.

End BudgetExamples.

(** ** Layouts of the empty node list *)

Section EmptyLayout.
Context `{Numpy} `{nx.Algorithms} `{Runtime}.

(** With no nodes and no edges a simulation pass has nothing to do. *)
Lemma simulate_nothing iterations k temperature cooling_factor positions :
  simulate iterations k temperature cooling_factor [] [] positions = Ok positions.
Proof.
  revert temperature.
  induction iterations as [|n IH]; intros temperature; simpl; [reflexivity|].
  apply IH.
Qed.

Lemma force_directed_nothing : _force_directed_layout [] [] = Ok ∅.
Proof. unfold _force_directed_layout. apply simulate_nothing. Qed.

(** The dispatcher always finds a strategy: a name outside the table is
    replaced by ["force_directed"], which is in it. *)
Lemma generate_dispatch nodes edges algorithm :
  _generate_3d_layout nodes edges algorithm =
    if bool_decide (algorithm = "hierarchical") then _hierarchical_layout nodes edges
    else if bool_decide (algorithm = "circular") then _circular_layout nodes edges
    else if bool_decide (algorithm = "spring") then _spring_layout nodes edges
    else _force_directed_layout nodes edges.
Proof.
  unfold _generate_3d_layout, layout_algorithms.
  destruct (bool_decide_reflect (algorithm = "force_directed")) as [->|Hfd];
    [reflexivity|].
  destruct (bool_decide_reflect (algorithm = "hierarchical")) as [->|Hh];
    [reflexivity|].
  destruct (bool_decide_reflect (algorithm = "circular")) as [->|Hc];
    [reflexivity|].
  destruct (bool_decide_reflect (algorithm = "spring")) as [->|Hs];
    [reflexivity|].
  reflexivity.
Qed.

(** C9, as the code has it. On the empty node list the hierarchical,
    circular and spring strategies return the empty mapping for every
    edge list; the force-directed strategy, and with it the dispatcher
    under any name, returns the empty mapping when the edge list is empty
    as well. *)
Theorem empty_node_list_layouts (edges : list GraphEdge.t) (algorithm : string) :
  _hierarchical_layout [] edges = Ok ∅
  /\ _circular_layout [] edges = Ok ∅
  /\ _spring_layout [] edges = Ok ∅
  /\ _force_directed_layout [] [] = Ok ∅
  /\ _generate_3d_layout [] [] algorithm = Ok ∅
  /\ _generate_3d_layout [] edges "hierarchical" = Ok ∅
  /\ _generate_3d_layout [] edges "circular" = Ok ∅
  /\ _generate_3d_layout [] edges "spring" = Ok ∅.
Proof.
  assert (Hh : _hierarchical_layout [] edges = Ok ∅) by reflexivity.
  assert (Hc : _circular_layout [] edges = Ok ∅) by reflexivity.
  assert (Hs : _spring_layout [] edges = Ok ∅) by reflexivity.
  split; [exact Hh|]. split; [exact Hc|]. split; [exact Hs|].
  split; [apply force_directed_nothing|].
  split.
  { rewrite generate_dispatch.
    repeat (case_bool_decide; [reflexivity|]). apply force_directed_nothing. }
  rewrite !generate_dispatch. simpl. by rewrite Hh, Hc, Hs.
Qed.

End EmptyLayout.

Section EmptyLayoutExamples.
Import Standin.

(** C9 as stated fails: with no nodes and one edge, the force-directed
    strategy looks the edge's source up in the empty position table. *)
Lemma force_directed_dangling_edge :
  _force_directed_layout [] [cites "a" "b"] = Raise (KeyError "a")
  /\ ~ (forall edges algorithm, _generate_3d_layout [] edges algorithm = Ok ∅).
Proof.
  split; [vm_compute; reflexivity|].
  intros Hall. specialize (Hall [cites "a" "b"] "force_directed").
  vm_compute in Hall. discriminate Hall.
Qed.

End EmptyLayoutExamples.

(** ** Failure policy of the structural analyzer *)

Section AnalyzerPolicy.
Context `{nx.Algorithms}.

(** The handler's result: one key, ["error"]. *)
Lemma error_dictionary (graph : nx.Graph) (e : Exn) :
  analyze_try graph = Raise e ->
  _analyze_graph_structure graph = {[ "error" := PStr (str_exn e) ]}.
Proof. intros Hraise. unfold _analyze_graph_structure. by rewrite Hraise. Qed.

(** When nothing raises, the result is the analysis itself: the counts
    are in it and there is no ["error"] key. *)
Lemma analysis_success_fields (graph : nx.Graph) (analysis : gmap string PyVal) :
  analyze_try graph = Ok analysis ->
  _analyze_graph_structure graph = analysis
  /\ analysis !! "node_count" = Some (PInt (nx.number_of_nodes graph))
  /\ analysis !! "edge_count" = Some (PInt (nx.number_of_edges graph))
  /\ analysis !! "error" = None.
Proof.
  intros Hok. split; [unfold _analyze_graph_structure; by rewrite Hok|].
  unfold analyze_try in Hok.
  apply bind_Ok_inv in Hok as (is_connected & _ & Hok).
  apply bind_Ok_inv in Hok as (average_clustering & _ & Hok).
  apply bind_Ok_inv in Hok as (connected & _ & Hok).
  apply bind_Ok_inv in Hok as (a1 & Hpaths & Hok).
  apply bind_Ok_inv in Hok as (a2 & Hcentrality & Hok).
  injection Hok as <-.
  assert (Ha1 : a1 !! "node_count" = Some (PInt (nx.number_of_nodes graph))
                /\ a1 !! "edge_count" = Some (PInt (nx.number_of_edges graph))
                /\ a1 !! "error" = None).
  { destruct connected.
    - apply bind_Ok_inv in Hpaths as (diameter & _ & Hpaths).
      apply bind_Ok_inv in Hpaths as (average_path_length & _ & Hpaths).
      injection Hpaths as <-. by repeat split.
    - injection Hpaths as <-. by repeat split. }
  destruct Ha1 as (Hn & He & Herr).
  destruct (nx.number_of_nodes graph <=? 500).
  - apply bind_Ok_inv in Hcentrality as (betweenness & _ & Hcentrality).
    apply bind_Ok_inv in Hcentrality as (closeness & _ & Hcentrality).
    apply bind_Ok_inv in Hcentrality as (eigenvector & _ & Hcentrality).
    injection Hcentrality as <-.
    rewrite !lookup_insert_ne by done. by repeat split.
  - injection Hcentrality as <-. by repeat split.
Qed.

(** C7, as the code has it. When a metric computation raises, nothing is
    raised to the caller and the result is the dictionary with the single
    key ["error"], holding the message: the counts computed before the
    failure are not in it. *)
Theorem analysis_failure_is_error_only (graph : nx.Graph) (e : Exn) :
  analyze_try graph = Raise e ->
  _analyze_graph_structure graph !! "error" = Some (PStr (str_exn e))
  /\ forall key, key ≠ "error" -> _analyze_graph_structure graph !! key = None.
Proof.
  intros Hraise. rewrite (error_dictionary _ _ Hraise). split.
  - apply lookup_singleton_eq.
  - intros key Hkey. by apply lookup_singleton_ne.
Qed.

(** Below 100 nodes the body of the [try] block always raises: if no
    earlier metric does, the request for 100 betweenness pivots does. *)
Lemma analyze_try_small (graph : nx.Graph) :
  nx.number_of_nodes graph < 100 -> exists e, analyze_try graph = Raise e.
Proof.
  intros Hsmall. unfold analyze_try.
  destruct (nx.is_connected graph) as [connected|e]; [|by eexists].
  cbn [mbind Result_bind].
  destruct (nx.average_clustering graph) as [clustering|e]; [|by eexists].
  cbn [mbind Result_bind].
  assert (Hcentrality : forall analysis : gmap string PyVal,
            exists e,
              (analysis' ←
                 (if nx.number_of_nodes graph <=? 500 then
                    let degree := nx.degree_centrality graph in
                    betweenness ← nx.betweenness_centrality graph (Some 100);
                    closeness ← nx.closeness_centrality graph;
                    eigenvector ← nx.eigenvector_centrality graph 100;
                    Ok (<["centrality_measures" :=
                            PDict [ ("degree", centrality_table degree);
                                    ("betweenness", centrality_table betweenness);
                                    ("closeness", centrality_table closeness);
                                    ("eigenvector", centrality_table eigenvector) ]]>
                          analysis)
                  else Ok analysis);
               Ok analysis') = Raise e).
  { intros analysis.
    destruct (Z.leb_spec (nx.number_of_nodes graph) 500) as [_|Hbig]; [|lia].
    unfold nx.betweenness_centrality.
    destruct (Z.ltb_spec (nx.number_of_nodes graph) 100) as [_|Hge]; [|lia].
    by eexists. }
  destruct connected.
  - destruct (nx.diameter graph) as [diameter|e]; [|by eexists].
    cbn [mbind Result_bind].
    destruct (nx.average_shortest_path_length graph) as [path_length|e]; [|by eexists].
    cbn [mbind Result_bind]. apply Hcentrality.
  - cbn [mbind Result_bind]. apply Hcentrality.
Qed.

(** C8, on the scenario graph P1 -> P2 -> P3. The counts, connectivity and
    diameter are computed (3 nodes, 2 edges, connected, 1 component,
    diameter 2), but the centrality step then asks for 100 betweenness
    pivots out of 3 nodes; the sampling raises and the handler replaces
    the whole analysis by the error dictionary. *)
Theorem chain_analysis_is_error :
  nx.number_of_nodes Standin.chain = 3
  /\ nx.number_of_edges Standin.chain = 2
  /\ nx.is_connected Standin.chain = Ok true
  /\ nx.number_connected_components Standin.chain = 1
  /\ nx.diameter Standin.chain = Ok 2
  /\ is_Some (_analyze_graph_structure Standin.chain !! "error")
  /\ _analyze_graph_structure Standin.chain !! "node_count" = None
  /\ _analyze_graph_structure Standin.chain !! "edge_count" = None
  /\ _analyze_graph_structure Standin.chain !! "is_connected" = None
  /\ _analyze_graph_structure Standin.chain !! "connected_components" = None
  /\ _analyze_graph_structure Standin.chain !! "diameter" = None.
Proof.
  assert (Hraise : exists e, analyze_try Standin.chain = Raise e).
  { apply analyze_try_small. vm_compute. reflexivity. }
  destruct Hraise as [e Hraise].
  rewrite (error_dictionary _ _ Hraise).
  repeat split; try (vm_compute; reflexivity).
  rewrite lookup_singleton_eq. by eexists.
Qed.

End AnalyzerPolicy.

Section AnalyzerExamples.
Import Standin.

(** C7 as stated fails. The graph of an empty build has no nodes; its
    node count (0), edge count and density are computed, then the
    connectivity test raises, and the result keeps none of them. *)
Lemma null_graph_analysis_drops_counts :
  nx.number_of_nodes (_create_networkx_graph [] []) = 0
  /\ analyze_try (_create_networkx_graph [] [])
     = Raise (NetworkXPointlessConcept "Connectivity is undefined for the null graph.")
  /\ _analyze_graph_structure (_create_networkx_graph [] []) !! "node_count" = None
  /\ _analyze_graph_structure (_create_networkx_graph [] []) !! "edge_count" = None.
Proof. repeat split; vm_compute; reflexivity. Qed.

Lemma analysis_failure_is_error_only_witness :
  analyze_try chain = Raise (ValueError "Sample larger than population or is negative")
  /\ _analyze_graph_structure chain !! "error"
     = Some (PStr (str_exn (ValueError "Sample larger than population or is negative")))
  /\ forall key, key ≠ "error" -> _analyze_graph_structure chain !! key = None.
Proof.
  split; [vm_compute; reflexivity|].
  apply (analysis_failure_is_error_only chain). vm_compute. reflexivity.
Defined.

End AnalyzerExamples.

(** ** Persistence failures and the assembled nodes *)

Section BuildProperties.
Context `{Numpy} `{nx.Algorithms} `{Runtime}.

(** What a successful assembly is made of. *)
Lemma assemble_inv session user_id papers authors keywords max_nodes graph_data :
  assemble session user_id papers authors keywords max_nodes = Ok graph_data ->
  exists nodes edges layout,
    _collect_graph_data session papers authors keywords max_nodes = Ok (nodes, edges)
    /\ _generate_3d_layout nodes edges "force_directed" = Ok layout
    /\ GraphData.id graph_data = "kg_" +:+ user_id +:+ "_" +:+ utcnow_timestamp
    /\ GraphData.nodes graph_data =
         _serialize_node <$>
           (annotate layout
              (_calculate_node_importance (_create_networkx_graph nodes edges))
              (_detect_research_clusters (_create_networkx_graph nodes edges) nodes)
            <$> nodes).
Proof.
  unfold assemble. intros Hasm.
  destruct (_collect_graph_data _ _ _ _ _) as [[nodes edges]|e] eqn:Hcollect;
    simpl in Hasm; [|discriminate].
  destruct (_generate_3d_layout nodes edges "force_directed") as [layout|e] eqn:Hlayout;
    simpl in Hasm; [|discriminate].
  injection Hasm as <-. exists nodes, edges, layout.
  repeat split; [exact Hlayout].
Qed.

(** Saving changes nothing but the id. *)
Lemma save_keeps_nodes session graph_data user_id saved :
  _save_knowledge_graph session graph_data user_id = Ok saved ->
  GraphData.nodes saved = GraphData.nodes graph_data.
Proof.
  unfold _save_knowledge_graph. intros Hsave.
  destruct (Session.commit session _) as [kg_id|e].
  - by injection Hsave as <-.
  - destruct (Session.rollback session); simpl in Hsave; [|discriminate].
    by injection Hsave as <-.
Qed.

(** A successful build is a successful assembly followed by a save that
    returned. *)
Lemma build_inv session user_id papers authors keywords max_nodes g :
  build_research_knowledge_graph session user_id papers authors keywords max_nodes = Ok g ->
  exists graph_data,
    assemble session user_id papers authors keywords max_nodes = Ok graph_data
    /\ _save_knowledge_graph session graph_data user_id = Ok g.
Proof.
  unfold build_research_knowledge_graph, get_async_session. intros Hbuild.
  destruct (assemble _ _ _ _ _ _) as [graph_data|e]; simpl in Hbuild.
  - exists graph_data. split; [reflexivity|].
    destruct (_save_knowledge_graph session graph_data user_id) as [saved|e];
      simpl in Hbuild.
    + destruct (Session.close session); [congruence|discriminate].
    + destruct (Session.rollback session); simpl in Hbuild;
        destruct (Session.close session); discriminate.
  - destruct (Session.rollback session); simpl in Hbuild;
      destruct (Session.close session); discriminate.
Qed.


(** For comparison: a write that succeeds puts the stored row's id in
    place of the provisional one. *)
Lemma successful_save_assigns_id session user_id papers authors keywords max_nodes
    graph_data kg_id :
  assemble session user_id papers authors keywords max_nodes = Ok graph_data ->
  (forall kg, Session.commit session kg = Ok kg_id) ->
  Session.close session = Ok tt ->
  build_research_knowledge_graph session user_id papers authors keywords max_nodes
    = Ok (GraphData.set_id kg_id graph_data).
Proof.
  intros Hasm Hcommit Hclose.
  unfold build_research_knowledge_graph, get_async_session.
  rewrite Hasm. simpl. unfold _save_knowledge_graph.
  rewrite Hcommit. simpl. by rewrite Hclose.
Qed.

(** The three fields of a serialized node that the assembly fills. *)
Lemma serialized_annotated layout importance_scores clusters node :
  let d := _serialize_node (annotate layout importance_scores clusters node) in
  d !! "id" = Some (PStr (GraphNode.id node))
  /\ d !! "position"
     = Some (Pos.to_py (default (Pos.mk 0 0 0) (layout !! GraphNode.id node)))
  /\ d !! "importance"
     = Some (PFloat (default 0%Q (importance_scores !! GraphNode.id node))).
Proof. by repeat split. Qed.

(** C10. In the graph a successful build returns, the serialized nodes
    are the collected nodes in order, each with a position dictionary
    (the layout's entry for its id, or the origin when the layout has
    none) and a numeric importance (the score of its id, or 0 when the
    scores have none); no position is null. *)
Theorem built_nodes_have_position_and_importance (session : Session.t)
    (user_id : string) (papers authors keywords : option (list string))
    (max_nodes : Z) (g : GraphData.t) :
  build_research_knowledge_graph session user_id papers authors keywords max_nodes = Ok g ->
  exists nodes edges layout,
    _collect_graph_data session papers authors keywords max_nodes = Ok (nodes, edges)
    /\ _generate_3d_layout nodes edges "force_directed" = Ok layout
    /\ Forall2
         (fun node d =>
            d !! "id" = Some (PStr (GraphNode.id node))
            /\ d !! "position"
               = Some (Pos.to_py (default (Pos.mk 0 0 0) (layout !! GraphNode.id node)))
            /\ d !! "importance"
               = Some (PFloat
                   (default 0%Q
                      (_calculate_node_importance (_create_networkx_graph nodes edges)
                         !! GraphNode.id node))))
         nodes (GraphData.nodes g)
    /\ Forall
         (fun d =>
            d !! "position" ≠ Some PNone
            /\ (exists p, d !! "position" = Some (Pos.to_py p))
            /\ (exists q, d !! "importance" = Some (PFloat q)))
         (GraphData.nodes g).
Proof.
  intros Hbuild.
  destruct (build_inv _ _ _ _ _ _ _ Hbuild) as (graph_data & Hasm & Hsave).
  destruct (assemble_inv _ _ _ _ _ _ _ Hasm)
    as (nodes & edges & layout & Hcollect & Hlayout & _ & Hnodes).
  exists nodes, edges, layout. split; [exact Hcollect|]. split; [exact Hlayout|].
  rewrite (save_keeps_nodes _ _ _ _ Hsave), Hnodes, <- list_fmap_compose.
  split.
  - apply Forall2_fmap_r, Forall_Forall2_diag, Forall_forall.
    intros node _. apply serialized_annotated.
  - apply Forall_fmap, Forall_forall. intros node _.
    destruct (serialized_annotated layout
                (_calculate_node_importance (_create_networkx_graph nodes edges))
                (_detect_research_clusters (_create_networkx_graph nodes edges) nodes)
                node) as (_ & Hpos & Himp).
    simpl in *. rewrite Hpos, Himp. split; [discriminate|]. split; by eexists.
Qed.

End BuildProperties.

Section BuildExamples.
Import Standin.



Lemma built_nodes_have_position_and_importance_witness :
  exists g,
    build_research_knowledge_graph accepting_sink "u1" None None None 10 = Ok g
    /\ length (GraphData.nodes g) = 3%nat
    /\ Forall
         (fun d =>
            d !! "position" ≠ Some PNone
            /\ (exists p, d !! "position" = Some (Pos.to_py p))
            /\ (exists q, d !! "importance" = Some (PFloat q)))
         (GraphData.nodes g).
Proof.
  destruct (succeeded_Ok
              (build_research_knowledge_graph accepting_sink "u1" None None None 10))
    as [g Hbuild]; [vm_compute; reflexivity|].
  exists g. split; [exact Hbuild|].
  destruct (built_nodes_have_position_and_importance accepting_sink "u1"
              None None None 10 g Hbuild)
    as (nodes & edges & layout & Hcollect & _ & Hfields & Hall).
  split; [|exact Hall].
  rewrite <- (Forall2_length _ _ _ Hfields).
  change (length nodes) with (collected_count (Ok (nodes, edges))).
  rewrite <- Hcollect. vm_compute. reflexivity.
Defined.

End BuildExamples.

(** ** Graphs built by [_create_networkx_graph] *)

Section GraphShape.

Lemma well_formed_empty : well_formed nx.empty.
Proof.
  split; [apply NoDup_nil_2|].
  intros n nbrs m Hn. simpl in Hn. by rewrite lookup_empty in Hn.
Qed.

Lemma has_node_spec (g : nx.Graph) (n : string) :
  nx.has_node g n = true <-> n ∈ nx.nodes g.
Proof. unfold nx.has_node. apply bool_decide_eq_true. Qed.

(** The step shared by [add_node] on a new node and [add_edge] on a new
    endpoint. *)
Lemma well_formed_new_node (g : nx.Graph) (n : string) (attr : gmap string PyVal) :
  well_formed g -> n ∉ nx.nodes g ->
  well_formed (nx.mk (nx._node g ++ [(n, attr)]) (<[n := ∅]> (nx._adj g))).
Proof.
  intros [Hnodup Hadj] Hnew. unfold well_formed, nx.nodes in *. simpl.
  rewrite fmap_app. simpl. split.
  - apply NoDup_app. split; [exact Hnodup|]. split; [|apply NoDup_singleton].
    intros x Hx Hx'. apply list_elem_of_singleton in Hx' as ->. by apply Hnew.
  - intros k nbrs m Hk Hm. apply elem_of_app. left.
    destruct (decide (n = k)) as [->|Hne].
    + rewrite lookup_insert_eq in Hk. injection Hk as <-.
      rewrite lookup_empty in Hm. by destruct Hm.
    + rewrite lookup_insert_ne in Hk by exact Hne. by apply (Hadj k nbrs m).
Qed.

Lemma well_formed_add_node (n : string) (attr : gmap string PyVal) (g : nx.Graph) :
  well_formed g -> well_formed (nx.add_node n attr g).
Proof.
  intros Hg. unfold nx.add_node.
  destruct (nx.has_node g n) eqn:Hhas.
  - destruct Hg as [Hnodup Hadj]. unfold well_formed, nx.nodes in *. simpl.
    assert (Hfst : fst <$> ((fun '(m, a) =>
                      if bool_decide (m = n) then (m, attr ∪ a) else (m, a))
                    <$> nx._node g) = fst <$> nx._node g).
    { rewrite <- list_fmap_compose. apply list_fmap_ext.
      intros i [m a] _. simpl. by destruct (bool_decide (m = n)). }
    rewrite Hfst. by split.
  - apply well_formed_new_node; [exact Hg|].
    intros Hin. apply has_node_spec in Hin. congruence.
Qed.

Lemma well_formed_endpoint (u : string) (g : nx.Graph) :
  well_formed g ->
  let g' := if nx.has_node g u then g
            else nx.mk (nx._node g ++ [(u, ∅)]) (<[u := ∅]> (nx._adj g)) in
  well_formed g' /\ u ∈ nx.nodes g' /\ forall n, n ∈ nx.nodes g -> n ∈ nx.nodes g'.
Proof.
  intros Hg. simpl. destruct (nx.has_node g u) eqn:Hhas.
  - split; [exact Hg|]. split; [by apply has_node_spec|done].
  - split.
    + apply well_formed_new_node; [exact Hg|].
      intros Hin. apply has_node_spec in Hin. congruence.
    + unfold nx.nodes. simpl. rewrite fmap_app. simpl.
      split; [apply elem_of_app; right; by apply list_elem_of_singleton|].
      intros n Hn. apply elem_of_app. by left.
Qed.

Lemma well_formed_add_edge (u v : string) (attr : gmap string PyVal) (g : nx.Graph) :
  well_formed g -> well_formed (nx.add_edge u v attr g).
Proof.
  intros Hg. unfold nx.add_edge.
  destruct (well_formed_endpoint u g Hg) as (Hg1 & Hu1 & Hmono1).
  set (g1 := if nx.has_node g u then g else _) in *.
  destruct (well_formed_endpoint v g1 Hg1) as (Hg2 & Hv2 & Hmono2).
  set (g2 := if nx.has_node g1 v then g1 else _) in *.
  assert (Hu2 : u ∈ nx.nodes g2) by by apply Hmono2.
  destruct Hg2 as [Hnodup Hadj]. split; [exact Hnodup|].
  simpl. intros n nbrs m Hn Hm.
  change (m ∈ nx.nodes g2).
  destruct (decide (v = n)) as [->|Hvn].
  - rewrite lookup_insert_eq in Hn. injection Hn as <-.
    destruct (decide (u = m)) as [->|Hum]; [exact Hu2|].
    rewrite lookup_insert_ne in Hm by exact Hum.
    destruct (decide (u = n)) as [->|Hun].
    + rewrite lookup_insert_eq in Hm. simpl in Hm.
      destruct (decide (n = m)) as [->|Hnm]; [exact Hv2|].
      rewrite lookup_insert_ne in Hm by exact Hnm.
      destruct (nx._adj g2 !! n) as [old|] eqn:Hold; simpl in Hm;
        [by apply (Hadj n old m)|].
      rewrite lookup_empty in Hm. by destruct Hm.
    + rewrite lookup_insert_ne in Hm by exact Hun.
      destruct (nx._adj g2 !! n) as [old|] eqn:Hold; simpl in Hm;
        [by apply (Hadj n old m)|].
      rewrite lookup_empty in Hm. by destruct Hm.
  - rewrite lookup_insert_ne in Hn by exact Hvn.
    destruct (decide (u = n)) as [->|Hun].
    + rewrite lookup_insert_eq in Hn. injection Hn as <-.
      destruct (decide (v = m)) as [->|Hvm]; [exact Hv2|].
      rewrite lookup_insert_ne in Hm by exact Hvm.
      destruct (nx._adj g2 !! n) as [old|] eqn:Hold; simpl in Hm;
        [by apply (Hadj n old m)|].
      rewrite lookup_empty in Hm. by destruct Hm.
    + rewrite lookup_insert_ne in Hn by exact Hun. by apply (Hadj n nbrs m).
Qed.

Lemma well_formed_created (nodes : list GraphNode.t) (edges : list GraphEdge.t) :
  well_formed (_create_networkx_graph nodes edges).
Proof.
  unfold _create_networkx_graph.
  apply (foldl_invariant well_formed).
  { intros g edge Hg. by apply well_formed_add_edge. }
  apply (foldl_invariant well_formed).
  { intros g node Hg. by apply well_formed_add_node. }
  apply well_formed_empty.
Qed.

(** Without a self-loop a node has at most [n - 1] neighbours. *)
Lemma degree_without_self_loop (g : nx.Graph) (n : string) :
  well_formed g -> n ∈ nx.nodes g -> n ∉ nx.neighbors g n ->
  nx.degree g n <= nx.number_of_nodes g - 1.
Proof.
  intros [Hnodup Hadj] Hn Hloop. unfold nx.degree, nx.number_of_nodes, len.
  rewrite bool_decide_eq_false_2 by exact Hloop.
  assert (Hsub : nx.neighbors g n ⊆ list_to_set (nx.nodes g) ∖ {[n]}).
  { intros m Hm. apply elem_of_difference. split.
    - apply elem_of_list_to_set. unfold nx.neighbors in Hm.
      destruct (nx._adj g !! n) as [nbrs|] eqn:Hnbrs; simpl in Hm.
      + apply elem_of_dom in Hm. by apply (Hadj n nbrs m).
      + by rewrite dom_empty_L in Hm.
    - intros Heq. apply elem_of_singleton in Heq as ->. by apply Hloop. }
  apply subseteq_size in Hsub.
  rewrite size_difference in Hsub.
  2:{ intros x Hx. apply elem_of_singleton in Hx as ->. by apply elem_of_list_to_set. }
  rewrite size_singleton, size_list_to_set in Hsub by exact Hnodup.
  assert (length (nx.nodes g) = length (nx._node g)) as Hlen
    by (unfold nx.nodes; apply length_fmap).
  assert (length (nx.nodes g) <> 0)%nat as Hpos.
  { intros Hz. apply nil_length_inv in Hz. rewrite Hz in Hn. by apply elem_of_nil in Hn. }
  lia.
Qed.

End GraphShape.

(** ** Importance scores *)

Section Importance.
Context `{nx.Algorithms}.



(** The scorer never reaches its handler: with more than 500 nodes a
    sample of 100 pivots exists, and below that no sample is drawn. *)
Lemma importance_try_ok (graph : nx.Graph) :
  let k := if 500 <? nx.number_of_nodes graph then Some 100 else None in
  importance_try graph =
    Ok (foldl (fun importance_scores node =>
                 <[node := ((6 # 10) * default 0%Q (nx.degree_centrality graph !! node)
                            + (4 # 10) * default 0%Q (nx.brandes graph k !! node))%Q]>
                   importance_scores)
              ∅ (nx.nodes graph)).
Proof.
  unfold importance_try.
  destruct (Z.ltb_spec 500 (nx.number_of_nodes graph)) as [Hbig|Hsmall]; simpl.
  - destruct (Z.ltb_spec (nx.number_of_nodes graph) 100) as [Hlt|_]; [lia|].
    reflexivity.
  - reflexivity.
Qed.




End Importance.

Section ImportanceExamples.
Import Standin.



End ImportanceExamples.

(** ** Clusters *)

Section Clusters.
Context `{nx.Algorithms}.

(** Every cluster the loop adds comes from a community of at least two
    members, whose elements and size it copies. *)
Lemma add_cluster_origin nodes entries acc clusters cluster :
  for_each (add_cluster nodes) entries acc = Ok clusters ->
  cluster ∈ clusters ->
  cluster ∈ acc
  \/ exists i community,
       (i, community) ∈ entries
       /\ 2 <= Z.of_nat (size community)
       /\ GraphCluster.nodes cluster = elements community
       /\ GraphCluster.size cluster = Z.of_nat (size community).
Proof.
  revert acc. induction entries as [|[i community] entries IH]; intros acc Hrun Hin.
  - simpl in Hrun. injection Hrun as <-. by left.
  - rewrite for_each_cons in Hrun.
    apply bind_Ok_inv in Hrun as (acc' & Hadd & Hrun).
    destruct (IH acc' Hrun Hin) as [Hacc'|(j & c & Hjc & Hrest)].
    + unfold add_cluster in Hadd.
      destruct (Z.ltb_spec (Z.of_nat (size community)) 2) as [Hsmall|Hbig].
      * injection Hadd as <-. by left.
      * destruct (most_common _) as [most_common_type|e]; simpl in Hadd;
          [|discriminate].
        injection Hadd as <-.
        apply elem_of_app in Hacc' as [Hold|Hnew]; [by left|].
        apply list_elem_of_singleton in Hnew as ->.
        right. exists i, community. split; [apply elem_of_cons; by left|].
        by repeat split.
    + right. exists j, c. split; [apply elem_of_cons; by right|exact Hrest].
Qed.

Lemma enumerate_elem {A} (l : list A) (i : nat) (a : A) :
  (i, a) ∈ enumerate l -> a ∈ l.
Proof.
  unfold enumerate. intros Hin.
  apply elem_of_lookup_imap in Hin as (j & b & Heq & Hlook).
  injection Heq as -> ->. by apply list_elem_of_lookup_2 in Hlook.
Qed.

(** C6. Every cluster returned has at least two members, as its size
    field and as the length of its member list, and its members are
    members of a Louvain community; so they are nodes of the graph
    whenever the communities are subsets of the graph's node set, which is
    what a partition of the graph is. *)
Theorem clusters_well_formed (graph : nx.Graph) (nodes : list GraphNode.t)
    (cluster : GraphCluster.t) :
  (forall communities community n,
     nx.louvain_communities graph = Ok communities ->
     community ∈ communities -> n ∈ community -> n ∈ nx.nodes graph) ->
  cluster ∈ _detect_research_clusters graph nodes ->
  2 <= GraphCluster.size cluster
  /\ 2 <= len (GraphCluster.nodes cluster)
  /\ forall n, n ∈ GraphCluster.nodes cluster -> n ∈ nx.nodes graph.
Proof.
  intros Hpartition Hin. unfold _detect_research_clusters, detect_try in Hin.
  destruct (nx.louvain_communities graph) as [communities|e] eqn:Hlouvain;
    simpl in Hin; [|by apply elem_of_nil in Hin].
  destruct (for_each _ _ _) as [clusters|e] eqn:Hrun; [|by apply elem_of_nil in Hin].
  destruct (add_cluster_origin _ _ _ _ _ Hrun Hin)
    as [Hnil|(i & community & Hentry & Hsize & Hnodes & Hfield)];
    [by apply elem_of_nil in Hnil|].
  apply enumerate_elem in Hentry.
  rewrite Hfield, Hnodes. split; [exact Hsize|]. split.
  - exact Hsize.
  - intros n Hn. apply elem_of_elements in Hn.
    by apply (Hpartition communities community n).
Qed.

End Clusters.

Section ClusterExamples.
Import Standin.

(** The chain forms the only cluster; the community of P4 alone is
    dropped. *)
Lemma clusters_well_formed_witness :
  exists cluster,
    _detect_research_clusters chain_and_loner four_papers = [cluster]
    /\ GraphCluster.name cluster = "Paper Cluster 1"
    /\ 2 <= GraphCluster.size cluster
    /\ 2 <= len (GraphCluster.nodes cluster)
    /\ forall n, n ∈ GraphCluster.nodes cluster -> n ∈ nx.nodes chain_and_loner.
Proof.
  eexists. split; [vm_compute; reflexivity|]. split; [reflexivity|].
  apply (clusters_well_formed chain_and_loner four_papers).
  - intros communities community n Hlouvain Hcommunity Hn.
    assert (Hall : Forall (fun c => Forall (fun m => m ∈ nx.nodes chain_and_loner)
                                      (elements c))
                     (components chain_and_loner)).
    { apply (bool_decide_unpack _). vm_compute. exact I. }
    apply (Ok_inj (components chain_and_loner)) in Hlouvain. subst communities.
    rewrite Forall_forall in Hall. specialize (Hall community Hcommunity).
    rewrite Forall_forall in Hall. apply Hall. by apply elem_of_elements.
  - vm_compute. constructor.
Defined.

End ClusterExamples.

(** ** What the builder keeps while it runs *)

Section BuilderInvariants.
Variable max_nodes : Z.

Local Abbreviation fits := (fits max_nodes).
Local Abbreviation expanding := (expanding max_nodes).

Lemma ids_in_step_append_node n s :
  ids_in_step s -> ids_in_step (Build.append_node n s).
Proof.
  unfold ids_in_step, Build.append_node. simpl. intros ->.
  rewrite fmap_app, list_to_set_app_L. simpl. set_solver.
Qed.

(** The two ways a related entity is handled: admitted, or not. *)
Lemma add_author_cases node s author :
  let author_id := "author_" +:+ Researcher.id author in
  let edge := GraphEdge.mk author_id (GraphNode.id node) AUTHORED_BY 1%Q None in
  ((author_id ∉ Build.node_ids s) /\ fits s
   /\ add_author max_nodes node s author
      = Build.append_edge edge (Build.append_node (author_node author) s))
  \/ ((author_id ∈ Build.node_ids s \/ ~ fits s)
      /\ add_author max_nodes node s author = Build.append_edge edge s).
Proof.
  simpl. unfold add_author, fits.
  destruct (bool_decide_reflect ("author_" +:+ Researcher.id author ∉ Build.node_ids s))
    as [Hnew|Hold]; simpl.
  - destruct (Z.ltb_spec (len (Build.nodes s)) max_nodes) as [Hfit|Hfull].
    + left. by repeat split.
    + right. split; [right; lia|reflexivity].
  - right. split; [left; by apply dec_stable|reflexivity].
Qed.

Lemma add_keyword_cases node s keyword :
  let keyword_id := "keyword_" +:+ Keyword.id keyword in
  let edge := GraphEdge.mk (GraphNode.id node) keyword_id RELATED_TO (1 # 2)%Q None in
  ((keyword_id ∉ Build.node_ids s) /\ fits s
   /\ add_keyword max_nodes node s keyword
      = Build.append_edge edge (Build.append_node (keyword_node keyword) s))
  \/ ((keyword_id ∈ Build.node_ids s \/ ~ fits s)
      /\ add_keyword max_nodes node s keyword = Build.append_edge edge s).
Proof.
  simpl. unfold add_keyword, fits.
  destruct (bool_decide_reflect ("keyword_" +:+ Keyword.id keyword ∉ Build.node_ids s))
    as [Hnew|Hold]; simpl.
  - destruct (Z.ltb_spec (len (Build.nodes s)) max_nodes) as [Hfit|Hfull].
    + left. by repeat split.
    + right. split; [right; lia|reflexivity].
  - right. split; [left; by apply dec_stable|reflexivity].
Qed.

Lemma edges_closed_append_edge e s :
  edges_closed s ->
  GraphEdge.source e ∈ Build.node_ids s -> GraphEdge.target e ∈ Build.node_ids s ->
  edges_closed (Build.append_edge e s).
Proof.
  intros Hs Hsrc Htgt e' He'. unfold Build.append_edge in *. simpl in *.
  apply elem_of_app in He' as [He'|He']; [by apply Hs|].
  apply list_elem_of_singleton in He' as ->. by split.
Qed.

Lemma edges_closed_append_node n s :
  edges_closed s -> edges_closed (Build.append_node n s).
Proof.
  intros Hs e He. unfold Build.append_node in *. simpl in *.
  destruct (Hs e He) as [Hsrc Htgt]. set_solver.
Qed.

Lemma fits_append_node n s : fits (Build.append_node n s) -> fits s.
Proof. unfold fits. rewrite len_append_node. lia. Qed.

Lemma expanding_add_author node base s author :
  expanding (GraphNode.id node) base s ->
  expanding (GraphNode.id node) base (add_author max_nodes node s author).
Proof.
  intros (Hids & Hpid & Hbase & Hclosed).
  destruct (add_author_cases node s author) as [(Hnew & Hfit & ->)|([Hold|Hfull] & ->)].
  - split; [by apply ids_in_step_append_node|].
    split; [simpl; set_solver|]. split; [simpl; set_solver|].
    intros _. apply edges_closed_append_edge.
    + apply edges_closed_append_node. by apply Hclosed.
    + simpl. set_solver.
    + simpl. set_solver.
  - split; [exact Hids|]. split; [exact Hpid|]. split; [exact Hbase|].
    intros Hfit. apply edges_closed_append_edge; [by apply Hclosed|exact Hold|exact Hpid].
  - split; [exact Hids|]. split; [exact Hpid|]. split; [exact Hbase|].
    intros Hfit. by destruct Hfull.
Qed.

Lemma expanding_add_keyword node base s keyword :
  expanding (GraphNode.id node) base s ->
  expanding (GraphNode.id node) base (add_keyword max_nodes node s keyword).
Proof.
  intros (Hids & Hpid & Hbase & Hclosed).
  destruct (add_keyword_cases node s keyword) as [(Hnew & Hfit & ->)|([Hold|Hfull] & ->)].
  - split; [by apply ids_in_step_append_node|].
    split; [simpl; set_solver|]. split; [simpl; set_solver|].
    intros _. apply edges_closed_append_edge.
    + apply edges_closed_append_node. by apply Hclosed.
    + simpl. set_solver.
    + simpl. set_solver.
  - split; [exact Hids|]. split; [exact Hpid|]. split; [exact Hbase|].
    intros Hfit. apply edges_closed_append_edge; [by apply Hclosed|exact Hpid|exact Hold].
  - split; [exact Hids|]. split; [exact Hpid|]. split; [exact Hbase|].
    intros Hfit. by destruct Hfull.
Qed.

Lemma expanding_add_paper s paper :
  ids_in_step s -> (fits s -> edges_closed s) ->
  expanding ("paper_" +:+ ResearchPaper.id paper) (Build.node_ids s)
    (add_paper max_nodes s paper).
Proof.
  intros Hids Hclosed. unfold add_paper.
  apply (foldl_invariant (expanding _ _)); [intros; by apply expanding_add_keyword|].
  apply (foldl_invariant (expanding _ _)); [intros; by apply expanding_add_author|].
  split; [by apply ids_in_step_append_node|].
  split; [simpl; set_solver|]. split; [simpl; set_solver|].
  intros Hfit. apply edges_closed_append_node, Hclosed. by apply fits_append_node in Hfit.
Qed.

(** If the paper loop ends below the budget, it never broke off: every
    paper of the answer was admitted and every edge is closed. *)
Lemma paper_loop_below_budget papers_data s :
  ids_in_step s -> (fits s -> edges_closed s) ->
  fits (paper_loop max_nodes papers_data s) ->
  ids_in_step (paper_loop max_nodes papers_data s)
  /\ edges_closed (paper_loop max_nodes papers_data s)
  /\ Build.node_ids s ⊆ Build.node_ids (paper_loop max_nodes papers_data s)
  /\ forall paper, paper ∈ papers_data ->
       "paper_" +:+ ResearchPaper.id paper
         ∈ Build.node_ids (paper_loop max_nodes papers_data s).
Proof.
  revert s. induction papers_data as [|paper rest IH]; intros s Hids Hclosed Hfit.
  - simpl in *. split; [exact Hids|]. split; [by apply Hclosed|].
    split; [done|]. intros p Hp. by apply elem_of_nil in Hp.
  - simpl in *. destruct (Z.geb_spec (len (Build.nodes s)) max_nodes) as [Hfull|Hroom].
    { unfold fits in Hfit. lia. }
    destruct (expanding_add_paper s paper Hids Hclosed) as (Hids1 & Hpid & Hbase & Hclosed1).
    destruct (IH _ Hids1 Hclosed1 Hfit) as (Hids2 & Hclosed2 & Hmono & Hall).
    split; [exact Hids2|]. split; [exact Hclosed2|].
    split; [set_solver|].
    intros p Hp. apply elem_of_cons in Hp as [->|Hp]; [set_solver|by apply Hall].
Qed.


(** The citation pass adds edges only; it leaves [nodes] and [node_ids]
    alone. *)
Lemma add_citation_node_ids pid s citation :
  Build.node_ids (add_citation pid s citation) = Build.node_ids s.
Proof. unfold add_citation. by destruct (bool_decide _). Qed.

Lemma add_citations_node_ids s paper :
  Build.node_ids (add_citations s paper) = Build.node_ids s.
Proof.
  unfold add_citations.
  apply (foldl_invariant (fun s' => Build.node_ids s' = Build.node_ids s)); [|reflexivity].
  intros b c Hb. by rewrite add_citation_node_ids.
Qed.

Lemma citation_pass_node_ids papers_data s :
  Build.node_ids (foldl add_citations s papers_data) = Build.node_ids s.
Proof.
  apply (foldl_invariant (fun s' => Build.node_ids s' = Build.node_ids s)); [|reflexivity].
  intros b p Hb. by rewrite add_citations_node_ids.
Qed.

Lemma citation_pass_ids_in_step papers_data s :
  ids_in_step s -> ids_in_step (foldl add_citations s papers_data).
Proof.
  unfold ids_in_step. rewrite citation_pass_node_ids, citation_pass_nodes. done.
Qed.

Lemma add_citations_closed s paper :
  "paper_" +:+ ResearchPaper.id paper ∈ Build.node_ids s ->
  edges_closed s -> edges_closed (add_citations s paper).
Proof.
  intros Hpid Hclosed. unfold add_citations.
  apply (foldl_invariant
           (fun s' => Build.node_ids s' = Build.node_ids s /\ edges_closed s'));
    [|by split].
  intros b c [Hids Hb]. rewrite add_citation_node_ids. split; [exact Hids|].
  unfold add_citation.
  destruct (bool_decide_reflect
              ("paper_" +:+ Citation.cited_paper_id c ∈ Build.node_ids b)) as [Hin|Hout];
    [|exact Hb].
  apply edges_closed_append_edge; [exact Hb| |exact Hin].
  simpl. by rewrite Hids.
Qed.

Lemma citation_pass_closed papers_data s :
  (forall paper, paper ∈ papers_data ->
     "paper_" +:+ ResearchPaper.id paper ∈ Build.node_ids s) ->
  edges_closed s -> edges_closed (foldl add_citations s papers_data).
Proof.
  revert s. induction papers_data as [|paper rest IH]; intros s Hall Hclosed; simpl;
    [exact Hclosed|].
  apply IH.
  - intros p Hp. rewrite add_citations_node_ids. apply Hall, elem_of_cons. by right.
  - apply add_citations_closed; [|exact Hclosed]. apply Hall, elem_of_cons. by left.
Qed.

Lemma ids_in_step_empty : ids_in_step Build.empty.
Proof. reflexivity. Qed.

End BuilderInvariants.

(** X1. Below the budget nothing dangles: when the returned node list is
    shorter than [max_nodes], every returned edge has its source and its
    target among the returned nodes. *)
Theorem collect_closed_below_budget (session : Session.t)
    (papers authors keywords : option (list string)) (max_nodes : Z)
    (nodes : list GraphNode.t) (edges : list GraphEdge.t) :
  _collect_graph_data session papers authors keywords max_nodes = Ok (nodes, edges) ->
  len nodes < max_nodes ->
  forall e, e ∈ edges ->
    GraphEdge.source e ∈ (GraphNode.id <$> nodes)
    /\ GraphEdge.target e ∈ (GraphNode.id <$> nodes).
Proof.
  unfold _collect_graph_data. intros Hrun Hbelow e He.
  apply bind_Ok_inv in Hrun as (papers_data & _ & Hrun).
  injection Hrun as <- <-.
  rewrite citation_pass_nodes in *.
  set (s1 := paper_loop max_nodes papers_data Build.empty) in *.
  destruct (paper_loop_below_budget max_nodes papers_data Build.empty)
    as (Hids & Hclosed & _ & Hall);
    [apply ids_in_step_empty|intros _ e' He'; by apply elem_of_nil in He'|exact Hbelow|].
  fold s1 in Hids, Hclosed, Hall.
  destruct (citation_pass_closed papers_data s1 Hall Hclosed e He) as [Hsrc Htgt].
  rewrite citation_pass_node_ids, Hids in Hsrc, Htgt.
  by rewrite !elem_of_list_to_set in Hsrc, Htgt.
Qed.

Section BuilderExamples.
Import Standin.

Lemma collect_closed_below_budget_witness :
  exists nodes edges,
    _collect_graph_data
      (memory_session
         [paper "p1" [ada; bob] [kw] []; paper "p2" [ada] [kw] ["p1"]] (Ok "kg-1"))
      None None None 10 = Ok (nodes, edges)
    /\ len nodes < 10
    /\ length edges = 6%nat
    /\ forall e, e ∈ edges ->
         GraphEdge.source e ∈ (GraphNode.id <$> nodes)
         /\ GraphEdge.target e ∈ (GraphNode.id <$> nodes).
Proof.
  eexists _, _. split; [vm_compute; reflexivity|]. split; [reflexivity|].
  split; [reflexivity|].
  apply (collect_closed_below_budget
           (memory_session
              [paper "p1" [ada; bob] [kw] []; paper "p2" [ada] [kw] ["p1"]] (Ok "kg-1"))
           None None None 10).
  - vm_compute. reflexivity.
  - reflexivity.
Defined.

End BuilderExamples.

Section BuilderEndpoints.
Variable max_nodes : Z.

Lemma anchored_edge_mono (ids ids' : gset string) (e : GraphEdge.t) :
  ids ⊆ ids' -> anchored_edge ids e -> anchored_edge ids' e.
Proof. unfold anchored_edge. destruct (GraphEdge.edge_type e); set_solver. Qed.

Lemma anchored_append_node n s : anchored s -> anchored (Build.append_node n s).
Proof.
  intros [Hids Hedges]. split; [by apply ids_in_step_append_node|].
  intros e He. apply (anchored_edge_mono (Build.node_ids s)); [simpl; set_solver|].
  by apply Hedges.
Qed.

Lemma anchored_append_edge e s :
  anchored s -> anchored_edge (Build.node_ids s) e -> anchored (Build.append_edge e s).
Proof.
  intros [Hids Hedges] He. split; [exact Hids|].
  intros e' He'. simpl in *. apply elem_of_app in He' as [He'|He']; [by apply Hedges|].
  by apply list_elem_of_singleton in He' as ->.
Qed.

Lemma anchored_add_author node s author :
  GraphNode.id node ∈ Build.node_ids s -> anchored s ->
  GraphNode.id node ∈ Build.node_ids (add_author max_nodes node s author)
  /\ anchored (add_author max_nodes node s author).
Proof.
  intros Hpid Hs.
  destruct (add_author_cases max_nodes node s author) as [(_ & _ & ->)|(_ & ->)].
  - split; [simpl; set_solver|].
    apply anchored_append_edge; [by apply anchored_append_node|].
    unfold anchored_edge. simpl. set_solver.
  - split; [exact Hpid|]. by apply anchored_append_edge.
Qed.

Lemma anchored_add_keyword node s keyword :
  GraphNode.id node ∈ Build.node_ids s -> anchored s ->
  GraphNode.id node ∈ Build.node_ids (add_keyword max_nodes node s keyword)
  /\ anchored (add_keyword max_nodes node s keyword).
Proof.
  intros Hpid Hs.
  destruct (add_keyword_cases max_nodes node s keyword) as [(_ & _ & ->)|(_ & ->)].
  - split; [simpl; set_solver|].
    apply anchored_append_edge; [by apply anchored_append_node|].
    unfold anchored_edge. simpl. set_solver.
  - split; [exact Hpid|]. by apply anchored_append_edge.
Qed.

Lemma anchored_add_paper s paper : anchored s -> anchored (add_paper max_nodes s paper).
Proof.
  intros Hs. unfold add_paper.
  apply (foldl_invariant
           (fun s' => GraphNode.id (paper_node paper) ∈ Build.node_ids s' /\ anchored s')).
  { intros b k [Hpid Hb]. by apply anchored_add_keyword. }
  apply (foldl_invariant
           (fun s' => GraphNode.id (paper_node paper) ∈ Build.node_ids s' /\ anchored s')).
  { intros b a [Hpid Hb]. by apply anchored_add_author. }
  split; [simpl; set_solver|by apply anchored_append_node].
Qed.

Lemma anchored_paper_loop papers_data s :
  anchored s -> anchored (paper_loop max_nodes papers_data s).
Proof.
  revert s. induction papers_data as [|paper rest IH]; intros s Hs; simpl; [exact Hs|].
  destruct (len (Build.nodes s) >=? max_nodes); [exact Hs|].
  by apply IH, anchored_add_paper.
Qed.

Lemma anchored_add_citations s paper : anchored s -> anchored (add_citations s paper).
Proof.
  intros Hs. unfold add_citations. apply (foldl_invariant anchored); [|exact Hs].
  intros b c Hb. unfold add_citation.
  destruct (bool_decide_reflect
              ("paper_" +:+ Citation.cited_paper_id c ∈ Build.node_ids b)) as [Hin|Hout];
    [|exact Hb].
  by apply anchored_append_edge.
Qed.

(** Ids with different prefixes differ, and the prefix can be taken off. *)
Lemma paper_id_inj (x y : string) : "paper_" +:+ x = "paper_" +:+ y -> x = y.
Proof. apply (inj (String.app "paper_")). Qed.

Lemma distinct_ids_add_author processed node s author :
  distinct_ids processed s -> distinct_ids processed (add_author max_nodes node s author).
Proof.
  intros (Hids & Hnodup & Hpapers).
  destruct (add_author_cases max_nodes node s author) as [(Hnew & _ & ->)|(_ & ->)];
    [|by repeat split].
  split; [by apply ids_in_step_append_node|]. simpl. split.
  - rewrite fmap_app. apply NoDup_app. split; [exact Hnodup|].
    split; [|apply NoDup_singleton].
    intros x Hx Hx'. apply list_elem_of_singleton in Hx'. simpl in Hx'. subst x.
    apply Hnew. rewrite Hids. by apply elem_of_list_to_set.
  - intros x Hx. apply elem_of_union in Hx as [Hx|Hx]; [|by apply Hpapers].
    apply elem_of_singleton in Hx. simpl in Hx. discriminate Hx.
Qed.

Lemma distinct_ids_add_keyword processed node s keyword :
  distinct_ids processed s -> distinct_ids processed (add_keyword max_nodes node s keyword).
Proof.
  intros (Hids & Hnodup & Hpapers).
  destruct (add_keyword_cases max_nodes node s keyword) as [(Hnew & _ & ->)|(_ & ->)];
    [|by repeat split].
  split; [by apply ids_in_step_append_node|]. simpl. split.
  - rewrite fmap_app. apply NoDup_app. split; [exact Hnodup|].
    split; [|apply NoDup_singleton].
    intros x Hx Hx'. apply list_elem_of_singleton in Hx'. simpl in Hx'. subst x.
    apply Hnew. rewrite Hids. by apply elem_of_list_to_set.
  - intros x Hx. apply elem_of_union in Hx as [Hx|Hx]; [|by apply Hpapers].
    apply elem_of_singleton in Hx. simpl in Hx. discriminate Hx.
Qed.

Lemma distinct_ids_add_paper processed s paper :
  ResearchPaper.id paper ∉ processed ->
  distinct_ids processed s ->
  distinct_ids (ResearchPaper.id paper :: processed) (add_paper max_nodes s paper).
Proof.
  intros Hfresh (Hids & Hnodup & Hpapers). unfold add_paper.
  apply (foldl_invariant (distinct_ids _)); [intros; by apply distinct_ids_add_keyword|].
  apply (foldl_invariant (distinct_ids _)); [intros; by apply distinct_ids_add_author|].
  split; [by apply ids_in_step_append_node|]. simpl. split.
  - rewrite fmap_app. apply NoDup_app. split; [exact Hnodup|].
    split; [|apply NoDup_singleton].
    intros x Hx Hx'. apply list_elem_of_singleton in Hx'. simpl in Hx'. subst x.
    apply Hfresh, Hpapers. rewrite Hids. by apply elem_of_list_to_set.
  - intros x Hx. apply elem_of_union in Hx as [Hx|Hx].
    + apply elem_of_singleton in Hx. simpl in Hx. apply paper_id_inj in Hx as ->.
      apply elem_of_cons. by left.
    + apply elem_of_cons. right. by apply Hpapers.
Qed.

Lemma distinct_ids_paper_loop papers_data processed s :
  NoDup (ResearchPaper.id <$> papers_data) ->
  (forall x, x ∈ (ResearchPaper.id <$> papers_data) -> x ∉ processed) ->
  distinct_ids processed s ->
  NoDup (GraphNode.id <$> Build.nodes (paper_loop max_nodes papers_data s)).
Proof.
  revert processed s.
  induction papers_data as [|paper rest IH]; intros processed s Hnodup Hfresh Hs; simpl.
  - by destruct Hs as (_ & Hs & _).
  - destruct (len (Build.nodes s) >=? max_nodes); [by destruct Hs as (_ & Hs & _)|].
    simpl in Hnodup. apply NoDup_cons in Hnodup as [Hhead Htail].
    apply (IH (ResearchPaper.id paper :: processed)); [exact Htail| |].
    + intros x Hx Hin. apply elem_of_cons in Hin as [->|Hin]; [by apply Hhead|].
      apply (Hfresh x); [simpl; apply elem_of_cons; by right|exact Hin].
    + apply distinct_ids_add_paper; [|exact Hs].
      apply Hfresh. simpl. apply elem_of_cons. by left.
Qed.

End BuilderEndpoints.

(** X2. Whatever the budget, the guarded end of an edge never dangles:
    the target of every citation edge and of every authorship edge, and
    the source of every keyword edge, is among the returned nodes. *)
Theorem collect_guarded_endpoints (session : Session.t)
    (papers authors keywords : option (list string)) (max_nodes : Z)
    (nodes : list GraphNode.t) (edges : list GraphEdge.t) (e : GraphEdge.t) :
  _collect_graph_data session papers authors keywords max_nodes = Ok (nodes, edges) ->
  e ∈ edges ->
  match GraphEdge.edge_type e with
  | CITES | AUTHORED_BY => GraphEdge.target e ∈ (GraphNode.id <$> nodes)
  | RELATED_TO => GraphEdge.source e ∈ (GraphNode.id <$> nodes)
  | _ => True
  end.
Proof.
  unfold _collect_graph_data. intros Hrun He.
  apply bind_Ok_inv in Hrun as (papers_data & _ & Hrun).
  injection Hrun as <- <-.
  assert (Hfinal : anchored (foldl add_citations
                               (paper_loop max_nodes papers_data Build.empty) papers_data)).
  { apply (foldl_invariant anchored); [intros; by apply anchored_add_citations|].
    apply anchored_paper_loop. split; [apply ids_in_step_empty|].
    intros e' He'. by apply elem_of_nil in He'. }
  destruct Hfinal as [Hids Hedges]. specialize (Hedges e He).
  unfold anchored_edge in Hedges. rewrite Hids in Hedges.
  destruct (GraphEdge.edge_type e); try exact I;
    by rewrite elem_of_list_to_set in Hedges.
Qed.

(** X3. When the papers the store returns have distinct ids, the returned
    nodes have distinct ids: authors and keywords shared between papers
    are admitted once. *)
Theorem collect_distinct_node_ids (session : Session.t)
    (papers authors keywords : option (list string)) (max_nodes : Z)
    (papers_data : list ResearchPaper.t)
    (nodes : list GraphNode.t) (edges : list GraphEdge.t) :
  Session.execute session (paper_query papers max_nodes) = Ok papers_data ->
  NoDup (ResearchPaper.id <$> papers_data) ->
  _collect_graph_data session papers authors keywords max_nodes = Ok (nodes, edges) ->
  NoDup (GraphNode.id <$> nodes).
Proof.
  unfold _collect_graph_data. intros Hexec Hnodup Hrun.
  rewrite Hexec in Hrun. simpl in Hrun. injection Hrun as <- <-.
  rewrite citation_pass_nodes.
  apply (distinct_ids_paper_loop max_nodes papers_data []); [exact Hnodup| |].
  - intros x _ Hx. by apply elem_of_nil in Hx.
  - split; [apply ids_in_step_empty|]. split; [apply NoDup_nil_2|].
    intros x Hx. simpl in Hx. by apply elem_of_empty in Hx.
Qed.


Section BuilderEndpointExamples.
Import Standin.

(** The skipped author's edge still points at the admitted paper. *)
Lemma collect_guarded_endpoints_witness :
  exists nodes edges,
    _collect_graph_data one_paper_two_authors None None None 2 = Ok (nodes, edges)
    /\ GraphEdge.mk "author_a2" "paper_p1" AUTHORED_BY 1%Q None ∈ edges
    /\ "paper_p1" ∈ (GraphNode.id <$> nodes).
Proof.
  eexists _, _. split; [vm_compute; reflexivity|].
  split; [apply list_elem_of_lookup; by exists 1%nat|].
  eapply (collect_guarded_endpoints one_paper_two_authors None None None 2 _ _
            (GraphEdge.mk "author_a2" "paper_p1" AUTHORED_BY 1%Q None)).
  - vm_compute. reflexivity.
  - apply list_elem_of_lookup. by exists 1%nat.
Defined.

(** Two papers that share an author and a keyword. *)
Lemma collect_distinct_node_ids_witness :
  exists nodes edges,
    _collect_graph_data
      (memory_session
         [paper "p1" [ada; bob] [kw] []; paper "p2" [ada] [kw] ["p1"]] (Ok "kg-1"))
      None None None 10 = Ok (nodes, edges)
    /\ length nodes = 5%nat
    /\ NoDup (GraphNode.id <$> nodes).
Proof.
  eexists _, _. split; [vm_compute; reflexivity|]. split; [reflexivity|].
  eapply (collect_distinct_node_ids
            (memory_session
               [paper "p1" [ada; bob] [kw] []; paper "p2" [ada] [kw] ["p1"]] (Ok "kg-1"))
            None None None 10).
  - vm_compute. reflexivity.
  - apply (bool_decide_unpack _). vm_compute. exact I.
  - vm_compute. reflexivity.
Defined.


End BuilderEndpointExamples.

(** ** Failures of the data store *)

Section StoreFailure.
Context `{Numpy} `{nx.Algorithms} `{Runtime}.

(** X5. A failure of the data store aborts the build: when the paper
    query raises and the rollback and the close go through, the build
    raises that same error and returns no graph. *)
Theorem build_store_failure (session : Session.t) (user_id : string)
    (papers authors keywords : option (list string)) (max_nodes : Z) (e : Exn) :
  Session.execute session (paper_query papers max_nodes) = Raise e ->
  Session.rollback session = Ok tt ->
  Session.close session = Ok tt ->
  _collect_graph_data session papers authors keywords max_nodes = Raise e
  /\ build_research_knowledge_graph session user_id papers authors keywords max_nodes
     = Raise e.
Proof.
  intros Hexec Hrollback Hclose.
  assert (Hcollect : _collect_graph_data session papers authors keywords max_nodes
                     = Raise e).
  { unfold _collect_graph_data. by rewrite Hexec. }
  split; [exact Hcollect|].
  unfold build_research_knowledge_graph, get_async_session, assemble.
  rewrite Hcollect. cbn [mbind Result_bind]. by rewrite Hrollback, Hclose.
Qed.

End StoreFailure.

(** ** Cluster lookup *)

(** X6. [_find_node_cluster] returns the id of the first cluster, in list
    order, whose member list holds the node, and [None] exactly when no
    cluster holds it. *)
Theorem find_node_cluster_first (node_id : string) (clusters : list GraphCluster.t) :
  match _find_node_cluster node_id clusters with
  | Some cluster_id =>
      exists before cluster after,
        clusters = (before ++ cluster :: after)%list
        /\ cluster_id = GraphCluster.id cluster
        /\ node_id ∈ GraphCluster.nodes cluster
        /\ Forall (fun c => node_id ∉ GraphCluster.nodes c) before
  | None => Forall (fun c => node_id ∉ GraphCluster.nodes c) clusters
  end.
Proof.
  induction clusters as [|cluster rest IH]; simpl; [constructor|].
  destruct (bool_decide_reflect (node_id ∈ GraphCluster.nodes cluster)) as [Hin|Hout].
  - exists [], cluster, rest. by repeat split.
  - destruct (_find_node_cluster node_id rest) as [cluster_id|].
    + destruct IH as (before & c & after & -> & Hid & Hin & Hbefore).
      exists (cluster :: before), c, after. repeat split; try done.
      by constructor.
    + by constructor.
Qed.

(** ** Keys of the importance mapping *)

Section ImportanceKeys.
Context `{nx.Algorithms}.

Lemma dom_fill (f : string -> Q) (l : list string) (m : gmap string Q) :
  dom (foldl (fun m k => <[k := f k]> m) m l) = list_to_set l ∪ dom m.
Proof.
  revert m. induction l as [|a l IH]; intros m; simpl; [set_solver|].
  rewrite IH, dom_insert_L. set_solver.
Qed.

(** X7. The importance mapping has one entry per node of the graph and
    no other key; in particular it is never the empty mapping of the
    error handler on a graph with nodes. *)
Theorem importance_keys (graph : nx.Graph) :
  dom (_calculate_node_importance graph) = list_to_set (nx.nodes graph).
Proof.
  unfold _calculate_node_importance. rewrite importance_try_ok. cbv zeta.
  set (k := if 500 <? nx.number_of_nodes graph then Some 100 else None).
  rewrite (dom_fill
             (fun n => ((6 # 10) * default 0%Q (nx.degree_centrality graph !! n)
                        + (4 # 10) * default 0%Q (nx.brandes graph k !! n))%Q)).
  rewrite dom_empty_L. set_solver.
Qed.

End ImportanceKeys.

(** ** The analyzer on small and on large graphs *)

Section AnalyzerSizes.
Context `{nx.Algorithms}.

(** X8. On every graph with fewer than 100 nodes the analysis is the
    error dictionary: the centrality step asks for 100 pivots, so the
    counts and the other metrics never reach the caller. *)
Theorem small_graph_analysis_is_error (graph : nx.Graph) :
  nx.number_of_nodes graph < 100 ->
  exists e,
    _analyze_graph_structure graph = {[ "error" := PStr (str_exn e) ]}
    /\ _analyze_graph_structure graph !! "node_count" = None.
Proof.
  intros Hsmall. destruct (analyze_try_small graph Hsmall) as [e Hraise].
  exists e. rewrite (error_dictionary _ _ Hraise). split; [reflexivity|].
  by apply lookup_singleton_ne.
Qed.

End AnalyzerSizes.

Section AnalyzerSizeExamples.
Import Standin.

Lemma small_graph_analysis_is_error_witness :
  nx.number_of_nodes chain_and_loner < 100
  /\ exists e,
       _analyze_graph_structure chain_and_loner = {[ "error" := PStr (str_exn e) ]}
       /\ _analyze_graph_structure chain_and_loner !! "node_count" = None.
Proof.
  assert (Hsmall : nx.number_of_nodes chain_and_loner < 100) by (vm_compute; reflexivity).
  split; [exact Hsmall|]. by apply small_graph_analysis_is_error.
Defined.

Lemma build_store_failure_witness :
  _collect_graph_data
    (Session.mk (fun _ => Raise (DBAPIError "connection refused")) (fun _ => Ok "kg-1")
       (Ok tt) (Ok tt))
    None None None 10 = Raise (DBAPIError "connection refused")
  /\ build_research_knowledge_graph
       (Session.mk (fun _ => Raise (DBAPIError "connection refused")) (fun _ => Ok "kg-1")
          (Ok tt) (Ok tt))
       "u1" None None None 10 = Raise (DBAPIError "connection refused").
Proof.
  apply build_store_failure; reflexivity.
Defined.

End AnalyzerSizeExamples.

Section AnalyzerSuccess.
Context `{nx.Algorithms}.

(** X9. When no metric raises, the analysis has this shape: the graph
    has at least 100 nodes; the counts and the connectivity flag are the
    graph's; the diameter is filled in exactly when the graph is
    connected and is null otherwise; and above 500 nodes the centrality
    measures are left empty. *)
Theorem analysis_success_shape (graph : nx.Graph) (analysis : gmap string PyVal) :
  analyze_try graph = Ok analysis ->
  100 <= nx.number_of_nodes graph
  /\ analysis !! "node_count" = Some (PInt (nx.number_of_nodes graph))
  /\ analysis !! "edge_count" = Some (PInt (nx.number_of_edges graph))
  /\ analysis !! "connected_components"
     = Some (PInt (nx.number_connected_components graph))
  /\ (exists connected,
        nx.is_connected graph = Ok connected
        /\ analysis !! "is_connected" = Some (PBool connected)
        /\ if connected
           then exists diameter,
                  nx.diameter graph = Ok diameter
                  /\ analysis !! "diameter" = Some (PInt diameter)
           else analysis !! "diameter" = Some PNone
                /\ analysis !! "average_path_length" = Some PNone)
  /\ (500 < nx.number_of_nodes graph ->
      analysis !! "centrality_measures" = Some (PDict [])).
Proof.
  intros Hok.
  split.
  { destruct (Z.lt_ge_cases (nx.number_of_nodes graph) 100) as [Hsmall|Hge]; [|exact Hge].
    destruct (analyze_try_small graph Hsmall) as [e He]. congruence. }
  unfold analyze_try in Hok.
  apply bind_Ok_inv in Hok as (is_connected & Hconn1 & Hok).
  apply bind_Ok_inv in Hok as (average_clustering & _ & Hok).
  apply bind_Ok_inv in Hok as (connected & Hconn2 & Hok).
  assert (connected = is_connected) as -> by congruence.
  apply bind_Ok_inv in Hok as (a1 & Hpaths & Hok).
  apply bind_Ok_inv in Hok as (a2 & Hcentrality & Hok).
  injection Hok as <-.
  assert (Ha1 : a1 !! "node_count" = Some (PInt (nx.number_of_nodes graph))
                /\ a1 !! "edge_count" = Some (PInt (nx.number_of_edges graph))
                /\ a1 !! "connected_components"
                   = Some (PInt (nx.number_connected_components graph))
                /\ a1 !! "is_connected" = Some (PBool is_connected)
                /\ (if is_connected
                    then exists diameter,
                           nx.diameter graph = Ok diameter
                           /\ a1 !! "diameter" = Some (PInt diameter)
                    else a1 !! "diameter" = Some PNone
                         /\ a1 !! "average_path_length" = Some PNone)
                /\ a1 !! "centrality_measures" = Some (PDict [])).
  { destruct is_connected.
    - apply bind_Ok_inv in Hpaths as (diameter & Hdiam & Hpaths).
      apply bind_Ok_inv in Hpaths as (average_path_length & _ & Hpaths).
      injection Hpaths as <-. repeat split; try done. by exists diameter.
    - injection Hpaths as <-. by repeat split. }
  destruct Ha1 as (Hn & He & Hcc & Hc & Hd & Hcm).
  destruct (Z.leb_spec (nx.number_of_nodes graph) 500) as [Hle|Hgt].
  - apply bind_Ok_inv in Hcentrality as (betweenness & _ & Hcentrality).
    apply bind_Ok_inv in Hcentrality as (closeness & _ & Hcentrality).
    apply bind_Ok_inv in Hcentrality as (eigenvector & _ & Hcentrality).
    injection Hcentrality as <-.
    rewrite !lookup_insert_ne by done.
    split; [exact Hn|]. split; [exact He|]. split; [exact Hcc|].
    split; [|lia].
    exists is_connected. split; [exact Hconn1|]. split; [exact Hc|].
    destruct is_connected.
    + destruct Hd as (d & Hd1 & Hd2). by exists d.
    + exact Hd.
  - injection Hcentrality as <-.
    split; [exact Hn|]. split; [exact He|]. split; [exact Hcc|].
    split; [|done].
    exists is_connected. by repeat split.
Qed.

End AnalyzerSuccess.

Section AnalyzerSuccessExamples.
Import Standin.

(** 501 papers without any relation. *)
Lemma analysis_success_shape_witness :
  exists analysis,
    analyze_try (isolated_nodes 501) = Ok analysis
    /\ analysis !! "node_count" = Some (PInt 501)
    /\ analysis !! "centrality_measures" = Some (PDict []).
Proof.
  assert (Hcount : nx.number_of_nodes (isolated_nodes 501) = 501)
    by (vm_compute; reflexivity).
  destruct (succeeded_Ok (analyze_try (isolated_nodes 501))) as [analysis Hok];
    [vm_compute; reflexivity|].
  exists analysis. split; [exact Hok|].
  destruct (analysis_success_shape _ _ Hok) as (_ & Hn & _ & _ & _ & Hcm).
  rewrite Hcount in Hn, Hcm. split; [exact Hn|]. by apply Hcm.
Defined.

End AnalyzerSuccessExamples.

(** ** The assembled graph *)

Section Assembly.
Context `{Numpy} `{nx.Algorithms} `{Runtime}.

(** Every field of a graph that a build returned, in terms of the
    collected nodes and edges. Saving touches the id only. *)
Lemma build_fields session user_id papers authors keywords max_nodes g :
  build_research_knowledge_graph session user_id papers authors keywords max_nodes = Ok g ->
  exists nodes edges layout,
    _collect_graph_data session papers authors keywords max_nodes = Ok (nodes, edges)
    /\ _generate_3d_layout nodes edges "force_directed" = Ok layout
    /\ let nx_graph := _create_networkx_graph nodes edges in
       let clusters := _detect_research_clusters nx_graph nodes in
       let importance_scores := _calculate_node_importance nx_graph in
       GraphData.nodes g
         = (_serialize_node <$> (annotate layout importance_scores clusters <$> nodes))
       /\ GraphData.edges g = (_serialize_edge <$> edges)
       /\ GraphData.clusters g = (_serialize_cluster <$> clusters)
       /\ GraphData.analysis g = _analyze_graph_structure nx_graph
       /\ GraphData.layout_algorithm g = "force_directed"
       /\ GraphData.metadata g
          = {[ "created_by" := PStr user_id;
               "created_at" := PStr utcnow_isoformat;
               "node_count" := PInt (len nodes);
               "edge_count" := PInt (len edges);
               "cluster_count" := PInt (len clusters) ]}.
Proof.
  intros Hbuild.
  destruct (build_inv _ _ _ _ _ _ _ Hbuild) as (graph_data & Hasm & Hsave).
  unfold assemble in Hasm.
  apply bind_Ok_inv in Hasm as ([nodes edges] & Hcollect & Hasm).
  apply bind_Ok_inv in Hasm as (layout & Hlayout & Hasm).
  exists nodes, edges, layout. split; [exact Hcollect|]. split; [exact Hlayout|].
  injection Hasm as <-.
  assert (Hg : exists i, g = GraphData.set_id i
                 (GraphData.mk
                    ("kg_" +:+ user_id +:+ "_" +:+ utcnow_timestamp)
                    {[ "created_by" := PStr user_id;
                       "created_at" := PStr utcnow_isoformat;
                       "node_count" :=
                         PInt (len (annotate layout
                                      (_calculate_node_importance
                                         (_create_networkx_graph nodes edges))
                                      (_detect_research_clusters
                                         (_create_networkx_graph nodes edges) nodes)
                                    <$> nodes));
                       "edge_count" := PInt (len edges);
                       "cluster_count" :=
                         PInt (len (_detect_research_clusters
                                      (_create_networkx_graph nodes edges) nodes)) ]}
                    (_serialize_node <$>
                       (annotate layout
                          (_calculate_node_importance (_create_networkx_graph nodes edges))
                          (_detect_research_clusters
                             (_create_networkx_graph nodes edges) nodes)
                        <$> nodes))
                    (_serialize_edge <$> edges)
                    (_serialize_cluster <$>
                       _detect_research_clusters (_create_networkx_graph nodes edges) nodes)
                    (_analyze_graph_structure (_create_networkx_graph nodes edges))
                    "force_directed")).
  { unfold _save_knowledge_graph in Hsave.
    destruct (Session.commit session _) as [kg_id|e].
    - exists kg_id. by injection Hsave as <-.
    - apply bind_Ok_inv in Hsave as (_ & _ & Hsave). injection Hsave as <-.
      by eexists. }
  destruct Hg as [i ->]. cbv zeta. simpl.
  repeat split. unfold len. by rewrite length_fmap.
Qed.

(** X10. In a graph that a build returned, the metadata counts are the
    lengths of the node, edge and cluster lists of that same graph, the
    creator is the user, and the layout is named force_directed. *)
Theorem build_metadata_counts (session : Session.t) (user_id : string)
    (papers authors keywords : option (list string)) (max_nodes : Z) (g : GraphData.t) :
  build_research_knowledge_graph session user_id papers authors keywords max_nodes = Ok g ->
  GraphData.metadata g !! "node_count" = Some (PInt (len (GraphData.nodes g)))
  /\ GraphData.metadata g !! "edge_count" = Some (PInt (len (GraphData.edges g)))
  /\ GraphData.metadata g !! "cluster_count" = Some (PInt (len (GraphData.clusters g)))
  /\ GraphData.metadata g !! "created_by" = Some (PStr user_id)
  /\ GraphData.layout_algorithm g = "force_directed".
Proof.
  intros Hbuild.
  destruct (build_fields _ _ _ _ _ _ _ Hbuild)
    as (nodes & edges & layout & _ & _ & Hn & He & Hc & _ & Hl & Hm).
  rewrite Hn, He, Hc, Hl, Hm. unfold len. rewrite !length_fmap.
  by repeat split.
Qed.

(** A cluster id that was found belongs to a cluster of the list, and
    that cluster holds the node. *)
Lemma find_node_cluster_found node_id clusters cluster_id :
  _find_node_cluster node_id clusters = Some cluster_id ->
  exists cluster,
    cluster ∈ clusters
    /\ GraphCluster.id cluster = cluster_id
    /\ node_id ∈ GraphCluster.nodes cluster.
Proof.
  induction clusters as [|cluster rest IH]; simpl; [discriminate|].
  destruct (bool_decide_reflect (node_id ∈ GraphCluster.nodes cluster)) as [Hin|Hout].
  - intros [= <-]. exists cluster. split; [apply elem_of_cons; by left|by split].
  - intros Hrest. destruct (IH Hrest) as (c & Hc & Hid & Hin).
    exists c. split; [apply elem_of_cons; by right|by split].
Qed.

(** X11. In a graph that a build returned, the cluster field of every
    node is either null or the id of one of the returned clusters, and
    that cluster lists the node among its members. *)
Theorem build_cluster_references (session : Session.t) (user_id : string)
    (papers authors keywords : option (list string)) (max_nodes : Z) (g : GraphData.t) :
  build_research_knowledge_graph session user_id papers authors keywords max_nodes = Ok g ->
  Forall
    (fun d =>
       d !! "cluster" = Some PNone
       \/ exists c node_id cluster_id members,
            c ∈ GraphData.clusters g
            /\ d !! "id" = Some (PStr node_id)
            /\ d !! "cluster" = Some (PStr cluster_id)
            /\ c !! "id" = Some (PStr cluster_id)
            /\ c !! "nodes" = Some (PList (PStr <$> members))
            /\ node_id ∈ members)
    (GraphData.nodes g).
Proof.
  intros Hbuild.
  destruct (build_fields _ _ _ _ _ _ _ Hbuild)
    as (nodes & edges & layout & _ & _ & Hn & _ & Hc & _).
  rewrite Hn, Hc, <- list_fmap_compose. apply Forall_fmap, Forall_forall.
  intros node _. simpl.
  set (clusters := _detect_research_clusters (_create_networkx_graph nodes edges) nodes).
  destruct (_find_node_cluster (GraphNode.id node) clusters) as [cluster_id|] eqn:Hfind.
  - right. destruct (find_node_cluster_found _ _ _ Hfind) as (cluster & Hin & Hid & Hmem).
    exists (_serialize_cluster cluster), (GraphNode.id node), cluster_id,
           (GraphCluster.nodes cluster).
    split; [by apply list_elem_of_fmap_2|].
    unfold _serialize_node, _serialize_cluster, annotate. simpl.
    rewrite Hfind, Hid. by repeat split.
  - left. unfold _serialize_node, annotate. simpl. by rewrite Hfind.
Qed.

End Assembly.

Section AssemblyExamples.
Import Standin.

Lemma build_metadata_counts_witness :
  exists g,
    build_research_knowledge_graph accepting_sink "u1" None None None 10 = Ok g
    /\ GraphData.metadata g !! "node_count" = Some (PInt (len (GraphData.nodes g)))
    /\ GraphData.metadata g !! "edge_count" = Some (PInt (len (GraphData.edges g)))
    /\ GraphData.metadata g !! "cluster_count" = Some (PInt (len (GraphData.clusters g)))
    /\ GraphData.metadata g !! "created_by" = Some (PStr "u1")
    /\ GraphData.layout_algorithm g = "force_directed".
Proof.
  destruct (succeeded_Ok
              (build_research_knowledge_graph accepting_sink "u1" None None None 10))
    as [g Hbuild]; [vm_compute; reflexivity|].
  exists g. split; [exact Hbuild|].
  by apply (build_metadata_counts accepting_sink "u1" None None None 10).
Defined.

Lemma build_cluster_references_witness :
  exists g,
    build_research_knowledge_graph accepting_sink "u1" None None None 10 = Ok g
    /\ Forall
         (fun d =>
            d !! "cluster" = Some PNone
            \/ exists c node_id cluster_id members,
                 c ∈ GraphData.clusters g
                 /\ d !! "id" = Some (PStr node_id)
                 /\ d !! "cluster" = Some (PStr cluster_id)
                 /\ c !! "id" = Some (PStr cluster_id)
                 /\ c !! "nodes" = Some (PList (PStr <$> members))
                 /\ node_id ∈ members)
         (GraphData.nodes g).
Proof.
  destruct (succeeded_Ok
              (build_research_knowledge_graph accepting_sink "u1" None None None 10))
    as [g Hbuild]; [vm_compute; reflexivity|].
  exists g. split; [exact Hbuild|].
  by apply (build_cluster_references accepting_sink "u1" None None None 10).
Defined.

End AssemblyExamples.

(** ** The force-directed layout and the edge endpoints *)

Section ForceDirected.
Context `{Numpy}.

(** A loop returns when each of its passes does, and keeps what each
    pass keeps. *)
Lemma for_each_total {A S} (P : S -> Prop) (body : S -> A -> Result S)
    (l : list A) (s : S) :
  (forall s a, a ∈ l -> P s -> exists s', body s a = Ok s' /\ P s') ->
  P s -> exists s', for_each body l s = Ok s' /\ P s'.
Proof.
  revert s. induction l as [|a l IH]; intros s Hbody Hs; [by exists s|].
  rewrite for_each_cons.
  destruct (Hbody s a) as (s1 & Hs1 & HP1); [apply elem_of_cons; by left|exact Hs|].
  rewrite Hs1. cbn [mbind Result_bind]. apply IH; [|exact HP1].
  intros s2 b Hb. apply Hbody, elem_of_cons. by right.
Qed.

Lemma getitem_Ok {V} (d : gmap string V) (k : string) :
  k ∈ dom d -> exists v, getitem d k = Ok v.
Proof.
  intros Hk. apply elem_of_dom in Hk as [v Hv]. exists v. unfold getitem. by rewrite Hv.
Qed.

Lemma getitem_Raise {V} (d : gmap string V) (k : string) :
  k ∉ dom d -> getitem d k = Raise (KeyError k).
Proof.
  intros Hk. apply not_elem_of_dom in Hk. unfold getitem. by rewrite Hk.
Qed.

Lemma snd_imap_pair {A B} (f : nat -> B) (l : list A) :
  snd <$> imap (fun i a => (f i, a)) l = l.
Proof.
  revert f. induction l as [|a l IH]; intros f; [reflexivity|].
  simpl. f_equal. apply (IH (f ∘ S)).
Qed.

Lemma snd_enumerate {A} (l : list A) : snd <$> enumerate l = l.
Proof. apply (snd_imap_pair (fun i => i)). Qed.

(** Filling a position table from indexed nodes adds the nodes' ids. *)
Lemma dom_place (f : nat -> GraphNode.t -> Pos.t) (l : list (nat * GraphNode.t))
    (positions : gmap string Pos.t) :
  dom (foldl (fun positions '(i, node) => <[GraphNode.id node := f i node]> positions)
         positions l)
  = list_to_set (GraphNode.id <$> (snd <$> l)) ∪ dom positions.
Proof.
  revert positions. induction l as [|[i node] l IH]; intros positions; simpl;
    [set_solver|].
  rewrite IH, dom_insert_L. set_solver.
Qed.

Lemma dom_initial_positions (nodes : list GraphNode.t) :
  dom (initial_positions nodes) = list_to_set (GraphNode.id <$> nodes).
Proof.
  unfold initial_positions.
  rewrite (dom_place (fun i _ =>
             Pos.mk (np_random_uniform (3 * i) (-100) 100)
                    (np_random_uniform (3 * i + 1) (-100) 100)
                    (np_random_uniform (3 * i + 2) (-100) 100))).
  rewrite snd_enumerate, dom_empty_L. set_solver.
Qed.

Lemma repulsion_total k positions nodes forces :
  placed positions nodes -> exists forces', repulsion k positions nodes forces = Ok forces'.
Proof.
  revert forces. induction nodes as [|node1 rest IH]; intros forces Hplaced;
    [by eexists|].
  simpl.
  destruct (for_each_total (fun _ => True) (repulse k positions node1) rest forces)
    as (forces1 & Hrun & _); [|done|].
  - intros f node2 Hnode2 _. unfold repulse.
    destruct (getitem_Ok positions (GraphNode.id node1)) as [pos1 ->];
      [apply Hplaced, elem_of_cons; by left|].
    destruct (getitem_Ok positions (GraphNode.id node2)) as [pos2 ->];
      [apply Hplaced, elem_of_cons; by right|].
    by eexists.
  - rewrite Hrun. cbn [mbind Result_bind]. apply IH.
    intros node Hnode. apply Hplaced, elem_of_cons. by right.
Qed.

Lemma attract_Ok k positions forces e :
  GraphEdge.source e ∈ dom positions -> GraphEdge.target e ∈ dom positions ->
  exists forces', attract k positions forces e = Ok forces'.
Proof.
  intros Hsrc Htgt. unfold attract.
  destruct (getitem_Ok positions (GraphEdge.source e) Hsrc) as [pos1 ->].
  destruct (getitem_Ok positions (GraphEdge.target e) Htgt) as [pos2 ->].
  by eexists.
Qed.

Lemma attract_Raise_source k positions forces e :
  GraphEdge.source e ∉ dom positions ->
  attract k positions forces e = Raise (KeyError (GraphEdge.source e)).
Proof. intros Hsrc. unfold attract. by rewrite (getitem_Raise positions _ Hsrc). Qed.

Lemma attract_Raise_target k positions forces e :
  GraphEdge.source e ∈ dom positions -> GraphEdge.target e ∉ dom positions ->
  attract k positions forces e = Raise (KeyError (GraphEdge.target e)).
Proof.
  intros Hsrc Htgt. unfold attract.
  destruct (getitem_Ok positions (GraphEdge.source e) Hsrc) as [pos1 ->].
  by rewrite (getitem_Raise positions _ Htgt).
Qed.

Lemma attraction_total k positions edges forces :
  endpoints_placed positions edges ->
  exists forces', for_each (attract k positions) edges forces = Ok forces'.
Proof.
  intros Hedges.
  destruct (for_each_total (fun _ => True) (attract k positions) edges forces)
    as (forces' & Hrun & _); [|done|by exists forces'].
  intros f e He _. destruct (Hedges e He) as [Hsrc Htgt].
  destruct (attract_Ok k positions f e Hsrc Htgt) as [f' Hf']. by exists f'.
Qed.

Lemma displacement_total temperature forces nodes positions :
  placed positions nodes ->
  exists positions',
    for_each (apply_force temperature forces) nodes positions = Ok positions'
    /\ dom positions' = dom positions.
Proof.
  intros Hplaced.
  apply (for_each_total (fun p => dom p = dom positions)); [|reflexivity].
  intros p node Hnode Hp. unfold apply_force.
  destruct (Qltb 0 _); [|by exists p].
  destruct (getitem_Ok p (GraphNode.id node)) as [pos Hpos];
    [rewrite Hp; by apply Hplaced|].
  rewrite Hpos. cbn [mbind Result_bind]. eexists. split; [reflexivity|].
  rewrite dom_insert_L, Hp.
  assert (GraphNode.id node ∈ dom positions) by by apply Hplaced. set_solver.
Qed.

Lemma simulation_step_total k temperature nodes edges positions :
  placed positions nodes -> endpoints_placed positions edges ->
  exists positions',
    simulation_step k temperature nodes edges positions = Ok positions'
    /\ dom positions' = dom positions.
Proof.
  intros Hplaced Hedges. unfold simulation_step.
  destruct (repulsion_total k positions nodes ∅ Hplaced) as [forces1 ->].
  cbn [mbind Result_bind].
  destruct (attraction_total k positions edges forces1 Hedges) as [forces2 ->].
  cbn [mbind Result_bind].
  by apply displacement_total.
Qed.

Lemma simulate_total iterations k temperature cooling_factor nodes edges positions :
  placed positions nodes -> endpoints_placed positions edges ->
  exists positions',
    simulate iterations k temperature cooling_factor nodes edges positions = Ok positions'
    /\ dom positions' = dom positions.
Proof.
  revert temperature positions.
  induction iterations as [|n IH]; intros temperature positions Hplaced Hedges;
    [by exists positions|].
  simpl.
  destruct (simulation_step_total k temperature nodes edges positions Hplaced Hedges)
    as (positions1 & -> & Hdom).
  cbn [mbind Result_bind].
  destruct (IH (temperature * cooling_factor)%Q positions1) as (positions2 & Hrun & Hdom2).
  - intros node Hnode. rewrite Hdom. by apply Hplaced.
  - intros e He. rewrite Hdom. by apply Hedges.
  - exists positions2. split; [exact Hrun|congruence].
Qed.

(** The first edge with an endpoint outside the table stops the
    attraction pass with a [KeyError] for that endpoint. *)
Lemma attraction_raises k positions edges forces :
  ~ endpoints_placed positions edges ->
  exists key e,
    for_each (attract k positions) edges forces = Raise (KeyError key)
    /\ e ∈ edges
    /\ (key = GraphEdge.source e \/ key = GraphEdge.target e)
    /\ key ∉ dom positions.
Proof.
  revert forces. induction edges as [|e edges IH]; intros forces Hnot.
  - destruct Hnot. intros e He. by apply elem_of_nil in He.
  - rewrite for_each_cons.
    destruct (decide (GraphEdge.source e ∈ dom positions)) as [Hsrc|Hsrc].
    + destruct (decide (GraphEdge.target e ∈ dom positions)) as [Htgt|Htgt].
      * destruct (attract_Ok k positions forces e Hsrc Htgt) as [forces1 ->].
        cbn [mbind Result_bind].
        destruct (IH forces1) as (key & e' & Hrun & He' & Hkey & Hout).
        { intros Hrest. apply Hnot. intros e' He'.
          apply elem_of_cons in He' as [->|He']; [by split|by apply Hrest]. }
        exists key, e'. split; [exact Hrun|]. split; [apply elem_of_cons; by right|].
        by split.
      * rewrite (attract_Raise_target k positions forces e Hsrc Htgt).
        exists (GraphEdge.target e), e. split; [reflexivity|].
        split; [apply elem_of_cons; by left|]. split; [by right|exact Htgt].
    + rewrite (attract_Raise_source k positions forces e Hsrc).
      exists (GraphEdge.source e), e. split; [reflexivity|].
      split; [apply elem_of_cons; by left|]. split; [by left|exact Hsrc].
Qed.

Lemma placed_initial nodes : placed (initial_positions nodes) nodes.
Proof.
  intros node Hnode. rewrite dom_initial_positions.
  apply elem_of_list_to_set. by apply list_elem_of_fmap_2.
Qed.

Lemma simulate_raises n k temperature cooling_factor nodes edges positions :
  placed positions nodes -> ~ endpoints_placed positions edges ->
  exists key e,
    simulate (S n) k temperature cooling_factor nodes edges positions
      = Raise (KeyError key)
    /\ e ∈ edges
    /\ (key = GraphEdge.source e \/ key = GraphEdge.target e)
    /\ key ∉ dom positions.
Proof.
  intros Hplaced Hnot. cbn [simulate]. unfold simulation_step.
  destruct (repulsion_total k positions nodes ∅ Hplaced) as [forces1 ->].
  cbn [mbind Result_bind].
  destruct (attraction_raises k positions edges forces1 Hnot)
    as (key & e & -> & He & Hkey & Hout).
  by exists key, e.
Qed.

Lemma force_directed_raises nodes edges :
  ~ endpoints_placed (initial_positions nodes) edges ->
  exists key e,
    _force_directed_layout nodes edges = Raise (KeyError key)
    /\ e ∈ edges
    /\ (key = GraphEdge.source e \/ key = GraphEdge.target e)
    /\ key ∉ (GraphNode.id <$> nodes).
Proof.
  intros Hnot. unfold _force_directed_layout. cbv zeta.
  destruct (simulate_raises 99 50 100 (95 # 100) nodes edges (initial_positions nodes)
              (placed_initial nodes) Hnot)
    as (key & e & Hrun & He & Hkey & Hout).
  exists key, e. split; [exact Hrun|]. split; [exact He|]. split; [exact Hkey|].
  rewrite dom_initial_positions in Hout.
  intros Hin. apply Hout. by apply elem_of_list_to_set.
Qed.

(** X12. When both endpoints of every edge are ids of the given nodes,
    the force-directed layout returns, and the mapping it returns has a
    position for every node id and for nothing else. *)
Theorem force_directed_returns (nodes : list GraphNode.t) (edges : list GraphEdge.t) :
  (forall e, e ∈ edges ->
     GraphEdge.source e ∈ (GraphNode.id <$> nodes)
     /\ GraphEdge.target e ∈ (GraphNode.id <$> nodes)) ->
  exists layout,
    _force_directed_layout nodes edges = Ok layout
    /\ dom layout = list_to_set (GraphNode.id <$> nodes).
Proof.
  intros Hclosed. unfold _force_directed_layout. cbv zeta.
  destruct (simulate_total 100 50 100 (95 # 100) nodes edges (initial_positions nodes))
    as (layout & Hrun & Hdom).
  - apply placed_initial.
  - intros e He. rewrite dom_initial_positions, !elem_of_list_to_set. by apply Hclosed.
  - exists layout. split; [exact Hrun|]. by rewrite Hdom, dom_initial_positions.
Qed.

(** X13. When some edge has an endpoint that is not the id of a given
    node, the force-directed layout raises a [KeyError] for the first
    such endpoint it looks up; it returns no layout. *)
Theorem force_directed_dangling_endpoint (nodes : list GraphNode.t)
    (edges : list GraphEdge.t) (e : GraphEdge.t) :
  e ∈ edges ->
  GraphEdge.source e ∉ (GraphNode.id <$> nodes)
  \/ GraphEdge.target e ∉ (GraphNode.id <$> nodes) ->
  exists key e',
    _force_directed_layout nodes edges = Raise (KeyError key)
    /\ e' ∈ edges
    /\ (key = GraphEdge.source e' \/ key = GraphEdge.target e')
    /\ key ∉ (GraphNode.id <$> nodes).
Proof.
  intros He Hdangling. apply force_directed_raises.
  intros Hplaced. destruct (Hplaced e He) as [Hsrc Htgt].
  rewrite dom_initial_positions, elem_of_list_to_set in Hsrc, Htgt.
  by destruct Hdangling.
Qed.

End ForceDirected.

Section BuildEdges.
Context `{Numpy} `{nx.Algorithms} `{Runtime}.

Lemma endpoints_placed_Forall (positions : gmap string Pos.t) (edges : list GraphEdge.t) :
  endpoints_placed positions edges
  <-> Forall (fun e => GraphEdge.source e ∈ dom positions
                       /\ GraphEdge.target e ∈ dom positions) edges.
Proof. unfold endpoints_placed. by rewrite Forall_forall. Qed.

(** X14. A build that returns has no dangling edge: in the returned
    graph the source and the target of every edge are ids of returned
    nodes. (A build whose collected edges dangle does not return: its
    layout step raises.) *)
Theorem build_edges_closed (session : Session.t) (user_id : string)
    (papers authors keywords : option (list string)) (max_nodes : Z) (g : GraphData.t) :
  build_research_knowledge_graph session user_id papers authors keywords max_nodes = Ok g ->
  Forall
    (fun edge =>
       exists source target,
         edge !! "source" = Some (PStr source)
         /\ edge !! "target" = Some (PStr target)
         /\ (exists node, node ∈ GraphData.nodes g /\ node !! "id" = Some (PStr source))
         /\ (exists node, node ∈ GraphData.nodes g /\ node !! "id" = Some (PStr target)))
    (GraphData.edges g).
Proof.
  intros Hbuild.
  destruct (build_fields _ _ _ _ _ _ _ Hbuild)
    as (nodes & edges & layout & _ & Hlayout & Hn & He & _).
  rewrite generate_dispatch in Hlayout. simpl in Hlayout.
  assert (Hclosed : endpoints_placed (initial_positions nodes) edges).
  { apply endpoints_placed_Forall.
    destruct (decide (Forall (fun e => GraphEdge.source e ∈ dom (initial_positions nodes)
                                       /\ GraphEdge.target e ∈ dom (initial_positions nodes))
                        edges)) as [Hall|Hnot]; [exact Hall|].
    destruct (force_directed_raises nodes edges) as (key & e & Hraise & _).
    - by rewrite endpoints_placed_Forall.
    - congruence. }
  rewrite Hn, He. apply Forall_fmap, Forall_forall. intros e Hin.
  destruct (Hclosed e Hin) as [Hsrc Htgt].
  rewrite dom_initial_positions, elem_of_list_to_set in Hsrc, Htgt.
  apply list_elem_of_fmap in Hsrc as (n1 & Hid1 & Hn1).
  apply list_elem_of_fmap in Htgt as (n2 & Hid2 & Hn2).
  exists (GraphEdge.source e), (GraphEdge.target e).
  split; [done|]. split; [done|]. split.
  - eexists. split; [apply list_elem_of_fmap_2, list_elem_of_fmap_2, Hn1|].
    rewrite Hid1. done.
  - eexists. split; [apply list_elem_of_fmap_2, list_elem_of_fmap_2, Hn2|].
    rewrite Hid2. done.
Qed.

End BuildEdges.

Section ForceDirectedExamples.
Import Standin.

Lemma force_directed_returns_witness :
  exists layout,
    _force_directed_layout [bare_node "P1"; bare_node "P2"; bare_node "P3"]
      [cites "P1" "P2"; cites "P2" "P3"] = Ok layout
    /\ dom layout = list_to_set (GraphNode.id <$>
                       [bare_node "P1"; bare_node "P2"; bare_node "P3"]).
Proof.
  apply force_directed_returns.
  apply Forall_forall. apply (bool_decide_unpack _). vm_compute. exact I.
Defined.

Lemma force_directed_dangling_endpoint_witness :
  exists key e',
    _force_directed_layout [bare_node "P1"] [cites "P1" "P2"] = Raise (KeyError key)
    /\ e' ∈ [cites "P1" "P2"]
    /\ (key = GraphEdge.source e' \/ key = GraphEdge.target e')
    /\ key ∉ (GraphNode.id <$> [bare_node "P1"]).
Proof.
  apply (force_directed_dangling_endpoint _ _ (cites "P1" "P2")).
  - apply list_elem_of_singleton. reflexivity.
  - right. apply (bool_decide_unpack _). vm_compute. exact I.
Defined.

Lemma build_edges_closed_witness :
  exists g,
    build_research_knowledge_graph accepting_sink "u1" None None None 10 = Ok g
    /\ length (GraphData.edges g) = 2%nat
    /\ Forall
         (fun edge =>
            exists source target,
              edge !! "source" = Some (PStr source)
              /\ edge !! "target" = Some (PStr target)
              /\ (exists node, node ∈ GraphData.nodes g /\ node !! "id" = Some (PStr source))
              /\ (exists node, node ∈ GraphData.nodes g /\ node !! "id" = Some (PStr target)))
         (GraphData.edges g).
Proof.
  destruct (succeeded_Ok
              (build_research_knowledge_graph accepting_sink "u1" None None None 10))
    as [g Hbuild]; [vm_compute; reflexivity|].
  exists g. split; [exact Hbuild|].
  split; [|by apply (build_edges_closed accepting_sink "u1" None None None 10)].
  assert (Hcount : (fun r => match r with
                             | Ok g => length (GraphData.edges g)
                             | Raise _ => 0%nat
                             end)
                     (build_research_knowledge_graph accepting_sink "u1" None None None 10)
                   = 2%nat) by (vm_compute; reflexivity).
  by rewrite Hbuild in Hcount.
Defined.

End ForceDirectedExamples.

(** ** The hierarchical layout *)

Section Hierarchical.
Context `{Numpy}.

Lemma group_ids_cons group groups :
  group_ids (group :: groups)
  = list_to_set (GraphNode.id <$> group.2) ∪ group_ids groups.
Proof. reflexivity. Qed.

Lemma group_ids_append node groups :
  group_ids (group_append node groups) = {[GraphNode.id node]} ∪ group_ids groups.
Proof.
  induction groups as [|[ty l] groups IH].
  - change (group_append node []) with [(GraphNode.node_type node, [node])].
    rewrite group_ids_cons. simpl. set_solver.
  - cbn [group_append].
    destruct (bool_decide (ty = GraphNode.node_type node)).
    + rewrite !group_ids_cons. cbn [snd]. rewrite fmap_app, list_to_set_app_L.
      simpl. set_solver.
    + rewrite !group_ids_cons, IH. set_solver.
Qed.

(** What holds of a node and its type holds in the group it joins. *)
Lemma group_append_Forall (P : NodeType -> GraphNode.t -> Prop) node groups :
  P (GraphNode.node_type node) node ->
  Forall (fun group => Forall (P group.1) group.2) groups ->
  Forall (fun group => Forall (P group.1) group.2) (group_append node groups).
Proof.
  intros Hnode. induction groups as [|[ty l] groups IH]; intros Hg; cbn [group_append].
  - by repeat constructor.
  - apply Forall_cons in Hg as [Hhead Htail].
    destruct (bool_decide_reflect (ty = GraphNode.node_type node)) as [->|Hne].
    + constructor; [|exact Htail]. cbn [fst snd] in *.
      apply Forall_app. split; [exact Hhead|]. by repeat constructor.
    + constructor; [exact Hhead|by apply IH].
Qed.

Lemma grouping_Forall (P : NodeType -> GraphNode.t -> Prop) nodes :
  Forall (fun node => P (GraphNode.node_type node) node) nodes ->
  Forall (fun group => Forall (P group.1) group.2)
    (foldl (fun groups node => group_append node groups) [] nodes).
Proof.
  intros Hnodes.
  assert (Hgen : forall groups,
            Forall (fun group => Forall (P group.1) group.2) groups ->
            Forall (fun group => Forall (P group.1) group.2)
              (foldl (fun groups node => group_append node groups) groups nodes)).
  { induction Hnodes as [|node nodes Hnode Hrest IH]; intros groups Hg; simpl;
      [exact Hg|].
    apply IH. by apply group_append_Forall. }
  apply Hgen. constructor.
Qed.

Lemma grouping_ids nodes :
  group_ids (foldl (fun groups node => group_append node groups) [] nodes)
  = list_to_set (GraphNode.id <$> nodes).
Proof.
  assert (Hgen : forall groups,
            group_ids (foldl (fun groups node => group_append node groups) groups nodes)
            = list_to_set (GraphNode.id <$> nodes) ∪ group_ids groups).
  { induction nodes as [|node nodes IH]; intros groups; simpl; [set_solver|].
    rewrite IH, group_ids_append. set_solver. }
  rewrite Hgen. unfold group_ids. simpl. set_solver.
Qed.

(** A layer places exactly the nodes of its group. *)
Lemma dom_place_layer positions group :
  dom (place_layer positions group)
  = list_to_set (GraphNode.id <$> group.2) ∪ dom positions.
Proof.
  destruct group as [ty l]. unfold place_layer. cbn [snd].
  destruct l as [|n1 [|n2 l]].
  - simpl. set_solver.
  - rewrite dom_insert_L. simpl. set_solver.
  - rewrite (dom_place (fun i _ => Pos.mk _ _ _)). by rewrite snd_enumerate.
Qed.

Lemma dom_place_layers groups positions :
  dom (foldl place_layer positions groups) = group_ids groups ∪ dom positions.
Proof.
  revert positions. induction groups as [|group groups IH]; intros positions.
  - simpl. unfold group_ids. simpl. set_solver.
  - simpl. rewrite IH, dom_place_layer, group_ids_cons. set_solver.
Qed.

Lemma place_layer_lookup positions group id p :
  place_layer positions group !! id = Some p ->
  positions !! id = Some p
  \/ (id ∈ (GraphNode.id <$> group.2) /\ at_layer group.1 p).
Proof.
  destruct group as [ty l]. unfold place_layer. cbn [fst snd].
  assert (Hgen : forall (f : nat -> GraphNode.t -> Pos.t) (el : list (nat * GraphNode.t))
                        (m : gmap string Pos.t),
            (forall i n, at_layer ty (f i n)) ->
            foldl (fun positions '(i, node) => <[GraphNode.id node := f i node]> positions)
              m el !! id = Some p ->
            m !! id = Some p
            \/ (id ∈ (GraphNode.id <$> (snd <$> el)) /\ at_layer ty p)).
  { intros f el. induction el as [|[i n] el IH]; intros m Hf Hlook; simpl in *;
      [by left|].
    destruct (IH _ Hf Hlook) as [Hm|[Hin Hp]].
    - destruct (decide (GraphNode.id n = id)) as [<-|Hne].
      + rewrite lookup_insert_eq in Hm. injection Hm as <-.
        right. split; [apply elem_of_cons; by left|apply Hf].
      + rewrite lookup_insert_ne in Hm by exact Hne. by left.
    - right. split; [apply elem_of_cons; by right|exact Hp]. }
  destruct l as [|n1 [|n2 l]].
  - simpl. by left.
  - intros Hlook. destruct (decide (GraphNode.id n1 = id)) as [<-|Hne].
    + rewrite lookup_insert_eq in Hlook. injection Hlook as <-.
      right. split; [apply list_elem_of_singleton; reflexivity|reflexivity].
    + rewrite lookup_insert_ne in Hlook by exact Hne. by left.
  - intros Hlook.
    apply (Hgen (fun i _ => Pos.mk _ _ _)) in Hlook; [|intros; reflexivity].
    by rewrite snd_enumerate in Hlook.
Qed.

Lemma place_layers_lookup groups positions id p :
  foldl place_layer positions groups !! id = Some p ->
  positions !! id = Some p
  \/ exists group,
       group ∈ groups /\ id ∈ (GraphNode.id <$> group.2) /\ at_layer group.1 p.
Proof.
  revert positions. induction groups as [|group groups IH]; intros positions Hlook;
    simpl in Hlook; [by left|].
  destruct (IH _ Hlook) as [Hhere|(g & Hg & Hid & Hp)].
  - apply place_layer_lookup in Hhere as [Hold|[Hid Hp]]; [by left|].
    right. exists group. split; [apply elem_of_cons; by left|by split].
  - right. exists g. split; [apply elem_of_cons; by right|by split].
Qed.

(** With distinct ids, a node is known by its id. *)
Lemma node_of_id (nodes : list GraphNode.t) (a b : GraphNode.t) :
  NoDup (GraphNode.id <$> nodes) -> a ∈ nodes -> b ∈ nodes ->
  GraphNode.id a = GraphNode.id b -> a = b.
Proof.
  intros Hnodup Ha Hb Hid.
  apply list_elem_of_lookup in Ha as [i Hi]. apply list_elem_of_lookup in Hb as [j Hj].
  assert (i = j) as ->.
  { apply (NoDup_lookup _ i j (GraphNode.id a) Hnodup).
    - by rewrite list_lookup_fmap, Hi.
    - by rewrite list_lookup_fmap, Hj, Hid. }
  congruence.
Qed.

(** X15. The hierarchical layout always returns, with a position for
    every node id and for nothing else. *)
Theorem hierarchical_places_every_node (nodes : list GraphNode.t)
    (edges : list GraphEdge.t) :
  exists layout,
    _hierarchical_layout nodes edges = Ok layout
    /\ dom layout = list_to_set (GraphNode.id <$> nodes).
Proof.
  eexists. split; [reflexivity|].
  rewrite dom_place_layers, grouping_ids, dom_empty_L. set_solver.
Qed.

(** X16. When the node ids are distinct, the hierarchical layout puts
    every node at the height of its type's layer: 100 times the layer
    index (paper 0, author 1, keyword and concept 2, institution 3,
    every other type 0). *)
Theorem hierarchical_layer_height (nodes : list GraphNode.t) (edges : list GraphEdge.t)
    (layout : gmap string Pos.t) (node : GraphNode.t) :
  NoDup (GraphNode.id <$> nodes) ->
  _hierarchical_layout nodes edges = Ok layout ->
  node ∈ nodes ->
  exists p,
    layout !! GraphNode.id node = Some p
    /\ Pos.y p = inject_Z (layer_assignments (GraphNode.node_type node) * 100).
Proof.
  intros Hnodup Hlayout Hnode. injection Hlayout as <-.
  set (groups := foldl (fun groups node => group_append node groups) [] nodes).
  assert (Hdom : GraphNode.id node ∈ dom (foldl place_layer ∅ groups)).
  { rewrite dom_place_layers. unfold groups. rewrite grouping_ids.
    apply elem_of_union. left. apply elem_of_list_to_set. by apply list_elem_of_fmap_2. }
  apply elem_of_dom in Hdom as [p Hp]. exists p. split; [exact Hp|].
  apply place_layers_lookup in Hp as [Hempty|(group & Hgroup & Hid & Hat)];
    [by rewrite lookup_empty in Hempty|].
  apply list_elem_of_fmap in Hid as (node' & Hid & Hnode').
  assert (Htyped : Forall (fun g => Forall (fun n => GraphNode.node_type n = g.1) g.2)
                     groups).
  { apply (grouping_Forall (fun ty n => GraphNode.node_type n = ty)).
    by apply Forall_forall. }
  assert (Hmembers : Forall (fun g => Forall (fun n => n ∈ nodes) g.2) groups).
  { apply (grouping_Forall (fun _ n => n ∈ nodes)). by apply Forall_forall. }
  rewrite Forall_forall in Htyped, Hmembers.
  specialize (Htyped group Hgroup). specialize (Hmembers group Hgroup).
  rewrite Forall_forall in Htyped, Hmembers.
  assert (node' = node) as ->.
  { apply (node_of_id nodes); [exact Hnodup|by apply Hmembers|exact Hnode|done]. }
  rewrite (Htyped node Hnode'). exact Hat.
Qed.

End Hierarchical.
(** ** The circular layout *)

Section Circular.
Context `{Numpy}.

Lemma insert_by_importance_perm n l : insert_by_importance n l ≡ₚ n :: l.
Proof.
  induction l as [|m l IH]; simpl; [reflexivity|].
  destruct (Qle_bool _ _); [|reflexivity].
  rewrite IH. apply Permutation_swap.
Qed.

Lemma insert_by_importance_head n l a :
  Forall (outranks a) l -> outranks a n -> Forall (outranks a) (insert_by_importance n l).
Proof.
  intros Hl Hn. rewrite insert_by_importance_perm. by constructor.
Qed.

Lemma insert_by_importance_sorted n l :
  StronglySorted outranks l -> StronglySorted outranks (insert_by_importance n l).
Proof.
  induction l as [|m l IH]; intros Hsorted; simpl; [repeat constructor|].
  apply StronglySorted_inv in Hsorted as [Htail Hhead].
  destruct (Qle_bool (GraphNode.importance_score n) (GraphNode.importance_score m))
    eqn:Hle.
  - apply Qle_bool_iff in Hle. constructor; [by apply IH|].
    by apply insert_by_importance_head.
  - assert (Hlt : outranks n m).
    { unfold outranks. destruct (Qlt_le_dec (GraphNode.importance_score m)
                                             (GraphNode.importance_score n)) as [Hlt|Hge].
      - by apply Qlt_le_weak.
      - apply Qle_bool_iff in Hge. congruence. }
    constructor; [by constructor|]. constructor; [exact Hlt|].
    eapply Forall_impl; [exact Hhead|]. intros x Hx. unfold outranks in *.
    by apply Qle_trans with (GraphNode.importance_score m).
Qed.

(** X17. The order the circular layout works in is a rearrangement of
    the nodes in which no node is followed by a more important one. *)
Theorem sorted_by_importance_sorts (nodes : list GraphNode.t) :
  sorted_by_importance nodes ≡ₚ nodes
  /\ StronglySorted outranks (sorted_by_importance nodes).
Proof.
  unfold sorted_by_importance.
  assert (Hgen : forall acc,
            StronglySorted outranks acc ->
            foldl (fun acc n => insert_by_importance n acc) acc nodes ≡ₚ nodes ++ acc
            /\ StronglySorted outranks
                 (foldl (fun acc n => insert_by_importance n acc) acc nodes)).
  { induction nodes as [|n nodes IH]; intros acc Hacc; simpl; [by split|].
    destruct (IH (insert_by_importance n acc)) as [Hperm Hsorted];
      [by apply insert_by_importance_sorted|].
    split; [|exact Hsorted].
    rewrite Hperm, insert_by_importance_perm. by rewrite Permutation_middle. }
  destruct (Hgen []) as [Hperm Hsorted]; [constructor|].
  split; [by rewrite Hperm, app_nil_r|exact Hsorted].
Qed.

(** X18. The rings are consecutive runs of the working order that
    together make it up; every ring has at least one and at most twelve
    nodes. *)
Theorem rings_partition (remaining_nodes : list GraphNode.t) :
  concat (circles_of (length remaining_nodes) remaining_nodes) = remaining_nodes
  /\ Forall (fun circle => (1 <= length circle <= 12)%nat)
       (circles_of (length remaining_nodes) remaining_nodes).
Proof.
  assert (Hgen : forall fuel l, (length l <= fuel)%nat ->
            concat (circles_of fuel l) = l
            /\ Forall (fun circle => (1 <= length circle <= 12)%nat) (circles_of fuel l)).
  { induction fuel as [|fuel IH]; intros l Hl.
    - destruct l; [by split|simpl in Hl; lia].
    - destruct l as [|a l]; [by split|].
      cbn [circles_of].
      set (circle_size := Z.to_nat (Z.min 12 (len (a :: l)))).
      assert (Hsize : (1 <= circle_size <= 12)%nat
                      /\ (circle_size <= length (a :: l))%nat).
      { unfold circle_size, len. simpl length. lia. }
      destruct (IH (drop circle_size (a :: l))) as [Hconcat Hrings].
      { rewrite length_drop. simpl length in *. lia. }
      split.
      + simpl. rewrite Hconcat. apply take_drop.
      + constructor; [|exact Hrings]. rewrite length_take. lia. }
  by apply Hgen.
Qed.

Lemma dom_place_circle positions circle :
  dom (place_circle positions circle)
  = list_to_set (GraphNode.id <$> circle.2) ∪ dom positions.
Proof.
  destruct circle as [circle_idx circle_nodes]. unfold place_circle. cbn [snd].
  rewrite (dom_place (fun i _ => Pos.mk _ _ _)). by rewrite snd_enumerate.
Qed.

Lemma dom_place_circles (circles : list (nat * list GraphNode.t)) positions :
  dom (foldl place_circle positions circles)
  = list_to_set (GraphNode.id <$> concat (snd <$> circles)) ∪ dom positions.
Proof.
  revert positions. induction circles as [|circle circles IH]; intros positions; simpl;
    [set_solver|].
  rewrite IH, dom_place_circle, fmap_app, list_to_set_app_L. set_solver.
Qed.

(** X19. The circular layout always returns, with a position for every
    node id and for nothing else. *)
Theorem circular_places_every_node (nodes : list GraphNode.t) (edges : list GraphEdge.t) :
  exists layout,
    _circular_layout nodes edges = Ok layout
    /\ dom layout = list_to_set (GraphNode.id <$> nodes).
Proof.
  unfold _circular_layout.
  destruct (Z.eqb_spec (len nodes) 0) as [Hempty|Hsome].
  - exists ∅. split; [reflexivity|].
    destruct nodes; [by rewrite dom_empty_L|discriminate Hempty].
  - eexists. split; [reflexivity|].
    rewrite dom_place_circles, snd_enumerate.
    destruct (rings_partition (sorted_by_importance nodes)) as [-> _].
    destruct (sorted_by_importance_sorts nodes) as [Hperm _].
    rewrite dom_empty_L. apply set_eq. intros id.
    rewrite elem_of_union, !elem_of_list_to_set, !list_elem_of_fmap.
    split.
    + intros [(n & -> & Hn)|Hn]; [|by apply elem_of_empty in Hn].
      exists n. split; [done|]. by rewrite <- Hperm.
    + intros (n & -> & Hn). left. exists n. split; [done|]. by rewrite Hperm.
Qed.

End Circular.
(** ** The spring layout *)

Section Spring.
Context `{nx.Algorithms} `{Runtime}.

(** X20. Every position of the spring layout belongs to a given node
    that the 2D layout placed; its depth is an integer between -50 and
    49. *)
Theorem spring_depth_band (nodes : list GraphNode.t) (edges : list GraphEdge.t)
    (layout : gmap string Pos.t) (id : string) (p : Pos.t) :
  _spring_layout nodes edges = Ok layout ->
  layout !! id = Some p ->
  id ∈ (GraphNode.id <$> nodes)
  /\ exists z, Pos.z p = inject_Z z /\ -50 <= z <= 49.
Proof.
  unfold _spring_layout. intros Hlayout. injection Hlayout as <-.
  set (pos_2d := nx.spring_layout _ _ _).
  assert (Hgen : forall l (m : gmap string Pos.t),
            foldl (fun positions node =>
                     match pos_2d !! GraphNode.id node with
                     | Some (x, y) =>
                         <[GraphNode.id node :=
                             Pos.mk (x * 200) (y * 200)
                               (inject_Z (py_hash (NodeType_.value (GraphNode.node_type node))
                                          mod 100 - 50))]> positions
                     | None => positions
                     end) m l !! id = Some p ->
            m !! id = Some p
            \/ (id ∈ (GraphNode.id <$> l)
                /\ exists z, Pos.z p = inject_Z z /\ -50 <= z <= 49)).
  { induction l as [|node l IH]; intros m Hlook; simpl in Hlook; [by left|].
    destruct (IH _ Hlook) as [Hm|[Hin Hz]].
    - destruct (pos_2d !! GraphNode.id node) as [[x y]|]; [|by left].
      destruct (decide (GraphNode.id node = id)) as [<-|Hne].
      + rewrite lookup_insert_eq in Hm. injection Hm as <-.
        right. split; [apply elem_of_cons; by left|].
        eexists. split; [reflexivity|].
        pose proof (Z.mod_pos_bound
                      (py_hash (NodeType_.value (GraphNode.node_type node))) 100).
        lia.
      + rewrite lookup_insert_ne in Hm by exact Hne. by left.
    - right. split; [apply elem_of_cons; by right|exact Hz]. }
  intros Hlook. apply Hgen in Hlook as [Hempty|Hfound]; [|exact Hfound].
  by rewrite lookup_empty in Hempty.
Qed.

End Spring.

(** ** Cluster ids and colours *)

Section ClusterIds.
Context `{nx.Algorithms}.

(** The clusters, in order, are made from the communities that were
    kept, each with the index of its community. *)
Lemma add_cluster_indices nodes entries acc clusters :
  for_each (add_cluster nodes) entries acc = Ok clusters ->
  (fun c => (GraphCluster.id c, GraphCluster.color c)) <$> clusters
  = (((fun c => (GraphCluster.id c, GraphCluster.color c)) <$> acc)
     ++ ((fun entry => ("cluster_" +:+ pretty (Z.of_nat entry.1),
                        default "" (colors !! (entry.1 mod length colors)%nat)))
         <$> filter kept entries))%list.
Proof.
  revert acc. induction entries as [|[i community] entries IH]; intros acc Hrun.
  - injection Hrun as <-. by rewrite app_nil_r.
  - rewrite for_each_cons in Hrun.
    apply bind_Ok_inv in Hrun as (acc' & Hadd & Hrun).
    rewrite (IH _ Hrun). unfold add_cluster in Hadd. rewrite filter_cons.
    destruct (Z.ltb_spec (Z.of_nat (size community)) 2) as [Hsmall|Hbig].
    + injection Hadd as <-.
      destruct (decide (kept (i, community))) as [Hkept|_]; [|reflexivity].
      unfold kept in Hkept. simpl in Hkept. lia.
    + apply bind_Ok_inv in Hadd as (most_common_type & _ & Hadd).
      injection Hadd as <-.
      destruct (decide (kept (i, community))) as [_|Hnot];
        [|unfold kept in Hnot; simpl in Hnot; lia].
      rewrite fmap_app, <- app_assoc. reflexivity.
Qed.

Lemma fst_imap_pair {A} (l : list A) (j : nat) :
  fst <$> imap (fun i a => (j + i, a)%nat) l = seq j (length l).
Proof.
  revert j. induction l as [|a l IH]; intros j; [reflexivity|].
  simpl. f_equal; [lia|].
  rewrite <- (IH (S j)). f_equal. apply imap_ext. intros i x _. simpl. f_equal. lia.
Qed.

Lemma fst_enumerate {A} (l : list A) : fst <$> enumerate l = seq 0 (length l).
Proof. apply (fst_imap_pair l 0). Qed.

Lemma cluster_id_inj (i j : nat) :
  "cluster_" +:+ pretty (Z.of_nat i) = "cluster_" +:+ pretty (Z.of_nat j) -> i = j.
Proof.
  intros Heq. apply (inj (String.app "cluster_")) in Heq.
  apply (inj pretty) in Heq. lia.
Qed.

(** X21. The clusters returned have pairwise distinct ids, each
    [cluster_<i>] for an index [i] of Louvain's list, and each has one of
    the seven palette colours. *)
Theorem cluster_ids_and_colours (graph : nx.Graph) (nodes : list GraphNode.t) :
  NoDup (GraphCluster.id <$> _detect_research_clusters graph nodes)
  /\ Forall (fun cluster =>
               exists i : nat,
                 GraphCluster.id cluster = "cluster_" +:+ pretty (Z.of_nat i))
       (_detect_research_clusters graph nodes)
  /\ Forall (fun cluster => GraphCluster.color cluster ∈ colors)
       (_detect_research_clusters graph nodes).
Proof.
  unfold _detect_research_clusters, detect_try.
  destruct (nx.louvain_communities graph) as [communities|e]; cbn [mbind Result_bind];
    [|split; [|split]; constructor].
  destruct (for_each _ _ _) as [clusters|e] eqn:Hrun; [|split; [|split]; constructor].
  apply add_cluster_indices in Hrun. simpl in Hrun.
  set (picked := filter kept (enumerate communities)) in *.
  assert (Hids : GraphCluster.id <$> clusters
                 = (fun i => "cluster_" +:+ pretty (Z.of_nat i)) <$> (fst <$> picked)).
  { rewrite <- list_fmap_compose.
    transitivity (fst <$> ((fun c => (GraphCluster.id c, GraphCluster.color c))
                           <$> clusters)).
    - by rewrite <- list_fmap_compose.
    - rewrite Hrun. by rewrite <- list_fmap_compose. }
  assert (Hcolors : GraphCluster.color <$> clusters
                    = (fun i => default "" (colors !! (i mod length colors)%nat))
                      <$> (fst <$> picked)).
  { rewrite <- list_fmap_compose.
    transitivity (snd <$> ((fun c => (GraphCluster.id c, GraphCluster.color c))
                           <$> clusters)).
    - by rewrite <- list_fmap_compose.
    - rewrite Hrun. by rewrite <- list_fmap_compose. }
  split; [|split].
  - rewrite Hids.
    apply (NoDup_fmap_2_strong (fun i => "cluster_" +:+ pretty (Z.of_nat i))).
    + intros i j _ _. apply cluster_id_inj.
    + apply (sublist_NoDup _ (fst <$> enumerate communities)).
      * rewrite fst_enumerate. apply NoDup_seq.
      * apply fmap_sublist, sublist_filter.
  - apply Forall_forall. intros cluster Hcluster.
    assert (Hin : GraphCluster.id cluster ∈ (GraphCluster.id <$> clusters))
      by by apply list_elem_of_fmap_2.
    rewrite Hids in Hin. apply list_elem_of_fmap in Hin as (i & -> & _). by exists i.
  - apply Forall_forall. intros cluster Hcluster.
    assert (Hin : GraphCluster.color cluster ∈ (GraphCluster.color <$> clusters))
      by by apply list_elem_of_fmap_2.
    rewrite Hcolors in Hin. apply list_elem_of_fmap in Hin as (i & -> & _).
    assert (Hlt : (i mod length colors < length colors)%nat)
      by (apply Nat.mod_upper_bound; discriminate).
    apply lookup_lt_is_Some in Hlt as [c Hc]. rewrite Hc. simpl.
    by apply list_elem_of_lookup_2 in Hc.
Qed.

End ClusterIds.
(** ** The nodes of the analysis graph *)

Section GraphNodes.

#[local] Open Scope list_scope.

Lemma nodes_new_node (g : nx.Graph) (n : string) (attr : gmap string PyVal) adj :
  nx.nodes (nx.mk (nx._node g ++ [(n, attr)]) adj) = nx.nodes g ++ [n].
Proof. unfold nx.nodes. simpl. by rewrite fmap_app. Qed.

Lemma nodes_add_node (n : string) (attr : gmap string PyVal) (g : nx.Graph) :
  nx.nodes (nx.add_node n attr g)
  = if nx.has_node g n then nx.nodes g else nx.nodes g ++ [n].
Proof.
  unfold nx.add_node. destruct (nx.has_node g n); [|apply nodes_new_node].
  unfold nx.nodes. simpl. rewrite <- list_fmap_compose. apply list_fmap_ext.
  intros i [m a] _. simpl. by destruct (bool_decide (m = n)).
Qed.

Lemma nodes_add_edge (u v : string) (attr : gmap string PyVal) (g : nx.Graph) :
  nx.nodes (nx.add_edge u v attr g)
  = let l := if nx.has_node g u then nx.nodes g else nx.nodes g ++ [u] in
    if bool_decide (v ∈ l) then l else l ++ [v].
Proof.
  unfold nx.add_edge. cbv zeta.
  set (g1 := if nx.has_node g u then g else _).
  assert (Hg1 : nx.nodes g1 = if nx.has_node g u then nx.nodes g else nx.nodes g ++ [u]).
  { unfold g1. destruct (nx.has_node g u); [reflexivity|apply nodes_new_node]. }
  rewrite <- Hg1. change (bool_decide (v ∈ nx.nodes g1)) with (nx.has_node g1 v).
  destruct (nx.has_node g1 v); [reflexivity|apply nodes_new_node].
Qed.

Lemma node_set_add_node (n : string) (attr : gmap string PyVal) (g : nx.Graph) :
  list_to_set (nx.nodes (nx.add_node n attr g))
  =@{gset string} {[n]} ∪ list_to_set (nx.nodes g).
Proof.
  rewrite nodes_add_node. destruct (nx.has_node g n) eqn:Hhas.
  - apply has_node_spec in Hhas. set_solver.
  - rewrite list_to_set_app_L. simpl. set_solver.
Qed.

Lemma node_set_add_edge (u v : string) (attr : gmap string PyVal) (g : nx.Graph) :
  list_to_set (nx.nodes (nx.add_edge u v attr g))
  =@{gset string} {[u; v]} ∪ list_to_set (nx.nodes g).
Proof.
  rewrite nodes_add_edge. cbv zeta.
  set (l := if nx.has_node g u then nx.nodes g else nx.nodes g ++ [u]).
  assert (Hl : list_to_set l =@{gset string} {[u]} ∪ list_to_set (nx.nodes g)).
  { unfold l. destruct (nx.has_node g u) eqn:Hhas.
    - apply has_node_spec in Hhas. set_solver.
    - rewrite list_to_set_app_L. simpl. set_solver. }
  destruct (bool_decide_reflect (v ∈ l)) as [Hv|Hv].
  - rewrite Hl. assert (v ∈ (list_to_set l : gset string)) by set_solver. set_solver.
  - rewrite list_to_set_app_L, Hl. simpl. set_solver.
Qed.

(** Adding a node that is there, or an edge between nodes that are
    there, leaves the node list as it is. *)
Lemma nodes_add_edge_closed (u v : string) (attr : gmap string PyVal) (g : nx.Graph) :
  u ∈ nx.nodes g -> v ∈ nx.nodes g -> nx.nodes (nx.add_edge u v attr g) = nx.nodes g.
Proof.
  intros Hu Hv. rewrite nodes_add_edge. cbv zeta.
  apply has_node_spec in Hu. rewrite Hu. by rewrite bool_decide_eq_true_2.
Qed.

(** X22. The analysis graph has no node twice, and its nodes are the ids
    of the given nodes together with the endpoints of the given edges:
    an endpoint without a node of its own becomes a node of the analysis
    graph. *)
Theorem created_graph_nodes (nodes : list GraphNode.t) (edges : list GraphEdge.t) :
  NoDup (nx.nodes (_create_networkx_graph nodes edges))
  /\ list_to_set (nx.nodes (_create_networkx_graph nodes edges))
     =@{gset string}
       list_to_set (GraphNode.id <$> nodes)
       ∪ list_to_set (GraphEdge.source <$> edges)
       ∪ list_to_set (GraphEdge.target <$> edges).
Proof.
  split; [apply well_formed_created|].
  unfold _create_networkx_graph. cbv zeta.
  set (G0 := foldl _ nx.empty nodes).
  assert (H0 : list_to_set (nx.nodes G0) =@{gset string} list_to_set (GraphNode.id <$> nodes)).
  { unfold G0.
    assert (Hgen : forall g,
              list_to_set (nx.nodes
                 (foldl (fun G node => nx.add_node (GraphNode.id node) (node_attr node) G)
                    g nodes))
              =@{gset string} list_to_set (GraphNode.id <$> nodes)
                              ∪ list_to_set (nx.nodes g)).
    { induction nodes as [|node nodes IH]; intros g; simpl; [set_solver|].
      rewrite IH, node_set_add_node. set_solver. }
    rewrite Hgen. simpl. set_solver. }
  assert (Hgen : forall g,
            list_to_set (nx.nodes
               (foldl (fun G edge =>
                         nx.add_edge (GraphEdge.source edge) (GraphEdge.target edge)
                           (edge_attr edge) G) g edges))
            =@{gset string}
              list_to_set (GraphEdge.source <$> edges)
              ∪ list_to_set (GraphEdge.target <$> edges)
              ∪ list_to_set (nx.nodes g)).
  { induction edges as [|edge edges IH]; intros g; simpl; [set_solver|].
    rewrite IH, node_set_add_edge. set_solver. }
  rewrite Hgen, H0. set_solver.
Qed.

(** X23. When the given nodes have distinct ids and every edge runs
    between given nodes, the analysis graph has exactly the given nodes,
    in their order, and so counts as many nodes as the node list has. *)
Theorem created_graph_same_nodes (nodes : list GraphNode.t) (edges : list GraphEdge.t) :
  NoDup (GraphNode.id <$> nodes) ->
  (forall e, e ∈ edges ->
     GraphEdge.source e ∈ (GraphNode.id <$> nodes)
     /\ GraphEdge.target e ∈ (GraphNode.id <$> nodes)) ->
  nx.nodes (_create_networkx_graph nodes edges) = (GraphNode.id <$> nodes)
  /\ nx.number_of_nodes (_create_networkx_graph nodes edges) = len nodes.
Proof.
  intros Hnodup Hclosed.
  assert (Hnodes : nx.nodes (_create_networkx_graph nodes edges) = (GraphNode.id <$> nodes)).
  { unfold _create_networkx_graph. cbv zeta.
    set (G0 := foldl _ nx.empty nodes).
    assert (H0 : nx.nodes G0 = (GraphNode.id <$> nodes)).
    { unfold G0.
      assert (Hgen : forall l g,
                NoDup (nx.nodes g ++ (GraphNode.id <$> l)) ->
                nx.nodes
                  (foldl (fun G node => nx.add_node (GraphNode.id node) (node_attr node) G)
                     g l)
                = nx.nodes g ++ (GraphNode.id <$> l)).
      { induction l as [|node l IH]; intros g Hnd; simpl; [by rewrite app_nil_r|].
        assert (Hnew : nx.has_node g (GraphNode.id node) = false).
        { apply not_true_is_false. intros Hhas. apply has_node_spec in Hhas.
          apply NoDup_app in Hnd as (_ & Hdisj & _).
          apply (Hdisj _ Hhas). simpl. apply elem_of_cons. by left. }
        rewrite IH; rewrite nodes_add_node, Hnew.
        - by rewrite <- app_assoc.
        - simpl in Hnd. by rewrite <- app_assoc. }
      apply (Hgen nodes nx.empty). exact Hnodup. }
    assert (Hgen : forall es g,
              (forall e, e ∈ es ->
                 GraphEdge.source e ∈ (GraphNode.id <$> nodes)
                 /\ GraphEdge.target e ∈ (GraphNode.id <$> nodes)) ->
              nx.nodes g = (GraphNode.id <$> nodes) ->
              nx.nodes
                (foldl (fun G edge =>
                          nx.add_edge (GraphEdge.source edge) (GraphEdge.target edge)
                            (edge_attr edge) G) g es)
              = (GraphNode.id <$> nodes)).
    { induction es as [|e es IH]; intros g Hes Hg; simpl; [exact Hg|].
      apply IH.
      - intros e' He'. apply Hes, elem_of_cons. by right.
      - destruct (Hes e) as [Hsrc Htgt]; [apply elem_of_cons; by left|].
        rewrite nodes_add_edge_closed; [exact Hg|by rewrite Hg|by rewrite Hg]. }
    by apply Hgen. }
  split; [exact Hnodes|].
  unfold nx.number_of_nodes, len. f_equal.
  change (length (nx._node _)) with (length (nx._node (_create_networkx_graph nodes edges))).
  rewrite <- (length_fmap fst). fold (nx.nodes (_create_networkx_graph nodes edges)).
  by rewrite Hnodes, length_fmap.
Qed.

End GraphNodes.
Section LayoutExamples.
Import Standin.

Lemma hierarchical_layer_height_witness :
  exists layout p,
    _hierarchical_layout mixed_nodes [] = Ok layout
    /\ layout !! "I1" = Some p
    /\ Pos.y p = inject_Z (3 * 100).
Proof.
  pose (layout := foldl place_layer ∅
                  (foldl (fun groups node => group_append node groups) [] mixed_nodes)).
  destruct (hierarchical_layer_height mixed_nodes [] layout
              (GraphNode.new "I1" "MIT" INSTITUTION []))
    as (p & Hp & Hy).
  - apply (bool_decide_unpack _). vm_compute. exact I.
  - reflexivity.
  - apply list_elem_of_lookup. by exists 4%nat.
  - exists layout, p. split; [reflexivity|]. by split.
Defined.

Lemma spring_depth_band_witness :
  exists layout p,
    _spring_layout four_papers [cites "P1" "P2"; cites "P2" "P3"] = Ok layout
    /\ layout !! "P2" = Some p
    /\ "P2" ∈ (GraphNode.id <$> four_papers)
    /\ exists z, Pos.z p = inject_Z z /\ -50 <= z <= 49.
Proof.
  assert (Hsome : is_Some
            (match _spring_layout four_papers [cites "P1" "P2"; cites "P2" "P3"] with
             | Ok layout => layout !! "P2"
             | Raise _ => None
             end)).
  { apply (bool_decide_unpack _). vm_compute. exact I. }
  destruct Hsome as [p Hp].
  eexists _, p. split; [reflexivity|]. split; [exact Hp|].
  by apply (spring_depth_band four_papers [cites "P1" "P2"; cites "P2" "P3"] _ "P2" p
              eq_refl).
Defined.

Lemma created_graph_same_nodes_witness :
  nx.nodes chain_and_loner = (GraphNode.id <$> four_papers)
  /\ nx.number_of_nodes chain_and_loner = len four_papers.
Proof.
  apply created_graph_same_nodes.
  - apply (bool_decide_unpack _). vm_compute. exact I.
  - apply Forall_forall. apply (bool_decide_unpack _). vm_compute. exact I.
Defined.

End LayoutExamples.

(** ** The id of a returned graph *)

Section BuildId.
Context `{Numpy} `{nx.Algorithms} `{Runtime}.

(** X24. A build that returns closed its session, and the id of the
    graph it returns is the id the store gave to the row written for the
    user, unless the write failed and was rolled back: then it is the
    provisional [kg_<user>_<timestamp>]. *)
Theorem build_returned_id (session : Session.t) (user_id : string)
    (papers authors keywords : option (list string)) (max_nodes : Z) (g : GraphData.t) :
  build_research_knowledge_graph session user_id papers authors keywords max_nodes = Ok g ->
  Session.close session = Ok tt
  /\ exists kg,
       KnowledgeGraph.created_by_id kg = user_id
       /\ KnowledgeGraph.nodes kg = GraphData.nodes g
       /\ KnowledgeGraph.edges kg = GraphData.edges g
       /\ (Session.commit session kg = Ok (GraphData.id g)
           \/ (exists e, Session.commit session kg = Raise e)
              /\ Session.rollback session = Ok tt
              /\ GraphData.id g = "kg_" +:+ user_id +:+ "_" +:+ utcnow_timestamp).
Proof.
  intros Hbuild. split.
  - unfold build_research_knowledge_graph, get_async_session in Hbuild.
    destruct (Session.close session) as [[]|e]; [reflexivity|discriminate].
  - destruct (build_inv _ _ _ _ _ _ _ Hbuild) as (graph_data & Hasm & Hsave).
    destruct (assemble_inv _ _ _ _ _ _ _ Hasm) as (_ & _ & _ & _ & _ & Hid & _).
    unfold _save_knowledge_graph in Hsave.
    match type of Hsave with
    | context [Session.commit session ?row] => exists row; set (kg := row) in *
    end.
    destruct (Session.commit session kg) as [kg_id|e] eqn:Hcommit.
    + apply Ok_inj in Hsave. subst g. repeat split; try reflexivity. by left.
    + destruct (Session.rollback session) as [[]|e'] eqn:Hrollback;
        cbn [mbind Result_bind] in Hsave; [|discriminate].
      apply Ok_inj in Hsave. subst g. repeat split; try reflexivity.
      right. split; [by exists e|]. by split.
Qed.

End BuildId.

Section BuildIdExamples.
Import Standin.

Lemma build_returned_id_witness :
  exists g,
    build_research_knowledge_graph accepting_sink "u1" None None None 10 = Ok g
    /\ Session.close accepting_sink = Ok tt
    /\ exists kg,
         KnowledgeGraph.created_by_id kg = "u1"
         /\ KnowledgeGraph.nodes kg = GraphData.nodes g
         /\ KnowledgeGraph.edges kg = GraphData.edges g
         /\ (Session.commit accepting_sink kg = Ok (GraphData.id g)
             \/ (exists e, Session.commit accepting_sink kg = Raise e)
                /\ Session.rollback accepting_sink = Ok tt
                /\ GraphData.id g = "kg_" +:+ "u1" +:+ "_" +:+ utcnow_timestamp).
Proof.
  destruct (succeeded_Ok
              (build_research_knowledge_graph accepting_sink "u1" None None None 10))
    as [g Hbuild]; [vm_compute; reflexivity|].
  exists g. split; [exact Hbuild|].
  exact (build_returned_id accepting_sink "u1" None None None 10 g Hbuild).
Defined.

End BuildIdExamples.

(** ** The edges of the analysis graph *)

Section GraphEdges.

#[local] Open Scope list_scope.

Lemma sumZ_cons (x : Z) (l : list Z) : nx.sumZ (x :: l) = x + nx.sumZ l.
Proof. reflexivity. Qed.

Lemma sumZ_app (l k : list Z) : nx.sumZ (l ++ k) = nx.sumZ l + nx.sumZ k.
Proof.
  induction l as [|x l IH]; [reflexivity|].
  rewrite <- app_comm_cons, !sumZ_cons, IH. lia.
Qed.

Lemma sumZ_le {A} (f f' : A -> Z) (l : list A) :
  (forall x, x ∈ l -> f x <= f' x) -> nx.sumZ (f <$> l) <= nx.sumZ (f' <$> l).
Proof.
  induction l as [|x l IH]; intros Hle; [reflexivity|].
  rewrite !fmap_cons, !sumZ_cons.
  pose proof (Hle x (list_elem_of_here x l)).
  assert (nx.sumZ (f <$> l) <= nx.sumZ (f' <$> l)).
  { apply IH. intros y Hy. apply Hle. by apply list_elem_of_further. }
  lia.
Qed.

Lemma sumZ_ext {A} (f f' : A -> Z) (l : list A) :
  (forall x, x ∈ l -> f x = f' x) -> nx.sumZ (f <$> l) = nx.sumZ (f' <$> l).
Proof.
  intros Heq. f_equal. apply list_fmap_ext. intros i x Hx. apply Heq.
  by apply list_elem_of_lookup_2 in Hx.
Qed.

Lemma sumZ_plus {A} (f f' : A -> Z) (l : list A) :
  nx.sumZ ((fun x => f x + f' x) <$> l) = nx.sumZ (f <$> l) + nx.sumZ (f' <$> l).
Proof.
  induction l as [|x l IH]; [reflexivity|].
  rewrite !fmap_cons, !sumZ_cons, IH. lia.
Qed.

(** A node is listed once: it is counted at most once. *)
Lemma sumZ_indicator (u : string) (l : list string) :
  NoDup l ->
  nx.sumZ ((fun x => if bool_decide (x = u) then 1 else 0) <$> l) <= 1.
Proof.
  induction 1 as [|x l Hx Hl IH]; [by compute|].
  rewrite fmap_cons, sumZ_cons.
  destruct (bool_decide_reflect (x = u)) as [->|Hne]; [|lia].
  assert (nx.sumZ ((fun x => if bool_decide (x = u) then 1 else 0) <$> l) = 0); [|lia].
  rewrite (sumZ_ext _ (fun _ => 0)).
  - clear. induction l as [|y l IH]; [reflexivity|]. by rewrite fmap_cons, sumZ_cons, IH.
  - intros y Hy. rewrite bool_decide_false; [reflexivity|]. intros ->. by apply Hx.
Qed.

(** The degree of a node is read off its own adjacency. *)
Lemma degree_adj (g g' : nx.Graph) (n : string) :
  nx._adj g' !! n = nx._adj g !! n -> nx.degree g' n = nx.degree g n.
Proof. intros Heq. unfold nx.degree, nx.neighbors. by rewrite Heq. Qed.

(** Creating a missing endpoint adds a node of degree 0. *)
Lemma degree_sum_endpoint (u : string) (g : nx.Graph) :
  degree_sum (if nx.has_node g u then g
              else nx.mk (nx._node g ++ [(u, ∅)]) (<[u := ∅]> (nx._adj g)))
  = degree_sum g.
Proof.
  destruct (nx.has_node g u) eqn:Hu; [reflexivity|].
  assert (Hnew : u ∉ nx.nodes g).
  { intros Hin. apply has_node_spec in Hin. congruence. }
  unfold degree_sum. rewrite nodes_new_node, fmap_app, sumZ_app.
  assert (Hold : nx.sumZ (nx.degree (nx.mk (nx._node g ++ [(u, ∅)]) (<[u := ∅]> (nx._adj g)))
                            <$> nx.nodes g)
                 = nx.sumZ (nx.degree g <$> nx.nodes g)).
  { apply sumZ_ext. intros x Hx. apply degree_adj. simpl.
    apply lookup_insert_ne. intros ->. by apply Hnew. }
  rewrite Hold. simpl. unfold nx.degree at 2, nx.neighbors. simpl.
  rewrite lookup_insert_eq. simpl. rewrite dom_empty_L, size_empty.
  rewrite bool_decide_false by set_solver. lia.
Qed.

Lemma degree_sum_add_node (n : string) (attr : gmap string PyVal) (g : nx.Graph) :
  degree_sum (nx.add_node n attr g) = degree_sum g.
Proof.
  pose proof (nodes_add_node n attr g) as Hnodes.
  unfold nx.add_node in *. destruct (nx.has_node g n) eqn:Hn.
  - unfold degree_sum. rewrite Hnodes. apply sumZ_ext. intros x _. by apply degree_adj.
  - pose proof (degree_sum_endpoint n g) as Hsum. rewrite Hn in Hsum.
    unfold degree_sum in *. rewrite nodes_new_node in *.
    rewrite <- Hsum. apply sumZ_ext. intros x _. by apply degree_adj.
Qed.

(** What storing an edge in both directions does to the neighbours. *)
Lemma neighbors_store_edge (u v x : string) (datadict : gmap string PyVal)
    (node : list (string * gmap string PyVal))
    (adj : gmap string (gmap string (gmap string PyVal))) :
  nx.neighbors
    (nx.mk node
       (<[v := <[u := datadict]>
                 (default ∅ (<[u := <[v := datadict]> (default ∅ (adj !! u))]> adj !! v))]>
          (<[u := <[v := datadict]> (default ∅ (adj !! u))]> adj))) x
  = (if bool_decide (x = u) then {[v]} else ∅)
    ∪ (if bool_decide (x = v) then {[u]} else ∅)
    ∪ nx.neighbors (nx.mk node adj) x.
Proof.
  unfold nx.neighbors. simpl.
  destruct (bool_decide_reflect (x = v)) as [->|Hxv].
  - rewrite lookup_insert_eq. simpl. rewrite dom_insert_L.
    destruct (bool_decide_reflect (v = u)) as [->|Hvu].
    + rewrite lookup_insert_eq. simpl. rewrite dom_insert_L. set_solver.
    + rewrite lookup_insert_ne by congruence. set_solver.
  - rewrite lookup_insert_ne by congruence.
    destruct (bool_decide_reflect (x = u)) as [->|Hxu].
    + rewrite lookup_insert_eq. simpl. rewrite dom_insert_L. set_solver.
    + rewrite lookup_insert_ne by congruence. set_solver.
Qed.

Lemma size_add_one (a : string) (X : gset string) :
  (size ({[a]} ∪ X) <= S (size X))%nat.
Proof.
  rewrite size_union_alt, size_singleton.
  assert (size (X ∖ {[a]}) <= size X)%nat by (apply subseteq_size; set_solver). lia.
Qed.

(** Storing an edge raises the degree of its ends by at most one each,
    and by at most two at the one end of a self-loop. *)
Lemma degree_store_edge (u v x : string) (datadict : gmap string PyVal)
    (node : list (string * gmap string PyVal))
    (adj : gmap string (gmap string (gmap string PyVal))) :
  nx.degree
    (nx.mk node
       (<[v := <[u := datadict]>
                 (default ∅ (<[u := <[v := datadict]> (default ∅ (adj !! u))]> adj !! v))]>
          (<[u := <[v := datadict]> (default ∅ (adj !! u))]> adj))) x
  <= nx.degree (nx.mk node adj) x
     + (if bool_decide (x = u) then 1 else 0)
     + (if bool_decide (x = v) then 1 else 0).
Proof.
  unfold nx.degree. rewrite neighbors_store_edge.
  set (N := nx.neighbors (nx.mk node adj) x).
  destruct (bool_decide_reflect (x = u)) as [Hxu|Hxu];
    destruct (bool_decide_reflect (x = v)) as [Hxv|Hxv].
  - replace ({[v]} ∪ {[u]} ∪ N) with ({[x]} ∪ N) by set_solver.
    pose proof (size_add_one x N).
    destruct (bool_decide (x ∈ {[x]} ∪ N)), (bool_decide (x ∈ N)); lia.
  - replace ({[v]} ∪ ∅ ∪ N) with ({[v]} ∪ N) by set_solver.
    pose proof (size_add_one v N).
    assert (Hself : x ∈ {[v]} ∪ N <-> x ∈ N) by set_solver.
    destruct (bool_decide_reflect (x ∈ {[v]} ∪ N)), (bool_decide_reflect (x ∈ N));
      try lia; tauto.
  - replace (∅ ∪ {[u]} ∪ N) with ({[u]} ∪ N) by set_solver.
    pose proof (size_add_one u N).
    assert (Hself : x ∈ {[u]} ∪ N <-> x ∈ N) by set_solver.
    destruct (bool_decide_reflect (x ∈ {[u]} ∪ N)), (bool_decide_reflect (x ∈ N));
      try lia; tauto.
  - replace (∅ ∪ ∅ ∪ N) with N by set_solver. lia.
Qed.

Lemma degree_sum_add_edge (u v : string) (attr : gmap string PyVal) (g : nx.Graph) :
  well_formed g -> degree_sum (nx.add_edge u v attr g) <= degree_sum g + 2.
Proof.
  intros Hg. unfold nx.add_edge.
  destruct (well_formed_endpoint u g Hg) as (Hg1 & _ & _).
  pose proof (degree_sum_endpoint u g) as Hsum1.
  set (g1 := if nx.has_node g u then g
             else nx.mk (nx._node g ++ [(u, ∅)]) (<[u := ∅]> (nx._adj g))) in *.
  destruct (well_formed_endpoint v g1 Hg1) as (Hg2 & _ & _).
  pose proof (degree_sum_endpoint v g1) as Hsum2.
  set (g2 := if nx.has_node g1 v then g1
             else nx.mk (nx._node g1 ++ [(v, ∅)]) (<[v := ∅]> (nx._adj g1))) in *.
  cbv zeta. rewrite <- Hsum1, <- Hsum2.
  set (datadict := attr ∪ default ∅ (default ∅ (nx._adj g2 !! u) !! v)).
  unfold degree_sum.
  change (nx.nodes (nx.mk (nx._node g2) ?adj)) with (nx.nodes g2).
  destruct Hg2 as [Hnodup _].
  etrans.
  { apply (sumZ_le _ (fun x => nx.degree g2 x
                               + ((if bool_decide (x = u) then 1 else 0)
                                  + (if bool_decide (x = v) then 1 else 0)))).
    intros x _.
    pose proof (degree_store_edge u v x datadict (nx._node g2) (nx._adj g2)) as Hle.
    cbv zeta in Hle. destruct g2 as [node2 adj2]. simpl in *. lia. }
  rewrite sumZ_plus, sumZ_plus.
  pose proof (sumZ_indicator u (nx.nodes g2) Hnodup).
  pose proof (sumZ_indicator v (nx.nodes g2) Hnodup).
  lia.
Qed.

(** X25. The analysis graph has at most as many edges as the edge list:
    [number_of_edges] never exceeds [len(edges)], the figure the metadata
    reports. Edges between the same two nodes, in either direction, are
    stored once. *)
Theorem created_graph_edge_count (nodes : list GraphNode.t) (edges : list GraphEdge.t) :
  nx.number_of_edges (_create_networkx_graph nodes edges) <= len edges.
Proof.
  unfold nx.number_of_edges. fold (degree_sum (_create_networkx_graph nodes edges)).
  apply Z.div_le_upper_bound; [lia|].
  unfold _create_networkx_graph. cbv zeta.
  set (G := foldl (fun G node => nx.add_node (GraphNode.id node) (node_attr node) G)
              nx.empty nodes).
  assert (HG : well_formed G /\ degree_sum G = 0).
  { unfold G. apply (foldl_invariant (fun G => well_formed G /\ degree_sum G = 0)).
    - intros b a [Hb Hsum]. split; [by apply well_formed_add_node|].
      by rewrite degree_sum_add_node.
    - split; [apply well_formed_empty|reflexivity]. }
  destruct HG as [HG Hzero].
  assert (Hgen : forall (edges : list GraphEdge.t) (G : nx.Graph) (k : Z),
            well_formed G -> degree_sum G <= 2 * k ->
            degree_sum (foldl (fun G edge =>
                                 nx.add_edge (GraphEdge.source edge) (GraphEdge.target edge)
                                   (edge_attr edge) G) G edges)
            <= 2 * (k + len edges)).
  { clear. induction edges as [|e edges IH]; intros G k HG Hk.
    - change (len (@nil GraphEdge.t)) with 0. simpl. lia.
    - simpl foldl.
      replace (k + len (e :: edges)) with ((k + 1) + len edges)
        by (unfold len; simpl length; lia).
      apply IH; [by apply well_formed_add_edge|].
      pose proof (degree_sum_add_edge (GraphEdge.source e) (GraphEdge.target e)
                    (edge_attr e) G HG). lia. }
  specialize (Hgen edges G 0 HG). simpl in Hgen. apply Hgen. lia.
Qed.

End GraphEdges.
Section GraphEdgeExamples.
Import Standin.

(** Two papers citing each other: two edges in the list, one in the
    analysis graph. *)
Lemma mutual_citations_one_edge :
  nx.number_of_edges
    (_create_networkx_graph [bare_node "P1"; bare_node "P2"]
       [cites "P1" "P2"; cites "P2" "P1"]) = 1
  /\ len [cites "P1" "P2"; cites "P2" "P1"] = 2.
Proof. split; vm_compute; reflexivity. Qed.

End GraphEdgeExamples.
